(** * Evaluation/generation_eval.py: the generation-evaluation driver

    A shallow embedding of [evaluate_sample], [evaluate_dataset] and [main].

    Conventions of the embedding.
    - A Python [dict] is an association list in insertion order with one
      entry per key ([dict_set] overwrites in place, as CPython does).
    - A Python exception is a value of [exn]; code that may raise returns
      a [result].
    - A Python [float] is an IEEE 754 binary64 number, a primitive
      [float] of Rocq: every addition and division rounds to nearest,
      ties to even, and overflows to an infinity, as the hardware does.
    - Console output ([print]) is not modelled, except for the progress
      lines of [evaluate_dataset] in the module [Progress].
    - The four metric computers of [Evaluation/metrics] and the external
      constructors are parameters of the development. *)

From Stdlib Require Import List String Ascii ZArith QArith Bool Lia Permutation Arith.
From Stdlib Require Import Floats.
Import ListNotations.
Local Open Scope string_scope.
Local Open Scope nat_scope.
Local Open Scope list_scope.
#[local] Set Warnings "-inexact-float".

(* ================================================================== *)
(** * Python values, exceptions and dictionaries *)
(* ================================================================== *)

Module Py.

(** The exceptions that the modelled code can raise or let through. *)
Inductive exn : Type :=
| ValueError (msg : string)
| TypeError
| KeyError (key : string)
| IndexError
| ExternalError (what : string).

Inductive result (A : Type) : Type :=
| Ok (a : A)
| Raise (e : exn).
Arguments Ok {A} a.
Arguments Raise {A} e.

Definition bind {A B} (r : result A) (k : A -> result B) : result B :=
  match r with
  | Ok a => k a
  | Raise e => Raise e
  end.

(** [for x in xs: acc = body(acc, x)] where the body may raise. *)
Fixpoint for_each {A S} (body : S -> A -> result S) (xs : list A) (acc : S)
  : result S :=
  match xs with
  | [] => Ok acc
  | x :: xs' => bind (body acc x) (for_each body xs')
  end.

(** Code with effects: the log of the effects performed so far, and a
    value or an exception. *)
Definition Eff (E A : Type) : Type := list E * result A.

Definition ret {E A} (a : A) : Eff E A := ([], Ok a).

Definition lift {E A} (r : result A) : Eff E A := ([], r).

Definition emit {E} (e : E) : Eff E unit := ([e], Ok tt).

Definition ebind {E A B} (m : Eff E A) (k : A -> Eff E B) : Eff E B :=
  match m with
  | (log, Ok a) => let '(log', r) := k a in (log ++ log', r)
  | (log, Raise e) => (log, Raise e)
  end.

Fixpoint efor_each {E A S} (body : S -> A -> Eff E S) (xs : list A) (acc : S)
  : Eff E S :=
  match xs with
  | [] => ret acc
  | x :: xs' => ebind (body acc x) (efor_each body xs')
  end.

(** ** Floats *)

Definition pyfloat : Set := PrimFloat.float.

Definition NaN : pyfloat := PrimFloat.nan.
Definition PInf : pyfloat := PrimFloat.infinity.
Definition NInf : pyfloat := PrimFloat.neg_infinity.
Definition fzero : pyfloat := PrimFloat.zero.
Definition neg_zero : pyfloat := PrimFloat.neg_zero.

(** [x != x], which holds of not-a-number only. *)
Definition isnan (f : pyfloat) : bool := PrimFloat.is_nan f.

Definition isfinite (f : pyfloat) : bool :=
  negb (PrimFloat.is_nan f) && negb (PrimFloat.is_infinity f).

(** [a + b] and [a / b] in binary64. *)
Definition fadd (a b : pyfloat) : pyfloat := PrimFloat.add a b.
Definition fdiv (a b : pyfloat) : pyfloat := PrimFloat.div a b.

(** The conversion of an integer to binary64: the nearest binary64
    number, ties to even, as [float(z)] and as the C conversion of a
    64-bit integer. *)
Definition float_of_int (z : Z) : pyfloat :=
  SF2Prim (binary_normalize prec emax z 0 false).

(** ** Objects that a metric computer may hand back

    [bool] is a subclass of [int] in Python and is covered by [VInt]
    ([True] is 1).  [VNone] and [VStr] stand for the objects that are
    neither [int] nor [float]. *)
Inductive pyval : Type :=
| VFloat (f : pyfloat)
| VInt (z : Z)
| VNone
| VStr (s : string).

(** [isinstance(score, (int, float))] *)
Definition isinstance_int_float (v : pyval) : bool :=
  match v with
  | VFloat _ | VInt _ => true
  | VNone | VStr _ => false
  end.

(** ** Dictionaries *)

Definition dict (V : Type) : Type := list (string * V).

Fixpoint dict_get {V} (k : string) (d : dict V) : option V :=
  match d with
  | [] => None
  | (k', v) :: d' => if String.eqb k k' then Some v else dict_get k d'
  end.

(** [d[k] = v] *)
Fixpoint dict_set {V} (k : string) (v : V) (d : dict V) : dict V :=
  match d with
  | [] => [(k, v)]
  | (k', v') :: d' =>
      if String.eqb k k' then (k', v) :: d' else (k', v') :: dict_set k v d'
  end.

Definition dict_keys {V} (d : dict V) : list string := map fst d.
Definition dict_values {V} (d : dict V) : list V := map snd d.
Definition dict_items {V} (d : dict V) : list (string * V) := d.

(** [k in xs] for a list of strings. *)
Definition str_in (k : string) (xs : list string) : bool :=
  existsb (String.eqb k) xs.

(** The invariant of every Python dictionary: no key occurs twice. *)
Definition dict_wf {V} (d : dict V) : Prop := NoDup (dict_keys d).

End Py.
Import Py.

Declare Scope py_scope.
Notation "x <- c ;; k" := (bind c (fun x => k))
  (at level 61, c at next level, right associativity) : py_scope.
Notation "x <~ c ;; k" := (ebind c (fun x => k))
  (at level 61, c at next level, right associativity) : py_scope.
Local Open Scope py_scope.

(* ================================================================== *)
(** * NumPy: [np.isnan] and [np.nanmean] *)
(* ================================================================== *)

(** The summation is that of NumPy 1.25 and later: [np.add.reduce]
    starts from the identity -0.0 and hands the array to
    [pairwise_sum] of [loops_utils.h.src]; an array that is cast on
    the way goes through the iterator's buffer of 8192 elements. *)
Module Np.

(** Python integers that NumPy stores in a 64-bit integer array (int64
    or uint64); any other integer becomes an object array. *)
Definition fits_int64_or_uint64 (z : Z) : bool :=
  ((- 2 ^ 63 <=? z) && (z <? 2 ^ 64))%Z.

(** [np.isnan(x)]: defined on floats and on 64-bit integers; it raises
    [TypeError] on every other object. *)
Definition isnan (v : pyval) : result bool :=
  match v with
  | VFloat f => Ok (Py.isnan f)
  | VInt z => if fits_int64_or_uint64 z then Ok false else Raise TypeError
  | VNone | VStr _ => Raise TypeError
  end.

(** Conversion of a list element to float64.  (An integer outside the
    64-bit range would make an object array; [evaluate_dataset] passes
    none, since [np.isnan] has raised on it at line 58.) *)
Definition to_float (v : pyval) : result pyfloat :=
  match v with
  | VFloat f => Ok f
  | VInt z => Ok (float_of_int z)
  | VNone | VStr _ => Raise TypeError
  end.

Fixpoint asarray (vs : list pyval) : result (list pyfloat) :=
  match vs with
  | [] => Ok []
  | v :: vs' =>
      f <- to_float v ;;
      fs <- asarray vs' ;;
      Ok (f :: fs)
  end.

(** Whether [np.asarray] gives the list an integer element type: every
    element is an [int], and they fit int64 together or uint64
    together.  With a [float] among them, or with a negative integer
    beside one of 2^63 or more, the element type is float64. *)
Definition integer_array (vs : list pyval) : bool :=
  match vs with
  | [] => false
  | _ :: _ =>
      forallb (fun v => match v with
                        | VInt z => (z <? 2 ^ 63)%Z
                        | _ => false
                        end) vs
      || forallb (fun v => match v with
                           | VInt z => (0 <=? z)%Z
                           | _ => false
                           end) vs
  end.

(** ** [pairwise_sum] *)

(** [r[j] += a[i + j]] for the eight accumulators. *)
Definition add8 (r xs : list pyfloat) : list pyfloat :=
  map (fun p => fadd (fst p) (snd p)) (combine r xs).

(** The loop [for (i = 8; i < n - (n % 8); i += 8)], [blocks] rounds
    of it on the rest [a] of the array. *)
Fixpoint accumulate (blocks : nat) (r a : list pyfloat) : list pyfloat :=
  match blocks with
  | 0 => r
  | S blocks' => accumulate blocks' (add8 r (firstn 8 a)) (skipn 8 a)
  end.

(** The branch for 8 to 128 elements: eight accumulators over the
    blocks of eight, their sum as a balanced tree, then the elements
    left over, one by one. *)
Definition unrolled_sum (a : list pyfloat) : pyfloat :=
  let n := List.length a in
  let full := n - n mod 8 in
  let r := accumulate (full / 8 - 1) (firstn 8 a) (skipn 8 a) in
  let res :=
    match r with
    | [r0; r1; r2; r3; r4; r5; r6; r7] =>
        fadd (fadd (fadd r0 r1) (fadd r2 r3))
             (fadd (fadd r4 r5) (fadd r6 r7))
    | _ => neg_zero
    end in
  fold_left fadd (skipn full a) res.

(** [n2 = n / 2; n2 -= n2 % 8]: where an array of more than 128
    elements is split. *)
Definition split_point (n : nat) : nat := n / 2 - (n / 2) mod 8.

(** Fewer than 8 elements are added one by one, starting from -0.0;
    more than 128 are split in two, the first part a multiple of 8
    long.  [fuel] bounds the depth of the recursion; the length of the
    array is enough of it. *)
Fixpoint pairwise_sum_rec (fuel : nat) (a : list pyfloat) : pyfloat :=
  let n := List.length a in
  if n <? 8 then fold_left fadd a neg_zero
  else if n <=? 128 then unrolled_sum a
  else
    match fuel with
    | 0 => unrolled_sum a
    | S fuel' =>
        let n2 := split_point n in
        fadd (pairwise_sum_rec fuel' (firstn n2 a))
             (pairwise_sum_rec fuel' (skipn n2 a))
    end.

Definition pairwise_sum (a : list pyfloat) : pyfloat :=
  pairwise_sum_rec (List.length a) a.

(** ** [np.add.reduce] *)

(** Over a float64 array: the whole array in one call of the inner
    loop.  The sum of an empty array is 0.0. *)
Definition add_reduce (a : list pyfloat) : pyfloat :=
  match a with
  | [] => fzero
  | _ :: _ => fadd neg_zero (pairwise_sum a)
  end.

(** The default buffer size of the iterator, in elements. *)
Definition bufsize : nat := 8 * 1024.

Fixpoint chunks_rec {A} (fuel size : nat) (l : list A) : list (list A) :=
  match fuel with
  | 0 => []
  | S fuel' =>
      match l with
      | [] => []
      | _ :: _ => firstn size l :: chunks_rec fuel' size (skipn size l)
      end
  end.

(** The array cut in pieces of [size] elements, the last one shorter. *)
Definition chunks {A} (size : nat) (l : list A) : list (list A) :=
  chunks_rec (List.length l) size l.

(** Over an integer array with [dtype=float64]: the elements are cast
    buffer by buffer, and the inner loop adds the pairwise sum of each
    buffer to the output. *)
Definition add_reduce_cast (a : list pyfloat) : pyfloat :=
  match a with
  | [] => fzero
  | _ :: _ =>
      fold_left (fun out chunk => fadd out (pairwise_sum chunk))
                (chunks bufsize a) neg_zero
  end.

(** ** [np.mean] and [np.nanmean] *)

(** The element count as a float64. *)
Definition float_of_count (n : nat) : pyfloat := float_of_int (Z.of_nat n).

(** [np.mean] of an integer array: [umr_sum(arr, dtype=float64) / rcount]. *)
Definition mean (arr : list pyfloat) : pyfloat :=
  fdiv (add_reduce_cast arr) (float_of_count (List.length arr)).

(** [np.nanmean] of a float64 array: the not-a-number entries are
    replaced by 0 and left out of the count; the sum is divided by the
    count, which gives not-a-number (with a warning, not an exception)
    when the count is 0. *)
Definition nanmean_floats (arr : list pyfloat) : pyfloat :=
  let replaced := map (fun f => if Py.isnan f then fzero else f) arr in
  let cnt := List.length (filter (fun f => negb (Py.isnan f)) arr) in
  fdiv (add_reduce replaced) (float_of_count cnt).

(** [np.nanmean] of a list: an integer array has no not-a-number entry
    and goes to [np.mean]. *)
Definition nanmean (vs : list pyval) : result pyfloat :=
  arr <- asarray vs ;;
  Ok (if integer_array vs then mean arr else nanmean_floats arr).

(** ** [np.nanmean] on numbers

    A list of floats other than not-a-number and of 64-bit integers,
    as [evaluate_dataset] builds them: every element is converted and
    every element counts. *)
Definition floats_of (vs : list pyval) : list pyfloat :=
  map (fun v => match v with
                | VFloat f => f
                | VInt z => float_of_int z
                | VNone | VStr _ => NaN
                end) vs.

Definition sum_of_numbers (vs : list pyval) : pyfloat :=
  if integer_array vs then add_reduce_cast (floats_of vs)
  else add_reduce (floats_of vs).

Definition mean_of_numbers (vs : list pyval) : pyfloat :=
  fdiv (sum_of_numbers vs) (float_of_count (List.length vs)).

End Np.

(* ================================================================== *)
(** * asyncio: awaitables that settle in an order chosen by the loop *)
(* ================================================================== *)

Module Asyncio.

(** The first exception met when the settled awaitables [outs] are
    visited in the order [order] in which they finished. *)
Fixpoint first_raised {A} (order : list nat) (outs : list (result A))
  : option exn :=
  match order with
  | [] => None
  | i :: order' =>
      match nth_error outs i with
      | Some (Raise e) => Some e
      | _ => first_raised order' outs
      end
  end.

Fixpoint all_results {A} (outs : list (result A)) : result (list A) :=
  match outs with
  | [] => Ok []
  | o :: outs' =>
      a <- o ;;
      rest <- all_results outs' ;;
      Ok (a :: rest)
  end.

(** [await asyncio.gather]: the first exception to occur is
    propagated to the awaiter; when none occurs, the results come in
    the order of the arguments.  ([all_results] also covers an [order]
    that leaves out a failed awaitable, which no run produces.) *)
Definition gather {A} (order : list nat) (outs : list (result A))
  : result (list A) :=
  match first_raised order outs with
  | Some e => Raise e
  | None => all_results outs
  end.

(** [asyncio.as_completed(aws)]: the awaitables in the order in which
    they finish. *)
Definition as_completed {A} (order : list nat) (outs : list A) : list A :=
  flat_map (fun i => match nth_error outs i with
                     | Some o => [o]
                     | None => []
                     end) order.

(** An order in which [n] awaitables can finish. *)
Definition completion_order (order : list nat) (n : nat) : Prop :=
  Permutation order (seq 0 n).

(** The entries of [outs] at the indices [order]. *)
Definition pick {A} (order : list nat) (outs : list A) : list A :=
  flat_map (fun i => match nth_error outs i with
                     | Some o => [o]
                     | None => []
                     end) order.

Fixpoint insert_by (place : nat -> nat) (i : nat) (l : list nat) : list nat :=
  match l with
  | [] => [i]
  | j :: l' =>
      if place i <=? place j then i :: l else j :: insert_by place i l'
  end.

(** The indices below [n] by increasing place. *)
Definition start_order (place : nat -> nat) (n : nat) : list nat :=
  fold_right (insert_by place) [] (seq 0 n).

(** [as_completed] puts its awaitables in a set and makes a task of
    each while it iterates over the set: the tasks are created, and so
    take their first step, in the order of the set, which follows the
    hashes of the coroutine objects and not the order of the list.
    [place i] is the place of the [i]-th awaitable in that order. *)
Definition started {A} (place : nat -> nat) (aws : list A) : list A :=
  pick (start_order place (List.length aws)) aws.

End Asyncio.

(* ================================================================== *)
(** * [evaluate_sample] and [evaluate_dataset] *)
(* ================================================================== *)

Module GenEval.

(** The judge model client, as [main] configures it. *)
Record ChatOpenAI : Type := {
  model : string;
  base_url : string;
  api_key : option string;
  temperature : Q;
  max_retries : nat;
  timeout : nat
}.

Record HuggingFaceBgeEmbeddings : Type := { model_name : string }.

Record LangchainEmbeddingsWrapper : Type := {
  embeddings : HuggingFaceBgeEmbeddings
}.

(** One row of the dataset. *)
Record Sample : Type := {
  question : string;
  answer : string;
  contexts : list string;
  ground_truth : string
}.

(** A [datasets.Dataset] is a table: all of its columns have the same
    number of rows, so it is kept as the list of its rows and
    [dataset["question"]] is a projection. *)
Definition Dataset : Type := list Sample.

Definition column {A} (f : Sample -> A) (dataset : Dataset) : list A :=
  map f dataset.

(** A call of one of the four metric computers with its arguments: the
    coroutine object that the call creates. *)
Inductive call : Type :=
| CallRouge (answer ground_truth : string)
| CallCorrectness (question answer ground_truth : string)
    (llm : ChatOpenAI) (emb : LangchainEmbeddingsWrapper)
| CallCoverage (question ground_truth answer : string) (llm : ChatOpenAI)
| CallFaithfulness (question answer : string) (contexts : list string)
    (llm : ChatOpenAI).

(** The name under which [evaluate_sample] files each computer. *)
Definition metric_of (c : call) : string :=
  match c with
  | CallRouge _ _ => "rouge_score"
  | CallCorrectness _ _ _ _ _ => "answer_correctness"
  | CallCoverage _ _ _ _ => "coverage_score"
  | CallFaithfulness _ _ _ _ => "faithfulness"
  end.

(** Whether the judge model, or the embedding model, is handed to the
    computer: a computer cannot reach a model handle it is not given. *)
Definition uses_llm (c : call) : bool :=
  match c with
  | CallRouge _ _ => false
  | _ => true
  end.

Definition uses_embeddings (c : call) : bool :=
  match c with
  | CallCorrectness _ _ _ _ _ => true
  | _ => false
  end.

Definition supported_metrics : list string :=
  ["rouge_score"; "answer_correctness"; "coverage_score"; "faithfulness"].

(** The effects of the evaluators are the calls of metric computers. *)
Definition W (A : Type) : Type := Eff call A.

(** Calling an [async def] computer creates its coroutine; nothing of
    its body can raise before it is awaited. *)
Definition invoke (c : call) : W call := ([c], Ok c).

(** The scheduler's choices for one call of [evaluate_dataset]: the
    place of each sample task in the order in which the tasks start,
    the order in which the sample tasks finish, and for each sample the
    order in which its metric tasks finish. *)
Record Schedule : Type := {
  start_place : nat -> nat;
  completion : list nat;
  gather_order : nat -> list nat
}.

Section Metrics.

(** The metric computers of [Evaluation/metrics]: what awaiting each
    coroutine yields. *)
Variable compute_rouge_score : string -> string -> result pyval.
Variable compute_answer_correctness :
  string -> string -> string -> ChatOpenAI -> LangchainEmbeddingsWrapper ->
  result pyval.
Variable compute_coverage_score :
  string -> string -> string -> ChatOpenAI -> result pyval.
Variable compute_faithfulness_score :
  string -> string -> list string -> ChatOpenAI -> result pyval.

(** Awaiting a coroutine. *)
Definition await (c : call) : result pyval :=
  match c with
  | CallRouge a g => compute_rouge_score a g
  | CallCorrectness q a g llm emb => compute_answer_correctness q a g llm emb
  | CallCoverage q g a llm => compute_coverage_score q g a llm
  | CallFaithfulness q a ctx llm => compute_faithfulness_score q a ctx llm
  end.

(** [for i, metric in enumerate(tasks.keys()): results[metric] = task_results[i]] *)
Definition store_results (keys : list string) (task_results : list pyval)
  : result (dict pyval) :=
  for_each (fun results (im : nat * string) =>
              let '(i, metric) := im in
              match nth_error task_results i with
              | Some r => Ok (dict_set metric r results)
              | None => Raise IndexError
              end)
           (combine (seq 0 (List.length keys)) keys) [].

Definition evaluate_sample (order : list nat)
    (question answer : string) (contexts : list string)
    (ground_truth : string) (metrics : list string)
    (llm : ChatOpenAI) (embeddings : LangchainEmbeddingsWrapper)
  : W (dict pyval) :=
  let tasks : dict call := [] in
  tasks <~ (if str_in "rouge_score" metrics then
              c <~ invoke (CallRouge answer ground_truth) ;;
              ret (dict_set "rouge_score" c tasks)
            else ret tasks) ;;
  tasks <~ (if str_in "answer_correctness" metrics then
              c <~ invoke (CallCorrectness question answer ground_truth
                             llm embeddings) ;;
              ret (dict_set "answer_correctness" c tasks)
            else ret tasks) ;;
  tasks <~ (if str_in "coverage_score" metrics then
              c <~ invoke (CallCoverage question ground_truth answer llm) ;;
              ret (dict_set "coverage_score" c tasks)
            else ret tasks) ;;
  tasks <~ (if str_in "faithfulness" metrics then
              c <~ invoke (CallFaithfulness question answer contexts llm) ;;
              ret (dict_set "faithfulness" c tasks)
            else ret tasks) ;;
  task_results <~ lift (Asyncio.gather order
                          (map await (dict_values tasks))) ;;
  lift (store_results (dict_keys tasks) task_results).

(** [evaluate_sample] on the fields of one row, as line 37 calls it. *)
Definition evaluate_row (order : list nat) (s : Sample)
    (metrics : list string) (llm : ChatOpenAI)
    (embeddings : LangchainEmbeddingsWrapper) : W (dict pyval) :=
  evaluate_sample order (question s) (answer s) (contexts s) (ground_truth s)
    metrics llm embeddings.

(** The rows with their indices. *)
Definition indexed (dataset : Dataset) : list (nat * Sample) :=
  combine (seq 0 (List.length dataset)) dataset.

(** What the task of one row settles with. *)
Definition row_outcome (sched : Schedule) (metrics : list string)
    (llm : ChatOpenAI) (emb : LangchainEmbeddingsWrapper)
    (p : nat * Sample) : result (dict pyval) :=
  snd (evaluate_row (gather_order sched (fst p)) (snd p) metrics llm emb).

(** ** Aggregation (lines 23 and 56 to 61 of the source) *)

(** [results = {metric: [] for metric in metrics}] *)
Definition init_results (metrics : list string) : dict (list pyval) :=
  fold_left (fun results metric => dict_set metric [] results) metrics [].

(** The body of the inner loop. *)
Definition collect_score (results : dict (list pyval))
    (item : string * pyval) : result (dict (list pyval)) :=
  let '(metric, score) := item in
  if isinstance_int_float score then
    nan <- Np.isnan score ;;
    if negb nan then
      match dict_get metric results with
      | Some scores => Ok (dict_set metric (scores ++ [score]) results)
      | None => Raise (KeyError metric)
      end
    else Ok results
  else Ok results.

Definition collect_sample (results : dict (list pyval))
    (sample : dict pyval) : result (dict (list pyval)) :=
  for_each collect_score (dict_items sample) results.

(** [{metric: np.nanmean(scores) for metric, scores in results.items()}] *)
Definition mean_results (results : dict (list pyval)) : result (dict pyfloat) :=
  for_each (fun out (item : string * list pyval) =>
              let '(metric, scores) := item in
              m <- Np.nanmean scores ;;
              Ok (dict_set metric m out))
           (dict_items results) [].

(** The loop of lines 56 to 59 on the dictionary of line 23. *)
Definition collect_scores (metrics : list string)
    (sample_results : list (dict pyval)) : result (dict (list pyval)) :=
  for_each collect_sample sample_results (init_results metrics).

Definition aggregate (metrics : list string) (sample_results : list (dict pyval))
  : result (dict pyfloat) :=
  results <- collect_scores metrics sample_results ;;
  mean_results results.

(** ** The fan-out and the collection of the results *)

(** The coroutines of lines 34 to 46, one per row index.  The columns
    have [total_samples] entries each, so no index is out of range and
    the defaults of [nth] are never read. *)
Definition sample_tasks (sched : Schedule) (dataset : Dataset)
    (metrics : list string) (llm : ChatOpenAI)
    (embeddings : LangchainEmbeddingsWrapper) : list (W (dict pyval)) :=
  let questions := column question dataset in
  let answers := column answer dataset in
  let contexts_list := column contexts dataset in
  let ground_truths := column ground_truth dataset in
  let total_samples := List.length questions in
  map (fun i =>
         evaluate_sample (gather_order sched i)
           (nth i questions "") (nth i answers "") (nth i contexts_list [])
           (nth i ground_truths "") metrics llm embeddings)
      (seq 0 total_samples).

(** [as_completed] turns every coroutine into a task and the loop runs
    them all: each body makes its calls when the task starts, and
    settles with a value or an exception that stays in its future until
    the future is awaited.  The log lists the calls task by task in the
    order in which the tasks start; the futures keep the order of the
    task list. *)
Definition ensure_futures {A} (place : nat -> nat) (tasks : list (W A))
  : W (list (result A)) :=
  (flat_map fst (Asyncio.started place tasks), Ok (map snd tasks)).

(** Lines 49 to 53: [result = await future; sample_results.append(result)]. *)
Definition collect_results (futures : list (result (dict pyval)))
  : result (list (dict pyval)) :=
  for_each (fun sample_results future =>
              r <- future ;;
              Ok (sample_results ++ [r]))
           futures [].

(** Lines 34 to 53: the list [sample_results]. *)
Definition collect_dataset (sched : Schedule) (dataset : Dataset)
    (metrics : list string) (llm : ChatOpenAI)
    (embeddings : LangchainEmbeddingsWrapper) : W (list (dict pyval)) :=
  let tasks := sample_tasks sched dataset metrics llm embeddings in
  futures <~ ensure_futures (start_place sched) tasks ;;
  lift (collect_results (Asyncio.as_completed (completion sched) futures)).

Definition evaluate_dataset (sched : Schedule) (dataset : Dataset)
    (metrics : list string) (llm : ChatOpenAI)
    (embeddings : LangchainEmbeddingsWrapper) : W (dict pyfloat) :=
  sample_results <~ collect_dataset sched dataset metrics llm embeddings ;;
  lift (aggregate metrics sample_results).

End Metrics.

End GenEval.

(* ================================================================== *)
(** * The [json] module, on token streams *)
(* ================================================================== *)

(** A JSON text is taken as its sequence of tokens: white space and the
    [indent] setting only lay the tokens out, a string token stands for
    its quoted and escaped text, and a number token for the literal
    that [float.__repr__] prints, which [float] reads back as the same
    binary64 number. *)
Module Json.

(** The Python objects that [json] writes and reads. *)
#[local] Set Warnings "-register-all".
Inductive json : Type :=
| JNull
| JBool (b : bool)
| JInt (z : Z)
| JFloat (f : pyfloat)
| JString (s : string)
| JArray (items : list json)
| JObject (members : dict json).

Inductive token : Type :=
| TNull
| TTrue
| TFalse
| TInt (z : Z)
| TFloat (f : pyfloat)
| TNaN
| TInfinity
| TMinusInfinity
| TString (s : string)
| TLBracket
| TRBracket
| TLBrace
| TRBrace
| TComma
| TColon.

(** [JSONEncoder] with [allow_nan=True] (the default): [floatstr]
    writes [NaN] when [o != o], [Infinity] when [o == INFINITY],
    [-Infinity] when [o == -INFINITY], and [float.__repr__(o)]
    otherwise. *)
Definition encode_float (f : pyfloat) : token :=
  if Py.isnan f then TNaN
  else if PrimFloat.eqb f PInf then TInfinity
  else if PrimFloat.eqb f NInf then TMinusInfinity
  else TFloat f.

(** The encodings of the elements, with a comma between neighbours. *)
Definition comma_separated {A} (enc : A -> list token) : list A -> list token :=
  fix join (l : list A) : list token :=
    match l with
    | [] => []
    | x :: rest =>
        enc x ++
        match rest with
        | [] => []
        | _ :: _ => TComma :: join rest
        end
    end.

Fixpoint encode (v : json) : list token :=
  match v with
  | JNull => [TNull]
  | JBool true => [TTrue]
  | JBool false => [TFalse]
  | JInt z => [TInt z]
  | JFloat f => [encode_float f]
  | JString s => [TString s]
  | JArray items =>
      TLBracket :: comma_separated encode items ++ [TRBracket]
  | JObject members =>
      TLBrace ::
      comma_separated
        (fun kv : string * json =>
           let '(k, x) := kv in TString k :: TColon :: encode x) members
      ++ [TRBrace]
  end.

Definition encode_member (kv : string * json) : list token :=
  let '(k, x) := kv in TString k :: TColon :: encode x.

(** [dict(pairs)]: a later pair with the same key overwrites. *)
Definition dict_of_pairs {V} (pairs : list (string * V)) : dict V :=
  fold_left (fun d (kv : string * V) => dict_set (fst kv) (snd kv) d) pairs [].

(** [JSONDecoder]: a recursive-descent parser; [fuel] bounds the depth
    of the recursion. *)
Fixpoint parse_value (fuel : nat) (ts : list token)
  : option (json * list token) :=
  match fuel with
  | 0 => None
  | S fuel' =>
      match ts with
      | TNull :: r => Some (JNull, r)
      | TTrue :: r => Some (JBool true, r)
      | TFalse :: r => Some (JBool false, r)
      | TInt z :: r => Some (JInt z, r)
      | TFloat f :: r => Some (JFloat f, r)
      | TNaN :: r => Some (JFloat NaN, r)
      | TInfinity :: r => Some (JFloat PInf, r)
      | TMinusInfinity :: r => Some (JFloat NInf, r)
      | TString s :: r => Some (JString s, r)
      | TLBracket :: TRBracket :: r => Some (JArray [], r)
      | TLBracket :: r =>
          match parse_items fuel' r with
          | Some (items, r') => Some (JArray items, r')
          | None => None
          end
      | TLBrace :: TRBrace :: r => Some (JObject [], r)
      | TLBrace :: r =>
          match parse_members fuel' r with
          | Some (pairs, r') => Some (JObject (dict_of_pairs pairs), r')
          | None => None
          end
      | _ => None
      end
  end
with parse_items (fuel : nat) (ts : list token)
  : option (list json * list token) :=
  match fuel with
  | 0 => None
  | S fuel' =>
      match parse_value fuel' ts with
      | Some (v, TComma :: r) =>
          match parse_items fuel' r with
          | Some (vs, r') => Some (v :: vs, r')
          | None => None
          end
      | Some (v, TRBracket :: r) => Some ([v], r)
      | _ => None
      end
  end
with parse_members (fuel : nat) (ts : list token)
  : option (list (string * json) * list token) :=
  match fuel with
  | 0 => None
  | S fuel' =>
      match ts with
      | TString k :: TColon :: r =>
          match parse_value fuel' r with
          | Some (v, TComma :: r') =>
              match parse_members fuel' r' with
              | Some (ms, r'') => Some ((k, v) :: ms, r'')
              | None => None
              end
          | Some (v, TRBrace :: r') => Some ([(k, v)], r')
          | _ => None
          end
      | _ => None
      end
  end.

(** [json.dumps] and [json.loads]. *)
Definition dumps (v : json) : list token := encode v.

Definition loads (ts : list token) : option json :=
  match parse_value (S (List.length ts)) ts with
  | Some (v, []) => Some v
  | _ => None
  end.

(** Every object of the value, at any depth, is a dictionary. *)
Fixpoint json_wf (v : json) : Prop :=
  match v with
  | JArray items => fold_right (fun x acc => json_wf x /\ acc) True items
  | JObject members =>
      NoDup (dict_keys members) /\
      fold_right (fun (kv : string * json) acc =>
                    (let '(_, x) := kv in json_wf x) /\ acc) True members
  | _ => True
  end.

(** The number of tokens, which bounds the fuel that parsing needs. *)
Definition size (v : json) : nat := List.length (encode v).

End Json.

(* ================================================================== *)
(** * The driver: [main] *)
(* ================================================================== *)

Module Driver.

Import GenEval.

(** [argparse.Namespace] of the command line. *)
Record Namespace : Type := {
  arg_model : string;
  arg_base_url : string;
  arg_bge_model : string;
  arg_data_file : string;
  arg_output_file : string
}.

(** One object of the input file; a field that the object lacks is
    [None] and reading it raises [KeyError]. *)
Record Item : Type := {
  item_question : option string;
  item_gold_answer : option string;
  item_generated_answer : option string;
  item_context : option (list string)
}.

(** The report: group name to metric name to score. *)
Definition Report : Type := dict (dict pyfloat).

Inductive event : Type :=
| ENewChatOpenAI (llm : ChatOpenAI)
| ELoadEmbeddings (name : string)
| EOpenRead (path : string)
| EMetricCall (c : call)
| EOpenWrite (path : string)
| EWrite (path : string) (content : list Json.token).

Definition IO (A : Type) : Type := Eff event A.

(** The Python view of a report, as [json.dump] receives it. *)
Definition report_json (r : Report) : Json.json :=
  Json.JObject
    (map (fun gm : string * dict pyfloat =>
            (fst gm,
             Json.JObject
               (map (fun ms : string * pyfloat =>
                       (fst ms, Json.JFloat (snd ms))) (snd gm)))) r).

Definition score_of_json (v : Json.json) : option pyfloat :=
  match v with
  | Json.JFloat f => Some f
  | _ => None
  end.

Fixpoint metrics_of_json (l : list (string * Json.json))
  : option (dict pyfloat) :=
  match l with
  | [] => Some []
  | (k, v) :: rest =>
      match score_of_json v, metrics_of_json rest with
      | Some f, Some d => Some ((k, f) :: d)
      | _, _ => None
      end
  end.

Fixpoint groups_of_json (l : list (string * Json.json)) : option Report :=
  match l with
  | [] => Some []
  | (g, Json.JObject ms) :: rest =>
      match metrics_of_json ms, groups_of_json rest with
      | Some d, Some r => Some ((g, d) :: r)
      | _, _ => None
      end
  | _ => None
  end.

(** Reading a parsed document as a report. *)
Definition report_of_json (v : Json.json) : option Report :=
  match v with
  | Json.JObject gs => groups_of_json gs
  | _ => None
  end.

(** A report is a dictionary of dictionaries. *)
Definition report_wf (r : Report) : Prop :=
  dict_wf r /\ forall g d, In (g, d) r -> dict_wf d.

(** [json.dump(all_results, f, indent=2)] and [json.load(f)]. *)
Definition dump_report (r : Report) : list Json.token :=
  Json.dumps (report_json r).

Definition load_report (ts : list Json.token) : option Report :=
  match Json.loads ts with
  | Some v => report_of_json v
  | None => None
  end.

(** Truth value of a string, and of [os.getenv]'s result. *)
Definition truthy (s : string) : bool :=
  match s with
  | EmptyString => false
  | String _ _ => true
  end.

Definition truthy_opt (o : option string) : bool :=
  match o with
  | Some s => truthy s
  | None => false
  end.

(** [d[k]] *)
Definition getitem {V} (d : dict V) (k : string) : result V :=
  match dict_get k d with
  | Some v => Ok v
  | None => Raise (KeyError k)
  end.

(** [[item[field] for item in items]] *)
Fixpoint fields {A} (get : Item -> option A) (field : string) (items : list Item)
  : result (list A) :=
  match items with
  | [] => Ok []
  | item :: items' =>
      match get item with
      | Some a => rest <- fields get field items' ;; Ok (a :: rest)
      | None => Raise (KeyError field)
      end
  end.

(** [Dataset.from_dict]: the columns must have one length. *)
Fixpoint from_dict (questions answers : list string)
    (contexts : list (list string)) (ground_truths : list string)
  : result Dataset :=
  match questions, answers, contexts, ground_truths with
  | [], [], [], [] => Ok []
  | q :: qs, a :: ans, c :: cs, g :: gs =>
      rows <- from_dict qs ans cs gs ;;
      Ok ({| question := q; answer := a; contexts := c; ground_truth := g |}
          :: rows)
  | _, _, _, _ => Raise (ExternalError "ArrowInvalid")
  end.

Definition metric_config : dict (list string) :=
  [ ("type1", ["rouge_score"; "answer_correctness"]);
    ("type2", ["rouge_score"; "answer_correctness"]);
    ("type3", ["answer_correctness"; "coverage_score"]);
    ("type4", ["answer_correctness"; "coverage_score"; "faithfulness"]) ].

Definition question_types : list string := ["type1"; "type2"; "type3"; "type4"].

Definition missing_key_message : string :=
  "OPENAI_API_KEY environment variable is not set".

Section World.

(** The metric computers. *)
Variable compute_rouge_score : string -> string -> result pyval.
Variable compute_answer_correctness :
  string -> string -> string -> ChatOpenAI -> LangchainEmbeddingsWrapper ->
  result pyval.
Variable compute_coverage_score :
  string -> string -> string -> ChatOpenAI -> result pyval.
Variable compute_faithfulness_score :
  string -> string -> list string -> ChatOpenAI -> result pyval.

(** The process environment, the file system and the event loop. *)
Variable getenv : string -> option string.
Variable load_embeddings : string -> result HuggingFaceBgeEmbeddings.
Variable read_json : string -> result (dict (list Item)).
Variable open_write : string -> result unit.
Variable schedule : string -> Schedule.

(** The evaluators run inside [main]: their metric calls become events. *)
Definition run_eval {A} (w : W A) : IO A :=
  (map EMetricCall (fst w), snd w).

(** Lines 143 to 155: the rows of one question type. *)
Definition prepare_data (file_data : dict (list Item)) (question_type : string)
  : result Dataset :=
  questions <- (items <- getitem file_data question_type ;;
                fields item_question "question" items) ;;
  ground_truths <- (items <- getitem file_data question_type ;;
                    fields item_gold_answer "gold_answer" items) ;;
  answers <- (items <- getitem file_data question_type ;;
              fields item_generated_answer "generated_answer" items) ;;
  contexts <- (items <- getitem file_data question_type ;;
               fields item_context "context" items) ;;
  from_dict questions answers contexts ground_truths.

(** The body of the loop over the question types (lines 137 to 168). *)
Definition evaluate_type (file_data : dict (list Item))
    (llm : ChatOpenAI) (embedding : LangchainEmbeddingsWrapper)
    (all_results : Report) (question_type : string) : IO Report :=
  dataset <~ lift (prepare_data file_data question_type) ;;
  metrics <~ lift (getitem metric_config question_type) ;;
  results <~ run_eval
               (evaluate_dataset compute_rouge_score compute_answer_correctness
                  compute_coverage_score compute_faithfulness_score
                  (schedule question_type) dataset metrics llm embedding) ;;
  ret (dict_set question_type results all_results).

(** Everything after the credential check (lines 107 to 184). *)
Definition main_after_check (args : Namespace) : IO unit :=
  let llm := {| model := arg_model args;
                base_url := arg_base_url args;
                api_key := getenv "OPENAI_API_KEY";
                temperature := 0;
                max_retries := 3;
                timeout := 30 |} in
  _ <~ emit (ENewChatOpenAI llm) ;;
  _ <~ emit (ELoadEmbeddings (arg_bge_model args)) ;;
  bge_embeddings <~ lift (load_embeddings (arg_bge_model args)) ;;
  let embedding := {| embeddings := bge_embeddings |} in
  _ <~ emit (EOpenRead (arg_data_file args)) ;;
  file_data <~ lift (read_json (arg_data_file args)) ;;
  all_results <~ efor_each (evaluate_type file_data llm embedding)
                   question_types [] ;;
  if truthy (arg_output_file args) then
    _ <~ emit (EOpenWrite (arg_output_file args)) ;;
    _ <~ lift (open_write (arg_output_file args)) ;;
    emit (EWrite (arg_output_file args) (dump_report all_results))
  else ret tt.

Definition main (args : Namespace) : IO unit :=
  if negb (truthy_opt (getenv "OPENAI_API_KEY")) then
    lift (Raise (ValueError missing_key_message))
  else main_after_check args.

End World.

End Driver.

(* ================================================================== *)
(** * The properties, in the words of the specification *)
(* ================================================================== *)

Module Spec.

Import GenEval.

(** A score that line 58 lets through: an [int] or a [float] that is
    not not-a-number. *)
Definition countable (v : pyval) : bool :=
  match v with
  | VFloat f => negb (Py.isnan f)
  | VInt _ => true
  | VNone | VStr _ => false
  end.

(** A score on which the test of line 58 does not raise. *)
Definition test_defined (v : pyval) : bool :=
  match v with
  | VInt z => Np.fits_int64_or_uint64 z
  | _ => true
  end.

Definition tests_defined (sample_results : list (dict pyval)) : bool :=
  forallb (forallb (fun kv : string * pyval => test_defined (snd kv)))
          sample_results.

(** Every key of every per-sample result is a requested metric. *)
Definition keys_within (metrics : list string)
    (sample_results : list (dict pyval)) : Prop :=
  forall sample kv, In sample sample_results -> In kv sample ->
                    In (fst kv) metrics.

(** A numeric score as a binary64 number. *)
Definition float_of (v : pyval) : pyfloat :=
  match v with
  | VFloat f => f
  | VInt z => float_of_int z
  | VNone | VStr _ => NaN
  end.

(** The scores that one sample contributes to a metric, under a test
    [keep] of what counts, and the scores gathered across the samples. *)
Definition sample_scores (keep : pyval -> bool) (metric : string)
    (sample : dict pyval) : list pyval :=
  map snd (filter (fun kv => String.eqb (fst kv) metric && keep (snd kv))
                  sample).

Definition gathered (keep : pyval -> bool) (metric : string)
    (sample_results : list (dict pyval)) : list pyval :=
  flat_map (sample_scores keep metric) sample_results.

Definition scores_of : string -> list (dict pyval) -> list pyval :=
  gathered countable.

(** ** The mean *)

(** The value of a finite binary64 number, as a rational. *)
Definition real_value (f : pyfloat) : option Q :=
  match Prim2SF f with
  | S754_zero _ => Some 0%Q
  | S754_finite s m e =>
      Some ((if s then - inject_Z (Zpos m) else inject_Z (Zpos m))
            * Qpower 2 e)%Q
  | S754_infinity _ | S754_nan => None
  end.

(** The arithmetic mean of a non-empty collection of real numbers. *)
Definition arithmetic_mean (qs : list Q) : Q :=
  (fold_right Qplus 0 qs / inject_Z (Z.of_nat (List.length qs)))%Q.

(** [s] is a binary64 sum of the numbers of a non-empty collection:
    the numbers are added two at a time, in some order and grouping,
    and every addition rounds. *)
Inductive float_sum : list pyfloat -> pyfloat -> Prop :=
| float_sum_one (x : pyfloat) : float_sum [x] x
| float_sum_add (l1 l2 : list pyfloat) (a b : pyfloat) :
    float_sum l1 a -> float_sum l2 b ->
    float_sum (l1 ++ l2) (PrimFloat.add a b)
| float_sum_perm (l l' : list pyfloat) (a : pyfloat) :
    Permutation l l' -> float_sum l a -> float_sum l' a.

(** The binary64 sum from left to right. *)
Definition sum_left_to_right (xs : list pyfloat) : pyfloat :=
  match xs with
  | [] => PrimFloat.zero
  | x :: rest => fold_left PrimFloat.add rest x
  end.

(** The binary64 quotient of a sum by the number of its terms. *)
Definition float_mean (s : pyfloat) (n : nat) : pyfloat :=
  PrimFloat.div s (float_of_int (Z.of_nat n)).

(** The mean in binary64 of a short collection, its terms added from
    left to right, or the undefined marker for an empty collection. *)
Definition mean_or_undefined (fs : list pyfloat) : pyfloat :=
  match fs with
  | [] => NaN
  | _ :: _ => float_mean (sum_left_to_right fs) (List.length fs)
  end.

(** A score that is a finite real number. *)
Definition finite_real (v : pyval) : bool :=
  match v with
  | VFloat f => isfinite f
  | VInt _ => true
  | VNone | VStr _ => false
  end.

(** The requested names, each once, in the order of first request. *)
Definition uniq (metrics : list string) : list string :=
  fold_left (fun acc m => if str_in m acc then acc else acc ++ [m]) metrics [].

(** The aggregate that would result if every score that is not a finite
    real number were dropped. *)
Definition finite_only_aggregate (metrics : list string)
    (sample_results : list (dict pyval)) : dict pyfloat :=
  map (fun m => (m, mean_or_undefined
                      (map float_of (gathered finite_real m sample_results))))
      (uniq metrics).

(** The computers that a sample and a metric list call for. *)
Definition all_calls (s : Sample) (llm : ChatOpenAI)
    (emb : LangchainEmbeddingsWrapper) : list call :=
  [ CallRouge (answer s) (ground_truth s);
    CallCorrectness (question s) (answer s) (ground_truth s) llm emb;
    CallCoverage (question s) (ground_truth s) (answer s) llm;
    CallFaithfulness (question s) (answer s) (contexts s) llm ].

Definition requested_calls (metrics : list string) (s : Sample)
    (llm : ChatOpenAI) (emb : LangchainEmbeddingsWrapper) : list call :=
  filter (fun c => str_in (metric_of c) metrics) (all_calls s llm emb).

End Spec.

(* ================================================================== *)
(** * A small concrete world, for examples *)
(* ================================================================== *)

Module Demo.

Import GenEval Driver.

(** Lexical overlap: 1 on an exact match; an answer of ["inf"] stands
    for a computer that hands back an infinite score. *)
Definition rouge (answer ground_truth : string) : result pyval :=
  if String.eqb answer "inf" then Ok (VFloat PInf)
  else if String.eqb answer ground_truth then Ok (VFloat 1%float)
  else Ok (VFloat 0%float).

Definition correctness (question answer ground_truth : string)
    (llm : ChatOpenAI) (emb : LangchainEmbeddingsWrapper) : result pyval :=
  if String.eqb answer ground_truth then Ok (VFloat 0.75%float)
  else Ok (VFloat NaN).

Definition coverage (question ground_truth answer : string)
    (llm : ChatOpenAI) : result pyval :=
  Ok (VFloat 0.5%float).

(** Faithfulness fails when the sample has no context. *)
Definition faithfulness (question answer : string) (contexts : list string)
    (llm : ChatOpenAI) : result pyval :=
  match contexts with
  | [] => Raise (ExternalError "judge model call failed")
  | _ :: _ => Ok (VFloat 1%float)
  end.

Definition llm : ChatOpenAI :=
  {| model := "gpt-4-turbo";
     base_url := "https://api.openai.com/v1";
     api_key := Some "sk-demo";
     temperature := 0;
     max_retries := 3;
     timeout := 30 |}.

Definition emb : LangchainEmbeddingsWrapper :=
  {| embeddings := {| model_name := "BAAI/bge-large-en-v1.5" |} |}.

Definition s_match : Sample :=
  {| question := "q1"; answer := "Paris"; contexts := ["ctx"];
     ground_truth := "Paris" |}.

Definition s_miss : Sample :=
  {| question := "q2"; answer := "Rome"; contexts := ["ctx"];
     ground_truth := "Paris" |}.

Definition s_inf : Sample :=
  {| question := "q3"; answer := "inf"; contexts := ["ctx"];
     ground_truth := "Paris" |}.

Definition s_nocontext : Sample :=
  {| question := "q4"; answer := "Paris"; contexts := [];
     ground_truth := "Paris" |}.

(** The second task finishes first. *)
Definition sched : Schedule :=
  {| start_place := fun i => i;
     completion := [1; 0];
     gather_order := fun _ => [3; 2; 1; 0] |}.

Definition item (q gold gen : string) (ctx : list string) : Item :=
  {| item_question := Some q; item_gold_answer := Some gold;
     item_generated_answer := Some gen; item_context := Some ctx |}.

Definition file_data : dict (list Item) :=
  [ ("type1", [item "q1" "Paris" "Paris" ["ctx"]; item "q2" "Paris" "Rome" ["ctx"]]);
    ("type2", [item "q5" "4" "4" ["ctx"]]);
    ("type3", [item "q6" "blue" "red" ["ctx"]]);
    ("type4", [item "q7" "yes" "yes" ["ctx"]]) ].

Definition args : Namespace :=
  {| arg_model := "gpt-4-turbo";
     arg_base_url := "https://api.openai.com/v1";
     arg_bge_model := "BAAI/bge-large-en-v1.5";
     arg_data_file := "data.json";
     arg_output_file := "evaluation_results.json" |}.

Definition load_embeddings (name : string) : result HuggingFaceBgeEmbeddings :=
  Ok {| model_name := name |}.

Definition read_json (path : string) : result (dict (list Item)) :=
  if String.eqb path "data.json" then Ok file_data
  else Raise (ExternalError "FileNotFoundError").

Definition open_write (path : string) : result unit := Ok tt.

Definition schedule (question_type : string) : Schedule := sched.

Definition env_with_key (name : string) : option string :=
  if String.eqb name "OPENAI_API_KEY" then Some "sk-demo" else None.

Definition env_empty_key (name : string) : option string :=
  if String.eqb name "OPENAI_API_KEY" then Some "" else None.

Definition env_without_key (name : string) : option string := None.

Definition main (getenv : string -> option string) : IO unit :=
  Driver.main rouge correctness coverage faithfulness getenv load_embeddings
    read_json open_write schedule args.

Definition main_after_check (getenv : string -> option string) : IO unit :=
  Driver.main_after_check rouge correctness coverage faithfulness getenv
    load_embeddings read_json open_write schedule args.

Definition evaluate_dataset :=
  GenEval.evaluate_dataset rouge correctness coverage faithfulness.

Definition collect_dataset :=
  GenEval.collect_dataset rouge correctness coverage faithfulness.

Definition evaluate_sample :=
  GenEval.evaluate_sample rouge correctness coverage faithfulness.

Definition report : Report :=
  [ ("type1", [("rouge_score", 0.5%float); ("answer_correctness", NaN)]);
    ("type3", [("answer_correctness", 0%float); ("coverage_score", PInf)]) ].

(** A group of two samples, a metric list with a name that no computer
    answers to, and the per-sample results in the order in which [sched]
    lets the tasks finish. *)
Definition group : Dataset := [s_match; s_miss].

Definition metrics : list string :=
  ["rouge_score"; "answer_correctness"; "bleu"].

Definition group_results : list (dict pyval) :=
  [ [("rouge_score", VFloat (0%float)); ("answer_correctness", VFloat NaN)];
    [("rouge_score", VFloat (1%float)); ("answer_correctness", VFloat (0.75%float))] ].

(** A group in which one rouge score is infinite. *)
Definition group_inf : Dataset := [s_inf; s_match].

Definition group_inf_results : list (dict pyval) :=
  [ [("rouge_score", VFloat (1%float))]; [("rouge_score", VFloat PInf)] ].

(** A group in which the faithfulness computer fails on one sample. *)
Definition group_failing : Dataset := [s_match; s_nocontext].

(** A lexical-overlap computer that hands back the number its answer
    names, for the runs on large scores. *)
Definition raw_score (answer ground_truth : string) : result pyval :=
  if String.eqb answer "1e308" then Ok (VFloat 1e308%float)
  else if String.eqb answer "2^53" then Ok (VFloat 9007199254740992%float)
  else if String.eqb answer "-2^53" then
    Ok (VFloat (-9007199254740992)%float)
  else Ok (VFloat 1%float).

Definition evaluate_raw :=
  GenEval.evaluate_dataset raw_score correctness coverage faithfulness.

Definition collect_raw :=
  GenEval.collect_dataset raw_score correctness coverage faithfulness.

Definition s_raw (answer : string) : Sample :=
  {| question := "q"; answer := answer; contexts := ["ctx"];
     ground_truth := "g" |}.

(** Two scores of 1e308, and three scores whose sum depends on the
    order of the additions. *)
Definition group_huge : Dataset := [s_raw "1e308"; s_raw "1e308"].

Definition group_wide : Dataset := [s_raw "2^53"; s_raw "1"; s_raw "-2^53"].

(** The per-sample results of [group_wide] in the order of the rows,
    and with the last two exchanged. *)
Definition wide_results : list (dict pyval) :=
  [ [("rouge_score", VFloat 9007199254740992%float)];
    [("rouge_score", VFloat 1%float)];
    [("rouge_score", VFloat (-9007199254740992)%float)] ].

Definition wide_results_swapped : list (dict pyval) :=
  [ [("rouge_score", VFloat 9007199254740992%float)];
    [("rouge_score", VFloat (-9007199254740992)%float)];
    [("rouge_score", VFloat 1%float)] ].

Definition huge_results : list (dict pyval) :=
  [ [("rouge_score", VFloat 1e308%float)];
    [("rouge_score", VFloat 1e308%float)] ].

(** Two tasks that finish in the order of the rows. *)
Definition sched_pair : Schedule :=
  {| start_place := fun i => i;
     completion := [0; 1];
     gather_order := fun _ => [3; 2; 1; 0] |}.

(** Three tasks that finish in the order of the rows, or the third
    before the second. *)
Definition sched_rows : Schedule :=
  {| start_place := fun i => i;
     completion := [0; 1; 2];
     gather_order := fun _ => [0] |}.

Definition sched_swapped : Schedule :=
  {| start_place := fun i => i;
     completion := [0; 2; 1];
     gather_order := fun _ => [0] |}.

End Demo.

(* ================================================================== *)
(** * Facts about dictionaries and floats *)
(* ================================================================== *)

Module PyFacts.

Lemma str_in_In (k : string) (xs : list string) :
  str_in k xs = true <-> In k xs.
Proof.
  unfold str_in. rewrite existsb_exists. split.
  - intros [x [Hx Hk]]. apply String.eqb_eq in Hk. now subst.
  - intros H. exists k. split; [assumption | apply String.eqb_refl].
Qed.

Lemma str_in_not_In (k : string) (xs : list string) :
  str_in k xs = false <-> ~ In k xs.
Proof.
  rewrite <- str_in_In. destruct (str_in k xs); split; congruence.
Qed.

Lemma dict_set_fresh {V} (k : string) (v : V) (d : dict V) :
  ~ In k (dict_keys d) -> dict_set k v d = d ++ [(k, v)].
Proof.
  induction d as [| [k' v'] d IH]; simpl; intros H.
  - reflexivity.
  - destruct (String.eqb_spec k k') as [-> | Hne].
    + exfalso. apply H. now left.
    + rewrite IH; [reflexivity | tauto].
Qed.

Lemma dict_get_In {V} (k : string) (d : dict V) :
  In k (dict_keys d) -> exists v, dict_get k d = Some v.
Proof.
  induction d as [| [k' v'] d IH]; simpl; intros H.
  - contradiction.
  - destruct (String.eqb_spec k k') as [-> | Hne].
    + now exists v'.
    + destruct H as [H | H]; [congruence | now apply IH].
Qed.

Lemma dict_get_not_In {V} (k : string) (d : dict V) :
  ~ In k (dict_keys d) -> dict_get k d = None.
Proof.
  induction d as [| [k' v'] d IH]; simpl; intros H.
  - reflexivity.
  - destruct (String.eqb_spec k k') as [-> | Hne]; [tauto | apply IH; tauto].
Qed.

Lemma dict_set_In {V} (k : string) (v : V) (d : dict V) (kv : string * V) :
  In kv (dict_set k v d) -> kv = (k, v) \/ In kv d.
Proof.
  induction d as [| [k' v'] d IH]; simpl.
  - intros [<- | []]. now left.
  - destruct (String.eqb_spec k k') as [-> | Hne]; simpl.
    + intros [<- | H]; [now left | right; now right].
    + intros [<- | H]; [right; now left |].
      destruct (IH H) as [-> | H']; [now left | right; now right].
Qed.

Lemma dict_set_wf {V} (k : string) (v : V) (d : dict V) :
  dict_wf d -> dict_wf (dict_set k v d).
Proof.
  unfold dict_wf. induction d as [| [k' v'] d IH]; simpl; intros H.
  - repeat constructor. simpl. tauto.
  - inversion H as [| ? ? Hnotin Hnd]; subst.
    destruct (String.eqb_spec k k') as [-> | Hne]; simpl.
    + now constructor.
    + constructor; [| now apply IH].
      intros Hin. unfold dict_keys in Hin. apply in_map_iff in Hin as [kv [Hk Hin]].
      apply dict_set_In in Hin as [-> | Hin]; simpl in Hk; [congruence |].
      apply Hnotin. rewrite <- Hk. now apply in_map.
Qed.

(** In a dictionary, [d[k] = f(d[k])] touches the one entry of [k]. *)
Lemma dict_set_map {V} (f : V -> V) (k : string) (v : V) (d : dict V) :
  NoDup (dict_keys d) -> dict_get k d = Some v ->
  dict_set k (f v) d =
  map (fun kv => (fst kv, if String.eqb (fst kv) k then f (snd kv) else snd kv)) d.
Proof.
  induction d as [| [k' v'] d IH]; simpl; intros Hnd Hget.
  - discriminate.
  - inversion Hnd as [| ? ? Hnotin Hnd']; subst.
    destruct (String.eqb_spec k k') as [-> | Hne].
    + injection Hget as ->. rewrite String.eqb_refl. f_equal.
      clear IH Hnd Hnd'. induction d as [| [k2 v2] d IHd]; simpl.
      * reflexivity.
      * simpl in Hnotin.
        destruct (String.eqb_spec k2 k') as [-> | Hne2]; [tauto |].
        rewrite <- IHd by tauto. reflexivity.
    + destruct (String.eqb_spec k' k) as [-> | _]; [congruence |].
      rewrite IH by assumption. reflexivity.
Qed.

Lemma filter_perm {A} (f : A -> bool) (l l' : list A) :
  Permutation l l' -> Permutation (filter f l) (filter f l').
Proof.
  induction 1 as [| x l l' _ IH | x y l | l l' l'' _ IH1 _ IH2]; simpl.
  - constructor.
  - destruct (f x); [now constructor | assumption].
  - destruct (f x), (f y); try reflexivity. constructor.
  - now transitivity (filter f l').
Qed.

End PyFacts.

(* ================================================================== *)
(** * Binary64 arithmetic *)
(* ================================================================== *)

Module FloatFacts.

(** Not-a-number is the one float that [Prim2SF] sends to [S754_nan]. *)
Lemma is_nan_spec (f : pyfloat) :
  PrimFloat.is_nan f = true <-> Prim2SF f = S754_nan.
Proof.
  unfold Prim2SF. destruct (PrimFloat.is_nan f); [tauto |].
  split; [discriminate |].
  destruct (is_zero f); [discriminate |].
  destruct (is_infinity f); [discriminate |].
  destruct (Z.frexp f) as [r e].
  destruct (shr_fexp _ _ _ _ _) as [s e'].
  destruct (shr_m s); discriminate.
Qed.

Lemma isnan_eq (f : pyfloat) : Py.isnan f = true <-> f = NaN.
Proof.
  unfold Py.isnan. rewrite is_nan_spec. split.
  - intros H. apply Prim2SF_inj. rewrite H. reflexivity.
  - intros ->. reflexivity.
Qed.

Lemma isnan_false (f : pyfloat) : Py.isnan f = false <-> f <> NaN.
Proof.
  rewrite <- isnan_eq. destruct (Py.isnan f); split; congruence.
Qed.

Lemma eqb_infinity (f : pyfloat) (s : bool) :
  SFeqb (Prim2SF f) (S754_infinity s) = true -> Prim2SF f = S754_infinity s.
Proof.
  unfold SFeqb, SFcompare.
  destruct (Prim2SF f) as [s0 | s0 | | s0 m e]; try discriminate.
  - destruct s; discriminate.
  - destruct s0, s; try discriminate; reflexivity.
  - destruct s0, s; discriminate.
Qed.

Lemma eqb_PInf (f : pyfloat) : PrimFloat.eqb f PInf = true -> f = PInf.
Proof.
  rewrite eqb_spec. change (Prim2SF PInf) with (S754_infinity false).
  intros H. apply eqb_infinity in H. apply Prim2SF_inj. now rewrite H.
Qed.

Lemma eqb_NInf (f : pyfloat) : PrimFloat.eqb f NInf = true -> f = NInf.
Proof.
  rewrite eqb_spec. change (Prim2SF NInf) with (S754_infinity true).
  intros H. apply eqb_infinity in H. apply Prim2SF_inj. now rewrite H.
Qed.

(** -0.0 is the identity of the addition. *)
Lemma fadd_neg_zero_l (x : pyfloat) : fadd neg_zero x = x.
Proof.
  apply Prim2SF_inj. unfold fadd. rewrite add_spec.
  change (Prim2SF neg_zero) with (S754_zero true).
  unfold SF64add, SFadd.
  destruct (Prim2SF x) as [[|] | [|] | | s m e]; reflexivity.
Qed.

Lemma fadd_comm (x y : pyfloat) : fadd x y = fadd y x.
Proof.
  apply Prim2SF_inj. unfold fadd. rewrite !add_spec. unfold SF64add, SFadd.
  destruct (Prim2SF x) as [[|] | [|] | | s m e],
           (Prim2SF y) as [[|] | [|] | | s' m' e'];
    try reflexivity.
  rewrite (Z.min_comm e e'), Z.add_comm. reflexivity.
Qed.

(** ** Rounding never produces not-a-number *)

Lemma shr_1_nonneg (mrs : shr_record) :
  (0 <= shr_m mrs)%Z -> (0 <= shr_m (shr_1 mrs))%Z.
Proof.
  destruct mrs as [m r s]. simpl. destruct m as [| p | p]; simpl; try lia.
  destruct p; simpl; lia.
Qed.

Lemma iter_shr_1_nonneg (p : positive) :
  forall mrs, (0 <= shr_m mrs)%Z -> (0 <= shr_m (iter_pos shr_1 p mrs))%Z.
Proof.
  induction p as [p IH | p IH |]; intros mrs H; simpl.
  - apply IH, IH, shr_1_nonneg, H.
  - apply IH, IH, H.
  - apply shr_1_nonneg, H.
Qed.

Lemma shr_fexp_nonneg (m e : Z) (l : location) :
  (0 <= m)%Z -> (0 <= shr_m (fst (shr_fexp prec emax m e l)))%Z.
Proof.
  intros H. unfold shr_fexp, shr.
  assert (H0 : (0 <= shr_m (shr_record_of_loc m l))%Z).
  { destruct l as [| []]; simpl; exact H. }
  destruct (_ - e)%Z; simpl; try exact H0.
  now apply iter_shr_1_nonneg.
Qed.

Lemma binary_round_aux_not_nan (sx : bool) (mx ex : Z) (lx : location) :
  (0 <= mx)%Z -> binary_round_aux prec emax sx mx ex lx <> S754_nan.
Proof.
  intros H. unfold binary_round_aux.
  pose proof (shr_fexp_nonneg mx ex lx H) as H1.
  destruct (shr_fexp prec emax mx ex lx) as [mrs' e']. simpl in H1.
  assert (H2 : (0 <= round_nearest_even (shr_m mrs') (loc_of_shr_record mrs'))%Z).
  { unfold round_nearest_even. destruct (loc_of_shr_record mrs') as [| []]; try lia.
    destruct (Z.even _); lia. }
  pose proof (shr_fexp_nonneg _ e' loc_Exact H2) as H3.
  destruct (shr_fexp prec emax _ e' loc_Exact) as [mrs'' e'']. simpl in H3.
  destruct (shr_m mrs''); try discriminate; [| lia].
  destruct (_ <=? _)%Z; discriminate.
Qed.

Lemma binary_round_not_nan (sx : bool) (mx : positive) (ex : Z) :
  binary_round prec emax sx mx ex <> S754_nan.
Proof.
  unfold binary_round. destruct (shl_align _ _ _) as [mz ez].
  apply binary_round_aux_not_nan. lia.
Qed.

Lemma binary_normalize_not_nan (m e : Z) (s : bool) :
  binary_normalize prec emax m e s <> S754_nan.
Proof.
  unfold binary_normalize. destruct m; [discriminate | |]; apply binary_round_not_nan.
Qed.

Lemma SF2Prim_not_nan (x : spec_float) :
  x <> S754_nan -> PrimFloat.is_nan (SF2Prim x) = false.
Proof.
  intros H. destruct (PrimFloat.is_nan (SF2Prim x)) eqn:E; [| reflexivity]. exfalso.
  apply is_nan_spec in E.
  destruct x as [[|] | [|] | | s m e]; try (vm_compute in E; discriminate);
    [now apply H |].
  unfold SF2Prim in E.
  assert (Hl : Prim2SF (Z.ldexp (of_uint63 (Uint63.of_Z (Z.pos m))) e) <> S754_nan).
  { rewrite Z_ldexp_spec, of_uint63_spec. unfold SFldexp.
    pose proof (binary_normalize_not_nan
                  (Uint63.to_Z (Uint63.of_Z (Z.pos m))) 0 false) as Hn.
    destruct (binary_normalize _ _ _ _ _) as [| | | sx mx ex];
      try discriminate; [congruence |].
    apply binary_round_not_nan. }
  destruct s; [rewrite opp_spec in E |]; [| contradiction].
  destruct (Prim2SF _); try discriminate. now apply Hl.
Qed.

(** An integer converts to a number. *)
Lemma float_of_int_not_nan (z : Z) : Py.isnan (float_of_int z) = false.
Proof. apply SF2Prim_not_nan, binary_normalize_not_nan. Qed.

End FloatFacts.

(* ================================================================== *)
(** * The summation of NumPy *)
(* ================================================================== *)

Module NpFacts.

Import Spec FloatFacts.

Lemma float_sum_nonempty (l : list pyfloat) (s : pyfloat) :
  float_sum l s -> l <> [].
Proof.
  induction 1 as [x | l1 l2 a b _ IH1 _ _ | l l' a Hp _ IH].
  - discriminate.
  - destruct l1; [now destruct IH1 | discriminate].
  - intros ->. apply Permutation_sym, Permutation_nil in Hp. now apply IH.
Qed.

(** Adding further numbers one by one to a sum gives a sum. *)
Lemma float_sum_fold (rest : list pyfloat) :
  forall l a, float_sum l a -> float_sum (l ++ rest) (fold_left fadd rest a).
Proof.
  induction rest as [| x rest IH]; intros l a H; simpl.
  - now rewrite app_nil_r.
  - change (l ++ x :: rest) with (l ++ [x] ++ rest). rewrite app_assoc.
    apply IH. apply float_sum_add; [assumption | constructor].
Qed.

Lemma float_sum_left_to_right (l : list pyfloat) :
  l <> [] -> float_sum l (sum_left_to_right l).
Proof.
  destruct l as [| x rest]; [congruence | intros _].
  apply (float_sum_fold rest [x] x). constructor.
Qed.

(** The branch for fewer than 8 elements. *)
Lemma fold_from_neg_zero (l : list pyfloat) :
  l <> [] -> fold_left fadd l neg_zero = sum_left_to_right l.
Proof.
  destruct l as [| x rest]; [congruence | intros _].
  simpl. now rewrite fadd_neg_zero_l.
Qed.

(** ** The eight accumulators *)

(** In what follows [ls] lists, for each accumulator of [r], the
    numbers it has added up. *)

Lemma add8_sums (ls : list (list pyfloat)) (r xs : list pyfloat) :
  Forall2 float_sum ls r -> List.length xs = List.length r ->
  exists ls', Forall2 float_sum ls' (Np.add8 r xs) /\
              Permutation (List.concat ls') (List.concat ls ++ xs).
Proof.
  intros H. revert xs. induction H as [| l a ls r Hl _ IH]; intros xs Hlen.
  - destruct xs; [| discriminate]. exists []. split; [constructor | reflexivity].
  - destruct xs as [| x xs]; [discriminate |]. simpl in Hlen.
    destruct (IH xs) as (ls' & Hs & Hp); [lia |].
    exists ((l ++ [x]) :: ls'). split.
    + unfold Np.add8. simpl. constructor; [| exact Hs].
      apply float_sum_add; [assumption | constructor].
    + simpl. rewrite <- !app_assoc. apply Permutation_app_head.
      simpl. rewrite Hp. apply Permutation_middle.
Qed.

Lemma add8_length (r xs : list pyfloat) :
  List.length xs = List.length r -> List.length (Np.add8 r xs) = List.length r.
Proof.
  intros H. unfold Np.add8. rewrite length_map, length_combine. lia.
Qed.

Lemma accumulate_sums (blocks : nat) :
  forall ls r a,
    Forall2 float_sum ls r -> List.length r = 8 -> 8 * blocks <= List.length a ->
    exists ls', Forall2 float_sum ls' (Np.accumulate blocks r a) /\
                List.length (Np.accumulate blocks r a) = 8 /\
                Permutation (List.concat ls' ++ skipn (8 * blocks) a) (List.concat ls ++ a).
Proof.
  induction blocks as [| blocks IH]; intros ls r a Hs Hr Ha.
  - exists ls. simpl. repeat split; [assumption .. |]. reflexivity.
  - cbn [Np.accumulate].
    assert (Hf : List.length (firstn 8 a) = 8) by (rewrite length_firstn; lia).
    destruct (add8_sums ls r (firstn 8 a) Hs) as (ls1 & Hs1 & Hp1);
      [congruence |].
    destruct (IH ls1 (Np.add8 r (firstn 8 a)) (skipn 8 a) Hs1) as (ls' & Hs' & Hl' & Hp').
    + rewrite add8_length; congruence.
    + rewrite length_skipn. lia.
    + exists ls'. split; [exact Hs' |]. split; [exact Hl' |].
      replace (8 * S blocks) with (8 * blocks + 8) by lia.
      rewrite <- skipn_skipn.
      rewrite Hp', Hp1. rewrite <- app_assoc.
      now rewrite (firstn_skipn 8 a).
Qed.

Lemma singletons_sums (r : list pyfloat) :
  Forall2 float_sum (map (fun x => [x]) r) r /\ List.concat (map (fun x => [x]) r) = r.
Proof.
  induction r as [| x r [IH1 IH2]]; simpl.
  - split; [constructor | reflexivity].
  - split; [constructor; [constructor | assumption] | now rewrite IH2].
Qed.

(** The branch for 8 to 128 elements adds up the elements of the array. *)
Lemma float_sum_unrolled (a : list pyfloat) :
  8 <= List.length a -> float_sum a (Np.unrolled_sum a).
Proof.
  intros Hn. unfold Np.unrolled_sum.
  set (n := List.length a). set (full := n - n mod 8).
  assert (Hmod : n mod 8 < 8) by (apply Nat.mod_upper_bound; lia).
  assert (Hdiv : n = 8 * (n / 8) + n mod 8) by (apply Nat.div_mod_eq).
  assert (Hq : 1 <= n / 8).
  { destruct (n / 8) eqn:E; [| lia]. unfold n in *. lia. }
  assert (Hfull : full = 8 * (n / 8)) by (unfold full; lia).
  assert (Hblocks : full / 8 - 1 = n / 8 - 1).
  { rewrite Hfull, Nat.mul_comm, Nat.div_mul by lia. reflexivity. }
  rewrite Hblocks.
  destruct (singletons_sums (firstn 8 a)) as [Hs0 Hc0].
  assert (Hf : List.length (firstn 8 a) = 8) by (rewrite length_firstn; lia).
  destruct (accumulate_sums (n / 8 - 1) _ (firstn 8 a) (skipn 8 a) Hs0 Hf)
    as (ls & Hs & Hl & Hp).
  { rewrite length_skipn. fold n. lia. }
  rewrite Hc0, skipn_skipn, firstn_skipn in Hp.
  replace (8 * (n / 8 - 1) + 8) with full in Hp by lia.
  destruct (Np.accumulate (n / 8 - 1) (firstn 8 a) (skipn 8 a))
    as [| r0 [| r1 [| r2 [| r3 [| r4 [| r5 [| r6 [| r7 [| ? ?]]]]]]]]];
    try discriminate Hl.
  inversion Hs as [| l0 ? t0 ? H0 Hs1]; subst.
  inversion Hs1 as [| l1 ? t1 ? H1 Hs2]; subst.
  inversion Hs2 as [| l2 ? t2 ? H2 Hs3]; subst.
  inversion Hs3 as [| l3 ? t3 ? H3 Hs4]; subst.
  inversion Hs4 as [| l4 ? t4 ? H4 Hs5]; subst.
  inversion Hs5 as [| l5 ? t5 ? H5 Hs6]; subst.
  inversion Hs6 as [| l6 ? t6 ? H6 Hs7]; subst.
  inversion Hs7 as [| l7 ? t7 ? H7 Hs8]; subst.
  inversion Hs8; subst.
  apply (float_sum_perm _ _ _ Hp).
  apply float_sum_fold.
  cbn [List.concat]. rewrite app_nil_r.
  replace (l0 ++ l1 ++ l2 ++ l3 ++ l4 ++ l5 ++ l6 ++ l7)
    with (((l0 ++ l1) ++ (l2 ++ l3)) ++ ((l4 ++ l5) ++ (l6 ++ l7)))
    by (now rewrite <- !app_assoc).
  repeat apply float_sum_add; assumption.
Qed.

(** ** [pairwise_sum] *)

Lemma pairwise_sum_rec_short (fuel : nat) (a : list pyfloat) :
  a <> [] -> List.length a < 8 ->
  Np.pairwise_sum_rec fuel a = sum_left_to_right a.
Proof.
  intros Hne Hn.
  assert (E : (List.length a <? 8) = true) by now apply Nat.ltb_lt.
  destruct fuel; cbn [Np.pairwise_sum_rec]; rewrite E;
    now apply fold_from_neg_zero.
Qed.

Lemma split_point_bounds (n : nat) :
  128 < n -> 0 < Np.split_point n < n.
Proof.
  intros H. unfold Np.split_point.
  assert (Hm : (n / 2) mod 8 < 8) by (apply Nat.mod_upper_bound; lia).
  assert (Hd : n / 2 <= n) by (apply Nat.Div0.div_le_upper_bound; lia).
  assert (Hh : 64 <= n / 2) by (apply Nat.div_le_lower_bound; lia).
  assert (Hlt : n / 2 < n) by (apply Nat.div_lt; lia).
  lia.
Qed.

(** Whatever its length, [pairwise_sum] adds up the elements of a
    non-empty array. *)
Lemma float_sum_pairwise_rec (fuel : nat) :
  forall a, a <> [] -> float_sum a (Np.pairwise_sum_rec fuel a).
Proof.
  induction fuel as [| fuel IH]; intros a Hne; cbn [Np.pairwise_sum_rec].
  - destruct (List.length a <? 8) eqn:E8.
    + rewrite fold_from_neg_zero by assumption.
      now apply float_sum_left_to_right.
    + apply Nat.ltb_ge in E8.
      destruct (List.length a <=? 128); now apply float_sum_unrolled.
  - destruct (List.length a <? 8) eqn:E8.
    + rewrite fold_from_neg_zero by assumption.
      now apply float_sum_left_to_right.
    + apply Nat.ltb_ge in E8.
      destruct (List.length a <=? 128) eqn:E128; [now apply float_sum_unrolled |].
      apply Nat.leb_gt in E128.
      pose proof (split_point_bounds _ E128) as Hsp. fold (Np.split_point (List.length a)).
      rewrite <- (firstn_skipn (Np.split_point (List.length a)) a) at 1.
      apply float_sum_add; apply IH; intros Hnil;
        apply (f_equal (@List.length pyfloat)) in Hnil;
        rewrite ?length_firstn, ?length_skipn in Hnil; simpl in Hnil; lia.
Qed.

Lemma float_sum_pairwise (a : list pyfloat) :
  a <> [] -> float_sum a (Np.pairwise_sum a).
Proof. apply float_sum_pairwise_rec. Qed.

Lemma pairwise_sum_short (a : list pyfloat) :
  a <> [] -> List.length a < 8 -> Np.pairwise_sum a = sum_left_to_right a.
Proof. apply pairwise_sum_rec_short. Qed.

(** The length of the array is fuel enough: more fuel changes nothing. *)
Lemma pairwise_sum_rec_fuel (fuel : nat) :
  forall fuel' a,
    List.length a <= fuel -> List.length a <= fuel' ->
    Np.pairwise_sum_rec fuel a = Np.pairwise_sum_rec fuel' a.
Proof.
  induction fuel as [| fuel IH]; intros fuel' a H H'.
  - destruct a; [| simpl in H; lia]. now destruct fuel'.
  - destruct fuel' as [| fuel'].
    { destruct a; [reflexivity | simpl in H'; lia]. }
    cbn [Np.pairwise_sum_rec].
    destruct (List.length a <? 8); [reflexivity |].
    destruct (List.length a <=? 128) eqn:E128; [reflexivity |].
    apply Nat.leb_gt in E128.
    pose proof (split_point_bounds _ E128) as Hsp.
    fold (Np.split_point (List.length a)).
    f_equal; apply IH; rewrite ?length_firstn, ?length_skipn; lia.
Qed.

(** The recursion of [pairwise_sum] on more than 128 elements. *)
Lemma pairwise_sum_split (a : list pyfloat) :
  128 < List.length a ->
  Np.pairwise_sum a =
  fadd (Np.pairwise_sum (firstn (Np.split_point (List.length a)) a))
       (Np.pairwise_sum (skipn (Np.split_point (List.length a)) a)).
Proof.
  intros H. unfold Np.pairwise_sum.
  pose proof (split_point_bounds _ H) as Hsp.
  destruct (List.length a) as [| n] eqn:En; [lia |].
  cbn [Np.pairwise_sum_rec]. rewrite En.
  assert (E8 : (S n <? 8) = false) by (apply Nat.ltb_ge; lia).
  assert (E128 : (S n <=? 128) = false) by (apply Nat.leb_gt; lia).
  rewrite E8, E128. fold (Np.split_point (S n)).
  f_equal; apply pairwise_sum_rec_fuel;
    rewrite ?length_firstn, ?length_skipn; lia.
Qed.

(** ** [np.add.reduce] *)

Lemma add_reduce_pairwise (a : list pyfloat) :
  a <> [] -> Np.add_reduce a = Np.pairwise_sum a.
Proof.
  destruct a; [congruence | intros _]. apply fadd_neg_zero_l.
Qed.

Lemma float_sum_add_reduce (a : list pyfloat) :
  a <> [] -> float_sum a (Np.add_reduce a).
Proof.
  intros H. rewrite add_reduce_pairwise by assumption.
  now apply float_sum_pairwise.
Qed.

Lemma chunks_rec_spec {A} (size : nat) (fuel : nat) :
  forall l : list A,
    0 < size -> List.length l <= fuel ->
    List.concat (Np.chunks_rec fuel size l) = l /\
    Forall (fun c => c <> []) (Np.chunks_rec fuel size l).
Proof.
  induction fuel as [| fuel IH]; intros l Hs Hl.
  - destruct l; [| simpl in Hl; lia]. split; [reflexivity | constructor].
  - destruct l as [| x l]; [split; [reflexivity | constructor] |].
    cbn [Np.chunks_rec].
    destruct (IH (skipn size (x :: l)) Hs) as [Hc Hf].
    { rewrite length_skipn. cbn [List.length] in *. lia. }
    split.
    + cbn [List.concat]. rewrite Hc. apply firstn_skipn.
    + constructor; [| exact Hf].
      destruct size; [lia | discriminate].
Qed.

Lemma chunks_short {A} (size : nat) (l : list A) :
  l <> [] -> List.length l <= size -> Np.chunks size l = [l].
Proof.
  intros Hne Hl. unfold Np.chunks.
  destruct l as [| x l]; [congruence |].
  cbn [List.length Np.chunks_rec].
  rewrite firstn_all2 by exact Hl. rewrite skipn_all2 by exact Hl.
  now destruct (List.length l).
Qed.

Lemma float_sum_chunks (cs : list (list pyfloat)) :
  Forall (fun c => c <> []) cs ->
  forall l acc,
    float_sum l acc ->
    float_sum (l ++ List.concat cs)
      (fold_left (fun out chunk => fadd out (Np.pairwise_sum chunk)) cs acc).
Proof.
  induction 1 as [| c cs Hc _ IH]; intros l acc H; simpl.
  - now rewrite app_nil_r.
  - rewrite app_assoc. apply IH.
    apply float_sum_add; [assumption | now apply float_sum_pairwise].
Qed.

Lemma float_sum_add_reduce_cast (a : list pyfloat) :
  a <> [] -> float_sum a (Np.add_reduce_cast a).
Proof.
  intros Hne. unfold Np.add_reduce_cast.
  destruct a as [| x a']; [congruence |]. set (a := x :: a') in *.
  destruct (chunks_rec_spec Np.bufsize (List.length a) a) as [Hc Hf];
    [unfold Np.bufsize; lia | lia |].
  fold (Np.chunks Np.bufsize a) in Hc, Hf.
  destruct (Np.chunks Np.bufsize a) as [| c cs].
  - simpl in Hc. congruence.
  - inversion Hf as [| ? ? Hc1 Hcs]; subst.
    cbn [fold_left]. rewrite fadd_neg_zero_l.
    rewrite <- Hc. cbn [List.concat].
    apply float_sum_chunks; [assumption | now apply float_sum_pairwise].
Qed.

Lemma add_reduce_cast_short (a : list pyfloat) :
  a <> [] -> List.length a <= Np.bufsize ->
  Np.add_reduce_cast a = Np.pairwise_sum a.
Proof.
  intros Hne Hl. unfold Np.add_reduce_cast.
  destruct a as [| x a']; [congruence |].
  rewrite chunks_short by assumption.
  cbn [fold_left]. apply fadd_neg_zero_l.
Qed.

(** ** The mean of a list of numbers *)

Lemma floats_of_nonempty (l : list pyval) : l <> [] -> Np.floats_of l <> [].
Proof. destruct l; [congruence | discriminate]. Qed.

(** The sum that [np.nanmean] divides is a binary64 sum of the
    numbers, whatever the element type of the array. *)
Lemma float_sum_of_numbers (l : list pyval) :
  l <> [] -> float_sum (Np.floats_of l) (Np.sum_of_numbers l).
Proof.
  intros H. apply floats_of_nonempty in H. unfold Np.sum_of_numbers.
  destruct (Np.integer_array l);
    [now apply float_sum_add_reduce_cast | now apply float_sum_add_reduce].
Qed.

(** With fewer than 8 numbers the sum runs from left to right. *)
Lemma sum_of_numbers_short (l : list pyval) :
  l <> [] -> List.length l < 8 ->
  Np.sum_of_numbers l = sum_left_to_right (Np.floats_of l).
Proof.
  intros Hne Hl.
  assert (Hf : Np.floats_of l <> []) by now apply floats_of_nonempty.
  assert (Hlen : List.length (Np.floats_of l) = List.length l)
    by apply length_map.
  unfold Np.sum_of_numbers. destruct (Np.integer_array l).
  - rewrite add_reduce_cast_short; [| assumption | unfold Np.bufsize; lia].
    apply pairwise_sum_short; [assumption | lia].
  - rewrite add_reduce_pairwise by assumption.
    apply pairwise_sum_short; [assumption | lia].
Qed.

Lemma mean_of_no_number : Np.mean_of_numbers [] = NaN.
Proof. reflexivity. Qed.

End NpFacts.

(* ================================================================== *)
(** * The aggregation loop *)
(* ================================================================== *)

Module AggregateFacts.

Import GenEval Spec PyFacts FloatFacts NpFacts.

Lemma dict_keys_map_snd {V U} (f : string * V -> U) (d : dict V) :
  dict_keys (map (fun e => (fst e, f e)) d) = dict_keys d.
Proof.
  unfold dict_keys. rewrite map_map. simpl. reflexivity.
Qed.

Lemma sample_scores_skip (m k : string) (v : pyval) (rest : dict pyval) :
  countable v = false ->
  sample_scores countable m ((k, v) :: rest) = sample_scores countable m rest.
Proof.
  intros H. unfold sample_scores. simpl. rewrite H, andb_false_r. reflexivity.
Qed.

Lemma sample_scores_keep (m k : string) (v : pyval) (rest : dict pyval) :
  countable v = true ->
  sample_scores countable m ((k, v) :: rest) =
  (if String.eqb m k then [v] else []) ++ sample_scores countable m rest.
Proof.
  intros H. unfold sample_scores. simpl. rewrite H, andb_true_r.
  rewrite (String.eqb_sym k m). now destruct (String.eqb m k).
Qed.

(** One pass of the inner loop: every listed metric receives the
    countable scores of the sample, unless [np.isnan] raises. *)
Lemma collect_sample_spec (sample : dict pyval) :
  forall results : dict (list pyval),
    NoDup (dict_keys results) ->
    (forall kv, In kv sample -> In (fst kv) (dict_keys results)) ->
    collect_sample results sample =
    if forallb (fun kv => test_defined (snd kv)) sample
    then Ok (map (fun e => (fst e, snd e ++ sample_scores countable (fst e) sample))
                 results)
    else Raise TypeError.
Proof.
  unfold collect_sample, dict_items.
  induction sample as [| [k v] rest IH]; intros results Hnd Hin.
  - simpl. f_equal. rewrite <- (map_id results) at 1. apply map_ext.
    intros [m l]. simpl. now rewrite app_nil_r.
  - assert (Hrest : forall kv, In kv rest -> In (fst kv) (dict_keys results))
      by (intros kv Hkv; apply Hin; now right).
    assert (Hskip : countable v = false -> test_defined v = true ->
                    collect_score results (k, v) = Ok results ->
                    for_each collect_score ((k, v) :: rest) results =
                    if forallb (fun kv => test_defined (snd kv)) ((k, v) :: rest)
                    then Ok (map (fun e => (fst e, snd e ++
                               sample_scores countable (fst e) ((k, v) :: rest)))
                               results)
                    else Raise TypeError).
    { intros Hc Ht Hs. cbn [for_each forallb snd]. rewrite Hs, Ht. cbn [bind andb].
      rewrite (IH results Hnd Hrest).
      destruct (forallb _ rest); [| reflexivity].
      f_equal. apply map_ext. intros e. now rewrite sample_scores_skip. }
    assert (Hkeep : countable v = true -> test_defined v = true ->
                    (forall l, dict_get k results = Some l ->
                       collect_score results (k, v) =
                       Ok (dict_set k (l ++ [v]) results)) ->
                    for_each collect_score ((k, v) :: rest) results =
                    if forallb (fun kv => test_defined (snd kv)) ((k, v) :: rest)
                    then Ok (map (fun e => (fst e, snd e ++
                               sample_scores countable (fst e) ((k, v) :: rest)))
                               results)
                    else Raise TypeError).
    { intros Hc Ht Hs.
      destruct (dict_get_In k results (Hin (k, v) (or_introl eq_refl))) as [l Hl].
      cbn [for_each forallb snd]. rewrite (Hs l Hl), Ht. cbn [bind andb].
      rewrite (dict_set_map (fun l => l ++ [v]) k l results Hnd Hl).
      rewrite IH.
      - destruct (forallb _ rest); [| reflexivity].
        f_equal. rewrite map_map. apply map_ext. intros [m l0]. cbn [fst snd].
        rewrite sample_scores_keep by assumption.
        destruct (String.eqb m k); [now rewrite <- app_assoc | reflexivity].
      - now rewrite dict_keys_map_snd.
      - intros kv Hkv. rewrite dict_keys_map_snd. now apply Hrest. }
    destruct v as [f | z | | s].
    + destruct (Py.isnan f) eqn:Hf.
      * apply Hskip; [cbn [countable]; now rewrite Hf | reflexivity |].
        cbn [collect_score isinstance_int_float Np.isnan bind]. now rewrite Hf.
      * apply Hkeep; [cbn [countable]; now rewrite Hf | reflexivity |].
        intros l Hl.
        cbn [collect_score isinstance_int_float Np.isnan bind].
        rewrite Hf. cbn [negb]. now rewrite Hl.
    + destruct (Np.fits_int64_or_uint64 z) eqn:Hz.
      * apply Hkeep; try assumption; try reflexivity.
        intros l Hl. cbn. rewrite Hz. cbn. now rewrite Hl.
      * cbn [for_each forallb snd test_defined]. rewrite Hz.
        cbn. rewrite Hz. reflexivity.
    + apply Hskip; reflexivity.
    + apply Hskip; reflexivity.
Qed.

(** The whole loop of lines 56 to 59. *)
Lemma collect_loop_spec (sample_results : list (dict pyval)) :
  forall results : dict (list pyval),
    NoDup (dict_keys results) ->
    keys_within (dict_keys results) sample_results ->
    for_each collect_sample sample_results results =
    if tests_defined sample_results
    then Ok (map (fun e => (fst e, snd e ++ gathered countable (fst e) sample_results))
                 results)
    else Raise TypeError.
Proof.
  unfold tests_defined, keys_within, gathered.
  induction sample_results as [| sample rest IH]; intros results Hnd Hin.
  - simpl. f_equal. rewrite <- (map_id results) at 1. apply map_ext.
    intros [m l]. simpl. now rewrite app_nil_r.
  - cbn [for_each forallb flat_map].
    rewrite collect_sample_spec; [| assumption |].
    2:{ intros kv Hkv. apply (Hin sample kv); [now left | assumption]. }
    destruct (forallb (fun kv => test_defined (snd kv)) sample); [| reflexivity].
    cbn [bind andb]. rewrite IH.
    + destruct (forallb (forallb _) rest); [| reflexivity].
      f_equal. rewrite map_map. apply map_ext. intros [m l]. cbn [fst snd].
      now rewrite <- app_assoc.
    + now rewrite dict_keys_map_snd.
    + intros s kv Hs Hkv. rewrite dict_keys_map_snd.
      apply (Hin s kv); [now right | assumption].
Qed.

(** ** The dictionary of line 23 *)

Lemma init_step (m : string) (acc : list string) :
  dict_set m (@nil pyval) (map (fun k => (k, [])) acc) =
  map (fun k => (k, [])) (if str_in m acc then acc else acc ++ [m]).
Proof.
  induction acc as [| a acc IH]; simpl.
  - reflexivity.
  - destruct (String.eqb m a); simpl.
    + reflexivity.
    + rewrite IH. unfold str_in. now destruct (existsb (String.eqb m) acc).
Qed.

Lemma init_results_fold (metrics : list string) :
  forall acc,
    fold_left (fun results metric => dict_set metric (@nil pyval) results) metrics
              (map (fun k => (k, [])) acc) =
    map (fun k => (k, []))
        (fold_left (fun acc m => if str_in m acc then acc else acc ++ [m])
                   metrics acc).
Proof.
  induction metrics as [| m metrics IH]; intros acc; simpl.
  - reflexivity.
  - rewrite init_step. apply IH.
Qed.

Lemma init_results_uniq (metrics : list string) :
  init_results metrics = map (fun k => (k, [])) (uniq metrics).
Proof. apply (init_results_fold metrics []). Qed.

Lemma uniq_fold_In (metrics : list string) :
  forall acc k,
    In k (fold_left (fun acc m => if str_in m acc then acc else acc ++ [m])
                    metrics acc) <-> In k acc \/ In k metrics.
Proof.
  induction metrics as [| m metrics IH]; intros acc k; simpl.
  - tauto.
  - rewrite IH. destruct (str_in m acc) eqn:E.
    + apply str_in_In in E. split; [tauto |].
      intros [H | [H | H]]; subst; tauto.
    + rewrite in_app_iff. simpl. tauto.
Qed.

Lemma uniq_fold_NoDup (metrics : list string) :
  forall acc,
    NoDup acc ->
    NoDup (fold_left (fun acc m => if str_in m acc then acc else acc ++ [m])
                     metrics acc).
Proof.
  induction metrics as [| m metrics IH]; intros acc Hnd; simpl.
  - assumption.
  - apply IH. destruct (str_in m acc) eqn:E; [assumption |].
    apply str_in_not_In in E.
    apply NoDup_app; [assumption | repeat constructor; simpl; tauto |].
    intros a Ha [Hb | []]. now subst.
Qed.

(** The requested names and their first-request order carry the same
    names. *)
Lemma uniq_In (metrics : list string) (k : string) :
  In k (uniq metrics) <-> In k metrics.
Proof. unfold uniq. rewrite uniq_fold_In. simpl. tauto. Qed.

Lemma uniq_NoDup (metrics : list string) : NoDup (uniq metrics).
Proof. apply uniq_fold_NoDup. constructor. Qed.

(** ** The means of line 61 *)

Lemma floats_of_float_of (l : list pyval) : Np.floats_of l = map float_of l.
Proof. reflexivity. Qed.

Lemma asarray_countable (l : list pyval) :
  forallb countable l = true -> Np.asarray l = Ok (Np.floats_of l).
Proof.
  induction l as [| v l IH]; simpl; intros H.
  - reflexivity.
  - apply andb_prop in H as [Hv Hl]. rewrite (IH Hl).
    destruct v; simpl in *; try discriminate; reflexivity.
Qed.

Lemma countable_not_nan (l : list pyval) :
  forallb countable l = true ->
  forall f, In f (Np.floats_of l) -> Py.isnan f = false.
Proof.
  intros H f Hf. unfold Np.floats_of in Hf.
  apply in_map_iff in Hf as [v [<- Hv]].
  rewrite forallb_forall in H. specialize (H v Hv).
  destruct v as [g | z | | s]; simpl in H; try discriminate.
  - now destruct (Py.isnan g).
  - apply float_of_int_not_nan.
Qed.

(** On floats other than not-a-number, [np.nanmean] replaces nothing
    and counts everything. *)
Lemma nanmean_floats_all (arr : list pyfloat) :
  (forall f, In f arr -> Py.isnan f = false) ->
  Np.nanmean_floats arr =
  fdiv (Np.add_reduce arr) (Np.float_of_count (List.length arr)).
Proof.
  intros H. unfold Np.nanmean_floats.
  assert (Hr : map (fun f => if Py.isnan f then fzero else f) arr = arr).
  { rewrite <- (map_id arr) at 2. apply map_ext_in.
    intros f Hf. now rewrite (H f Hf). }
  assert (Hc : filter (fun f => negb (Py.isnan f)) arr = arr).
  { clear Hr. induction arr as [| x arr IH]; simpl; [reflexivity |].
    rewrite (H x) by now left. simpl. f_equal. apply IH.
    intros f Hf. apply H. now right. }
  now rewrite Hr, Hc.
Qed.

Lemma nanmean_countable (l : list pyval) :
  forallb countable l = true ->
  Np.nanmean l = Ok (Np.mean_of_numbers l).
Proof.
  intros H. unfold Np.nanmean. rewrite (asarray_countable l H). cbn [bind].
  f_equal. unfold Np.mean_of_numbers, Np.sum_of_numbers.
  assert (Hlen : List.length (Np.floats_of l) = List.length l)
    by apply length_map.
  destruct (Np.integer_array l).
  - unfold Np.mean. now rewrite Hlen.
  - rewrite nanmean_floats_all by now apply countable_not_nan.
    now rewrite Hlen.
Qed.

Lemma mean_results_loop (items : dict (list pyval)) :
  forall out : dict pyfloat,
    NoDup (dict_keys out ++ dict_keys items) ->
    (forall e, In e items -> forallb countable (snd e) = true) ->
    for_each (fun out (item : string * list pyval) =>
                let '(metric, scores) := item in
                m <- Np.nanmean scores ;;
                Ok (dict_set metric m out)) items out =
    Ok (out ++ map (fun e => (fst e, Np.mean_of_numbers (snd e))) items).
Proof.
  induction items as [| [k l] items IH]; intros out Hnd Hc.
  - simpl. now rewrite app_nil_r.
  - cbn [for_each]. rewrite (nanmean_countable l (Hc (k, l) (or_introl eq_refl))).
    cbn [bind]. simpl in Hnd.
    assert (Hk : ~ In k (dict_keys out)).
    { intros Hin. apply NoDup_remove_2 in Hnd. apply Hnd.
      apply in_or_app. now left. }
    rewrite (dict_set_fresh k _ out Hk). rewrite IH.
    + f_equal. cbn [map fst snd]. now rewrite <- app_assoc.
    + unfold dict_keys in *. rewrite map_app. simpl. rewrite <- app_assoc. exact Hnd.
    + intros e He. apply Hc. now right.
Qed.

Lemma gathered_countable (keep : pyval -> bool) (m : string)
    (sample_results : list (dict pyval)) :
  (forall v, keep v = true -> countable v = true) ->
  forallb countable (gathered keep m sample_results) = true.
Proof.
  intros Hk. apply forallb_forall. intros v Hv.
  unfold gathered in Hv. apply in_flat_map in Hv as [sample [_ Hv]].
  unfold sample_scores in Hv. apply in_map_iff in Hv as [[k v'] [<- Hv]].
  apply filter_In in Hv as [_ Hv]. apply andb_prop in Hv as [_ Hv].
  now apply Hk.
Qed.

(** ** The aggregation as a whole *)

(** With result keys among the requested metrics, the aggregation
    returns for every requested metric what [np.nanmean] makes of its
    countable scores; it raises [TypeError] exactly when [np.isnan] is
    asked about an integer outside the 64-bit range. *)
Lemma aggregate_spec (metrics : list string) (sample_results : list (dict pyval)) :
  keys_within metrics sample_results ->
  aggregate metrics sample_results =
  if tests_defined sample_results
  then Ok (map (fun m => (m, Np.mean_of_numbers (scores_of m sample_results)))
               (uniq metrics))
  else Raise TypeError.
Proof.
  intros Hkeys. unfold aggregate, collect_scores.
  rewrite init_results_uniq.
  assert (Hk : dict_keys (map (fun k : string => (k, @nil pyval)) (uniq metrics))
               = uniq metrics).
  { unfold dict_keys. rewrite map_map. simpl. apply map_id. }
  rewrite collect_loop_spec.
  - destruct (tests_defined sample_results); [| reflexivity].
    cbn [bind]. rewrite map_map. cbn [fst snd app].
    unfold mean_results, dict_items. rewrite mean_results_loop.
    + cbn [app]. rewrite map_map. reflexivity.
    + cbn [dict_keys map app]. unfold dict_keys. rewrite map_map. simpl.
      rewrite map_id. apply uniq_NoDup.
    + intros e He. apply in_map_iff in He as [m [<- _]]. cbn [snd].
      now apply gathered_countable.
  - rewrite Hk. apply uniq_NoDup.
  - rewrite Hk. intros s kv Hs Hkv. apply uniq_In. now apply (Hkeys s kv).
Qed.

(** The lists that the loop of lines 56 to 59 builds. *)
Lemma collect_scores_spec (metrics : list string)
    (sample_results : list (dict pyval)) :
  keys_within metrics sample_results ->
  collect_scores metrics sample_results =
  if tests_defined sample_results
  then Ok (map (fun m => (m, scores_of m sample_results)) (uniq metrics))
  else Raise TypeError.
Proof.
  intros Hkeys. unfold collect_scores. rewrite init_results_uniq.
  assert (Hk : dict_keys (map (fun k : string => (k, @nil pyval)) (uniq metrics))
               = uniq metrics).
  { unfold dict_keys. rewrite map_map. simpl. apply map_id. }
  rewrite collect_loop_spec.
  - destruct (tests_defined sample_results); [| reflexivity].
    rewrite map_map. reflexivity.
  - rewrite Hk. apply uniq_NoDup.
  - rewrite Hk. intros s kv Hs Hkv. apply uniq_In. now apply (Hkeys s kv).
Qed.

End AggregateFacts.

(* ================================================================== *)
(** * Awaiting several tasks *)
(* ================================================================== *)

Module AsyncioFacts.

Import Asyncio.

Lemma first_raised_In {A} (order : list nat) (outs : list (result A)) (e : exn) :
  first_raised order outs = Some e -> In (Raise e) outs.
Proof.
  induction order as [| i order IH]; simpl; intros H.
  - discriminate.
  - destruct (nth_error outs i) as [[a | e'] |] eqn:E; try now apply IH.
    injection H as <-. now apply nth_error_In in E.
Qed.

Lemma first_raised_all_ok {A} (order : list nat) (vs : list A) :
  first_raised order (map Ok vs) = None.
Proof.
  induction order as [| i order IH]; simpl.
  - reflexivity.
  - destruct (nth_error (map Ok vs) i) as [[a | e] |] eqn:E; try assumption.
    apply nth_error_In, in_map_iff in E as [x [Hx _]]. discriminate.
Qed.

Lemma all_results_map_ok {A} (vs : list A) : all_results (map Ok vs) = Ok vs.
Proof.
  induction vs as [| v vs IH]; simpl; [reflexivity | now rewrite IH].
Qed.

Lemma all_results_ok {A} (outs : list (result A)) (vs : list A) :
  all_results outs = Ok vs -> outs = map Ok vs.
Proof.
  revert vs. induction outs as [| [a | e] outs IH]; simpl; intros vs H.
  - injection H as <-. reflexivity.
  - destruct (all_results outs) as [rest | e]; simpl in H; [| discriminate].
    injection H as <-. simpl. f_equal. now apply IH.
  - discriminate.
Qed.

Lemma all_results_raise {A} (outs : list (result A)) (e : exn) :
  all_results outs = Raise e -> In (Raise e) outs.
Proof.
  induction outs as [| [a | e'] outs IH]; simpl; intros H.
  - discriminate.
  - destruct (all_results outs) as [rest | e2]; simpl in H; [discriminate |].
    injection H as <-. right. now apply IH.
  - injection H as <-. now left.
Qed.

Lemma all_results_In_raise {A} (outs : list (result A)) (e : exn) :
  In (Raise e) outs -> exists e', all_results outs = Raise e'.
Proof.
  induction outs as [| [a | e'] outs IH]; simpl; intros H.
  - contradiction.
  - destruct H as [H | H]; [discriminate |].
    destruct (IH H) as [e2 ->]. now exists e2.
  - now exists e'.
Qed.

Lemma all_ok_map {A} (l : list (result A)) :
  (forall o, In o l -> exists r, o = Ok r) -> exists rs, l = map Ok rs.
Proof.
  induction l as [| o l IH]; intros H.
  - now exists [].
  - destruct (H o (or_introl eq_refl)) as [r ->].
    destruct IH as [rs ->]; [intros o Ho; apply H; now right |].
    now exists (r :: rs).
Qed.

Lemma map_Ok_inj {A} (l l' : list A) : map (@Ok A) l = map Ok l' -> l = l'.
Proof.
  revert l'. induction l as [| x l IH]; intros [| y l'] H; simpl in H;
    try discriminate; [reflexivity |].
  injection H as -> H. f_equal. now apply IH.
Qed.

(** [gather] returns exactly when every awaitable returned. *)
Lemma gather_ok {A} (order : list nat) (outs : list (result A)) (vs : list A) :
  gather order outs = Ok vs -> outs = map Ok vs.
Proof.
  unfold gather. destruct (first_raised order outs); [discriminate |].
  apply all_results_ok.
Qed.

Lemma gather_all_ok {A} (order : list nat) (vs : list A) :
  gather order (map Ok vs) = Ok vs.
Proof.
  unfold gather. rewrite first_raised_all_ok. apply all_results_map_ok.
Qed.

(** What [gather] raises was raised by one of the awaitables. *)
Lemma gather_raise_In {A} (order : list nat) (outs : list (result A)) (e : exn) :
  gather order outs = Raise e -> In (Raise e) outs.
Proof.
  unfold gather. destruct (first_raised order outs) as [e' |] eqn:E.
  - intros H. injection H as <-. now apply first_raised_In in E.
  - apply all_results_raise.
Qed.

(** A failing awaitable makes [gather] raise. *)
Lemma gather_In_raise {A} (order : list nat) (outs : list (result A)) (e : exn) :
  In (Raise e) outs -> exists e', gather order outs = Raise e'.
Proof.
  intros H. unfold gather. destruct (first_raised order outs) as [e' |].
  - now exists e'.
  - now apply all_results_In_raise with (e := e).
Qed.

Lemma flat_map_ext_seq {A} (f g : nat -> list A) (start len : nat) :
  (forall i, start <= i < start + len -> f i = g i) ->
  flat_map f (seq start len) = flat_map g (seq start len).
Proof.
  revert start. induction len as [| len IH]; intros start H; simpl.
  - reflexivity.
  - rewrite (H start) by lia. f_equal. apply IH. intros i Hi. apply H. lia.
Qed.

(** The awaitables in an order in which they finish are a rearrangement
    of the awaitables. *)
Lemma as_completed_perm {A} (order : list nat) (outs : list A) :
  completion_order order (List.length outs) ->
  Permutation (as_completed order outs) outs.
Proof.
  unfold completion_order, as_completed. intros H.
  transitivity (flat_map (fun i => match nth_error outs i with
                                   | Some o => [o]
                                   | None => []
                                   end) (seq 0 (List.length outs))).
  - clear -H. induction H; simpl.
    + reflexivity.
    + now apply Permutation_app_head.
    + rewrite !app_assoc. apply Permutation_app_tail, Permutation_app_comm.
    + etransitivity; eassumption.
  - clear H. induction outs as [| o outs IH] using rev_ind.
    + reflexivity.
    + rewrite length_app. simpl. rewrite Nat.add_1_r, seq_S, flat_map_app. simpl.
      rewrite nth_error_app2, Nat.sub_diag by lia. simpl.
      apply Permutation_app; [| reflexivity].
      rewrite <- IH at 2. apply Permutation_refl'. apply flat_map_ext_seq.
      intros i Hi. rewrite nth_error_app1 by lia. reflexivity.
Qed.

(** ** The order in which the tasks start *)

Lemma pick_perm {A} (order : list nat) (outs : list A) :
  completion_order order (List.length outs) ->
  Permutation (pick order outs) outs.
Proof. apply as_completed_perm. Qed.

Lemma pick_map {A B} (f : A -> B) (order : list nat) (l : list A) :
  pick order (map f l) = map f (pick order l).
Proof.
  unfold pick. induction order as [| i order IH]; simpl; [reflexivity |].
  rewrite map_app, IH, nth_error_map.
  now destruct (nth_error l i).
Qed.

Lemma insert_by_perm (place : nat -> nat) (i : nat) (l : list nat) :
  Permutation (insert_by place i l) (i :: l).
Proof.
  induction l as [| j l IH]; simpl; [reflexivity |].
  destruct (place i <=? place j); [reflexivity |].
  rewrite IH. apply perm_swap.
Qed.

(** Every task starts, and starts once. *)
Lemma start_order_perm (place : nat -> nat) (n : nat) :
  Permutation (start_order place n) (seq 0 n).
Proof.
  unfold start_order. induction (seq 0 n) as [| i l IH]; simpl; [reflexivity |].
  rewrite insert_by_perm. now constructor.
Qed.

Lemma started_perm {A} (place : nat -> nat) (aws : list A) :
  Permutation (started place aws) aws.
Proof. apply pick_perm, start_order_perm. Qed.

Lemma started_map {A B} (f : A -> B) (place : nat -> nat) (l : list A) :
  started place (map f l) = map f (started place l).
Proof. unfold started. now rewrite length_map, pick_map. Qed.

End AsyncioFacts.

(* ================================================================== *)
(** * [evaluate_sample] *)
(* ================================================================== *)

Module SampleFacts.

Import GenEval Spec PyFacts AsyncioFacts.

Section WithMetrics.

Variable compute_rouge_score : string -> string -> result pyval.
Variable compute_answer_correctness :
  string -> string -> string -> ChatOpenAI -> LangchainEmbeddingsWrapper ->
  result pyval.
Variable compute_coverage_score :
  string -> string -> string -> ChatOpenAI -> result pyval.
Variable compute_faithfulness_score :
  string -> string -> list string -> ChatOpenAI -> result pyval.

Local Abbreviation await :=
  (await compute_rouge_score compute_answer_correctness
     compute_coverage_score compute_faithfulness_score).
Local Abbreviation evaluate_row :=
  (evaluate_row compute_rouge_score compute_answer_correctness
     compute_coverage_score compute_faithfulness_score).

(** The calls that a sample evaluation makes do not depend on how the
    awaited computers fare. *)
Lemma evaluate_row_calls (order : list nat) (s : Sample) (metrics : list string)
    (llm : ChatOpenAI) (emb : LangchainEmbeddingsWrapper) :
  fst (evaluate_row order s metrics llm emb) = requested_calls metrics s llm emb.
Proof.
  unfold GenEval.evaluate_row, evaluate_sample, requested_calls, all_calls.
  cbn [filter metric_of].
  destruct (str_in "rouge_score" metrics),
           (str_in "answer_correctness" metrics),
           (str_in "coverage_score" metrics),
           (str_in "faithfulness" metrics);
    cbn;
    match goal with
    | |- context [Asyncio.gather ?o ?l] => destruct (Asyncio.gather o l)
    end; cbn;
    try reflexivity;
    match goal with
    | |- context [store_results ?k ?v] => destruct (store_results k v)
    end; reflexivity.
Qed.

(** The value of a sample evaluation: the awaited results filed under
    the names of their computers, or what [gather] raises. *)
Lemma evaluate_row_result (order : list nat) (s : Sample) (metrics : list string)
    (llm : ChatOpenAI) (emb : LangchainEmbeddingsWrapper) :
  snd (evaluate_row order s metrics llm emb) =
  (vs <- Asyncio.gather order (map await (requested_calls metrics s llm emb)) ;;
   Ok (combine (map metric_of (requested_calls metrics s llm emb)) vs)).
Proof.
  unfold GenEval.evaluate_row, evaluate_sample, requested_calls, all_calls.
  cbn [filter metric_of].
  destruct (str_in "rouge_score" metrics),
           (str_in "answer_correctness" metrics),
           (str_in "coverage_score" metrics),
           (str_in "faithfulness" metrics);
    cbn;
    match goal with
    | |- context [Asyncio.gather ?o ?l] =>
        destruct (Asyncio.gather o l) as [vs | e] eqn:G
    end; cbn; try reflexivity;
    apply gather_ok in G;
    destruct vs as [| v1 [| v2 [| v3 [| v4 [| v5 vs]]]]]; try discriminate G;
    reflexivity.
Qed.

Lemma requested_calls_metric (metrics : list string) (s : Sample)
    (llm : ChatOpenAI) (emb : LangchainEmbeddingsWrapper) (c : call) :
  In c (requested_calls metrics s llm emb) ->
  In (metric_of c) metrics /\ In (metric_of c) supported_metrics.
Proof.
  unfold requested_calls. intros H. apply filter_In in H as [Hin Hreq].
  split; [now apply str_in_In |].
  unfold all_calls in Hin. simpl in Hin.
  destruct Hin as [<- | [<- | [<- | [<- | []]]]]; simpl; tauto.
Qed.

Lemma requested_calls_NoDup (metrics : list string) (s : Sample)
    (llm : ChatOpenAI) (emb : LangchainEmbeddingsWrapper) :
  NoDup (map metric_of (requested_calls metrics s llm emb)).
Proof.
  unfold requested_calls, all_calls. cbn [filter metric_of].
  destruct (str_in "rouge_score" metrics),
           (str_in "answer_correctness" metrics),
           (str_in "coverage_score" metrics),
           (str_in "faithfulness" metrics);
    cbn [map metric_of];
    repeat (constructor; [simpl; intuition discriminate |]); constructor.
Qed.

(** A sample result has only requested, supported metrics as keys. *)
Lemma evaluate_row_keys (order : list nat) (s : Sample) (metrics : list string)
    (llm : ChatOpenAI) (emb : LangchainEmbeddingsWrapper) (r : dict pyval) :
  snd (evaluate_row order s metrics llm emb) = Ok r ->
  dict_keys r = map metric_of (requested_calls metrics s llm emb).
Proof.
  rewrite evaluate_row_result.
  destruct (Asyncio.gather _ _) as [vs | e] eqn:G; cbn [bind]; [| discriminate].
  intros H. injection H as <-. apply gather_ok in G.
  assert (Hlen : List.length vs = List.length (requested_calls metrics s llm emb)).
  { apply (f_equal (@List.length _)) in G. now rewrite !length_map in G. }
  unfold dict_keys.
  generalize dependent (requested_calls metrics s llm emb). clear.
  intros cs _. revert vs. induction cs as [| c cs IH]; intros [| v vs] Hlen;
    simpl in *; try discriminate; try reflexivity.
  f_equal. apply IH. lia.
Qed.

Lemma evaluate_row_keys_within (order : list nat) (s : Sample)
    (metrics : list string) (llm : ChatOpenAI)
    (emb : LangchainEmbeddingsWrapper) (r : dict pyval) (kv : string * pyval) :
  snd (evaluate_row order s metrics llm emb) = Ok r -> In kv r ->
  In (fst kv) metrics /\ In (fst kv) supported_metrics.
Proof.
  intros Hr Hkv. apply evaluate_row_keys in Hr.
  assert (Hk : In (fst kv) (dict_keys r)) by (unfold dict_keys; now apply in_map).
  rewrite Hr in Hk. apply in_map_iff in Hk as [c [<- Hc]].
  now apply requested_calls_metric in Hc.
Qed.

(** A failing computer makes the sample evaluation raise, and what is
    raised comes from one of the sample's computers. *)
Lemma evaluate_row_raises (order : list nat) (s : Sample) (metrics : list string)
    (llm : ChatOpenAI) (emb : LangchainEmbeddingsWrapper) (c : call) (e : exn) :
  In c (requested_calls metrics s llm emb) -> await c = Raise e ->
  exists e', snd (evaluate_row order s metrics llm emb) = Raise e'.
Proof.
  intros Hc He. rewrite evaluate_row_result.
  destruct (gather_In_raise order (map await (requested_calls metrics s llm emb)) e)
    as [e' ->].
  - rewrite <- He. now apply in_map.
  - now exists e'.
Qed.

Lemma evaluate_row_raise_origin (order : list nat) (s : Sample)
    (metrics : list string) (llm : ChatOpenAI)
    (emb : LangchainEmbeddingsWrapper) (e : exn) :
  snd (evaluate_row order s metrics llm emb) = Raise e ->
  exists c, In c (requested_calls metrics s llm emb) /\ await c = Raise e.
Proof.
  rewrite evaluate_row_result.
  destruct (Asyncio.gather _ _) as [vs | e'] eqn:G; cbn [bind]; [discriminate |].
  intros H. injection H as ->. apply gather_raise_In in G.
  apply in_map_iff in G as [c [Hc Hin]]. now exists c.
Qed.

(** When every computer returns, the sample evaluation returns. *)
Lemma evaluate_row_returns (order : list nat) (s : Sample) (metrics : list string)
    (llm : ChatOpenAI) (emb : LangchainEmbeddingsWrapper) :
  (forall c, In c (requested_calls metrics s llm emb) -> exists v, await c = Ok v) ->
  exists r, snd (evaluate_row order s metrics llm emb) = Ok r.
Proof.
  intros H. rewrite evaluate_row_result.
  destruct (Asyncio.gather _ _) as [vs | e] eqn:G; cbn [bind].
  - eexists. reflexivity.
  - apply gather_raise_In, in_map_iff in G as [c [Hc Hin]].
    destruct (H c Hin) as [v Hv]. congruence.
Qed.

End WithMetrics.

End SampleFacts.

(* ================================================================== *)
(** * [evaluate_dataset] *)
(* ================================================================== *)

Module DatasetFacts.

Import GenEval Spec PyFacts AsyncioFacts SampleFacts AggregateFacts.

Lemma map_seq_nth {A B} (F : nat -> A -> B) (d : A) (l : list A) :
  forall pre : list A,
    map (fun i => F i (nth i (pre ++ l) d)) (seq (List.length pre) (List.length l)) =
    map (fun p => F (fst p) (snd p)) (combine (seq (List.length pre) (List.length l)) l).
Proof.
  induction l as [| x l IH]; intros pre; simpl.
  - reflexivity.
  - rewrite nth_middle. f_equal.
    specialize (IH (pre ++ [x])). rewrite length_app in IH. simpl in IH.
    rewrite Nat.add_1_r in IH. rewrite <- IH.
    apply map_ext. intros i. now rewrite <- app_assoc.
Qed.

Lemma as_completed_In {A} (order : list nat) (outs : list A) (o : A) :
  In o (Asyncio.as_completed order outs) -> In o outs.
Proof.
  unfold Asyncio.as_completed. intros H.
  apply in_flat_map in H as [i [_ H]].
  destruct (nth_error outs i) eqn:E; simpl in H; [| contradiction].
  destruct H as [<- | []]. now apply nth_error_In in E.
Qed.

Lemma collect_results_all (futures : list (result (dict pyval))) :
  collect_results futures = Asyncio.all_results futures.
Proof.
  unfold collect_results.
  enough (H : forall acc,
             for_each (fun sample_results future =>
                         r <- future ;; Ok (sample_results ++ [r])) futures acc =
             (rs <- Asyncio.all_results futures ;; Ok (acc ++ rs))).
  { rewrite H. now destruct (Asyncio.all_results futures). }
  induction futures as [| [r | e] futures IH]; intros acc; simpl.
  - now rewrite app_nil_r.
  - rewrite IH. destruct (Asyncio.all_results futures); simpl; [| reflexivity].
    now rewrite <- app_assoc.
  - reflexivity.
Qed.

Lemma ensure_futures_map {A X} (place : nat -> nat) (T : X -> W A)
    (xs : list X) :
  ensure_futures place (map T xs) =
  (flat_map (fun x => fst (T x)) (Asyncio.started place xs),
   Ok (map (fun x => snd (T x)) xs)).
Proof.
  unfold ensure_futures. rewrite started_map, map_map. f_equal.
  induction (Asyncio.started place xs) as [| x l IH]; simpl;
    [reflexivity | now rewrite IH].
Qed.

Section WithMetrics.

Variable compute_rouge_score : string -> string -> result pyval.
Variable compute_answer_correctness :
  string -> string -> string -> ChatOpenAI -> LangchainEmbeddingsWrapper ->
  result pyval.
Variable compute_coverage_score :
  string -> string -> string -> ChatOpenAI -> result pyval.
Variable compute_faithfulness_score :
  string -> string -> list string -> ChatOpenAI -> result pyval.

Local Abbreviation await :=
  (await compute_rouge_score compute_answer_correctness
     compute_coverage_score compute_faithfulness_score).
Local Abbreviation evaluate_row :=
  (evaluate_row compute_rouge_score compute_answer_correctness
     compute_coverage_score compute_faithfulness_score).
Local Abbreviation row_outcome :=
  (row_outcome compute_rouge_score compute_answer_correctness
     compute_coverage_score compute_faithfulness_score).
Local Abbreviation sample_tasks :=
  (sample_tasks compute_rouge_score compute_answer_correctness
     compute_coverage_score compute_faithfulness_score).
Local Abbreviation collect_dataset :=
  (collect_dataset compute_rouge_score compute_answer_correctness
     compute_coverage_score compute_faithfulness_score).
Local Abbreviation evaluate_dataset :=
  (evaluate_dataset compute_rouge_score compute_answer_correctness
     compute_coverage_score compute_faithfulness_score).

(** One task per row, in row order. *)
Lemma sample_tasks_rows (sched : Schedule) (dataset : Dataset)
    (metrics : list string) (llm : ChatOpenAI) (emb : LangchainEmbeddingsWrapper) :
  sample_tasks sched dataset metrics llm emb =
  map (fun p => evaluate_row (gather_order sched (fst p)) (snd p) metrics llm emb)
      (indexed dataset).
Proof.
  unfold GenEval.sample_tasks, indexed, column. rewrite length_map.
  pose (d := {| question := ""; answer := ""; contexts := [];
                ground_truth := "" |}).
  pose proof (map_seq_nth
                (fun i s => evaluate_row (gather_order sched i) s metrics llm emb)
                d dataset []) as Hm.
  cbn [List.length app fst snd] in Hm. rewrite <- Hm.
  apply map_ext. intros i. cbn [app]. unfold GenEval.evaluate_row.
  change "" with (question d) at 1. rewrite map_nth.
  change "" with (answer d) at 1. rewrite map_nth.
  change (@nil string) with (contexts d) at 1. rewrite map_nth.
  change "" with (ground_truth d) at 1. rewrite map_nth.
  reflexivity.
Qed.

Lemma indexed_snd (dataset : Dataset) : map snd (indexed dataset) = dataset.
Proof.
  unfold indexed. generalize 0. induction dataset as [| s ds IH]; intros n; simpl.
  - reflexivity.
  - f_equal. apply IH.
Qed.

Lemma indexed_length (dataset : Dataset) :
  List.length (indexed dataset) = List.length dataset.
Proof. rewrite <- (indexed_snd dataset) at 2. now rewrite length_map. Qed.

Lemma flat_map_indexed {B} (f : Sample -> list B) (dataset : Dataset) :
  flat_map (fun p => f (snd p)) (indexed dataset) = flat_map f dataset.
Proof.
  rewrite <- (indexed_snd dataset) at 2.
  induction (indexed dataset) as [| p l IH]; simpl; [reflexivity | now rewrite IH].
Qed.

(** The calls of a group evaluation: those of every row, row by row
    in the order in which the tasks start, whatever the computers
    return. *)
Lemma collect_dataset_calls (sched : Schedule) (dataset : Dataset)
    (metrics : list string) (llm : ChatOpenAI) (emb : LangchainEmbeddingsWrapper) :
  fst (collect_dataset sched dataset metrics llm emb) =
  flat_map (fun s => requested_calls metrics s llm emb)
           (Asyncio.started (start_place sched) dataset).
Proof.
  unfold GenEval.collect_dataset.
  rewrite sample_tasks_rows, ensure_futures_map. cbn.
  rewrite app_nil_r.
  rewrite <- (indexed_snd dataset) at 2. rewrite started_map.
  induction (Asyncio.started (start_place sched) (indexed dataset))
    as [| p l IH]; simpl; [reflexivity |].
  now rewrite IH, evaluate_row_calls.
Qed.

(** The calls of a group evaluation, up to the order of the rows. *)
Lemma collect_dataset_calls_perm (sched : Schedule) (dataset : Dataset)
    (metrics : list string) (llm : ChatOpenAI) (emb : LangchainEmbeddingsWrapper) :
  Permutation (fst (collect_dataset sched dataset metrics llm emb))
              (flat_map (fun s => requested_calls metrics s llm emb) dataset).
Proof.
  rewrite collect_dataset_calls.
  apply Permutation_flat_map, started_perm.
Qed.

Lemma collect_dataset_result (sched : Schedule) (dataset : Dataset)
    (metrics : list string) (llm : ChatOpenAI) (emb : LangchainEmbeddingsWrapper) :
  snd (collect_dataset sched dataset metrics llm emb) =
  Asyncio.all_results
    (Asyncio.as_completed (completion sched)
       (map (row_outcome sched metrics llm emb) (indexed dataset))).
Proof.
  unfold GenEval.collect_dataset.
  rewrite sample_tasks_rows, ensure_futures_map. cbn.
  now rewrite collect_results_all.
Qed.

Lemma evaluate_dataset_calls (sched : Schedule) (dataset : Dataset)
    (metrics : list string) (llm : ChatOpenAI) (emb : LangchainEmbeddingsWrapper) :
  fst (evaluate_dataset sched dataset metrics llm emb) =
  flat_map (fun s => requested_calls metrics s llm emb)
           (Asyncio.started (start_place sched) dataset).
Proof.
  unfold GenEval.evaluate_dataset.
  rewrite <- collect_dataset_calls with (sched := sched).
  destruct (collect_dataset sched dataset metrics llm emb) as [log [srs | e]]; cbn.
  - apply app_nil_r.
  - reflexivity.
Qed.

Lemma evaluate_dataset_result (sched : Schedule) (dataset : Dataset)
    (metrics : list string) (llm : ChatOpenAI) (emb : LangchainEmbeddingsWrapper) :
  snd (evaluate_dataset sched dataset metrics llm emb) =
  (sample_results <- snd (collect_dataset sched dataset metrics llm emb) ;;
   aggregate metrics sample_results).
Proof.
  unfold GenEval.evaluate_dataset.
  destruct (collect_dataset sched dataset metrics llm emb) as [log [srs | e]];
    reflexivity.
Qed.

(** The collected results have requested, supported metrics as keys. *)
Lemma collect_dataset_keys (sched : Schedule) (dataset : Dataset)
    (metrics : list string) (llm : ChatOpenAI) (emb : LangchainEmbeddingsWrapper)
    (sample_results : list (dict pyval)) :
  snd (collect_dataset sched dataset metrics llm emb) = Ok sample_results ->
  forall sample kv, In sample sample_results -> In kv sample ->
                    In (fst kv) metrics /\ In (fst kv) supported_metrics.
Proof.
  rewrite collect_dataset_result. intros H sample kv Hs Hkv.
  apply all_results_ok in H.
  assert (Hin : In (Ok sample) (Asyncio.as_completed (completion sched)
                  (map (row_outcome sched metrics llm emb) (indexed dataset)))).
  { rewrite H. now apply in_map. }
  apply as_completed_In, in_map_iff in Hin as [p [Hp _]].
  unfold GenEval.row_outcome in Hp. eapply evaluate_row_keys_within; eassumption.
Qed.

(** When every task returns, the collected results are the results of
    the tasks in the order in which they finished. *)
Lemma collect_dataset_complete (sched : Schedule) (dataset : Dataset)
    (metrics : list string) (llm : ChatOpenAI) (emb : LangchainEmbeddingsWrapper) :
  Asyncio.completion_order (completion sched) (List.length dataset) ->
  (forall p, In p (indexed dataset) ->
             exists r, row_outcome sched metrics llm emb p = Ok r) ->
  exists sample_results,
    snd (collect_dataset sched dataset metrics llm emb) = Ok sample_results /\
    Permutation (map Ok sample_results)
                (map (row_outcome sched metrics llm emb) (indexed dataset)).
Proof.
  intros Horder Hok.
  set (outs := map (row_outcome sched metrics llm emb) (indexed dataset)).
  assert (Hlen : List.length outs = List.length dataset)
    by (unfold outs; now rewrite length_map, indexed_length).
  assert (Hperm : Permutation (Asyncio.as_completed (completion sched) outs) outs)
    by (apply as_completed_perm; now rewrite Hlen).
  destruct (all_ok_map (Asyncio.as_completed (completion sched) outs)) as [rs Hrs].
  { intros o Ho. apply as_completed_In in Ho. unfold outs in Ho.
    apply in_map_iff in Ho as [p [<- Hp]]. now apply Hok. }
  exists rs. split.
  - rewrite collect_dataset_result. fold outs. rewrite Hrs.
    apply all_results_map_ok.
  - now rewrite <- Hrs.
Qed.

(** A task that returns does so with the same value whatever the order
    in which its metric computations finish. *)
Lemma row_outcome_any_order (sched sched' : Schedule) (metrics : list string)
    (llm : ChatOpenAI) (emb : LangchainEmbeddingsWrapper) (p : nat * Sample)
    (r : dict pyval) :
  row_outcome sched metrics llm emb p = Ok r ->
  row_outcome sched' metrics llm emb p = Ok r.
Proof.
  unfold GenEval.row_outcome. rewrite !evaluate_row_result.
  destruct (Asyncio.gather (gather_order sched (fst p)) _) as [vs | e] eqn:G;
    cbn [bind]; [| discriminate].
  intros H. apply gather_ok in G. rewrite G, gather_all_ok. exact H.
Qed.

Lemma collect_dataset_keys_within (sched : Schedule) (dataset : Dataset)
    (metrics : list string) (llm : ChatOpenAI) (emb : LangchainEmbeddingsWrapper)
    (sample_results : list (dict pyval)) :
  snd (collect_dataset sched dataset metrics llm emb) = Ok sample_results ->
  keys_within metrics sample_results.
Proof.
  intros H sample kv Hs Hkv.
  now destruct (collect_dataset_keys _ _ _ _ _ _ H sample kv Hs Hkv).
Qed.

End WithMetrics.

End DatasetFacts.

(* ================================================================== *)
(** * Writing and reading JSON *)
(* ================================================================== *)

Module JsonFacts.

Import Json PyFacts.

Lemma encode_array (items : list json) :
  encode (JArray items) = TLBracket :: comma_separated encode items ++ [TRBracket].
Proof. reflexivity. Qed.

Lemma encode_object (members : dict json) :
  encode (JObject members) =
  TLBrace :: comma_separated encode_member members ++ [TRBrace].
Proof. reflexivity. Qed.

(** A token that can open a value. *)
Definition opens_value (t : token) : bool :=
  match t with
  | TRBracket | TRBrace | TComma | TColon => false
  | _ => true
  end.

Lemma encode_head (v : json) :
  exists t ts, encode v = t :: ts /\ opens_value t = true.
Proof.
  destruct v as [| [|] | z | f | s | items | members];
    try (eexists; eexists; split; [reflexivity | reflexivity]).
  exists (encode_float f), []. split; [reflexivity |].
  unfold encode_float.
  destruct (Py.isnan f); [reflexivity |].
  destruct (PrimFloat.eqb f PInf); [reflexivity |].
  now destruct (PrimFloat.eqb f NInf).
Qed.

Lemma size_pos (v : json) : 1 <= size v.
Proof.
  unfold size. destruct (encode_head v) as (t & ts & -> & _). simpl. lia.
Qed.

Lemma parse_value_array (n : nat) (t : token) (ts : list token) :
  t <> TRBracket ->
  parse_value (S n) (TLBracket :: t :: ts) =
  match parse_items n (t :: ts) with
  | Some (items, r') => Some (JArray items, r')
  | None => None
  end.
Proof. intros H. destruct t; try reflexivity. congruence. Qed.

Lemma parse_value_object (n : nat) (t : token) (ts : list token) :
  t <> TRBrace ->
  parse_value (S n) (TLBrace :: t :: ts) =
  match parse_members n (t :: ts) with
  | Some (pairs, r') => Some (JObject (dict_of_pairs pairs), r')
  | None => None
  end.
Proof. intros H. destruct t; try reflexivity. congruence. Qed.

Lemma dict_of_pairs_id {V} (pairs : list (string * V)) :
  NoDup (dict_keys pairs) -> dict_of_pairs pairs = pairs.
Proof.
  unfold dict_of_pairs.
  enough (H : forall acc : dict V,
             NoDup (dict_keys acc ++ dict_keys pairs) ->
             fold_left (fun d kv => dict_set (fst kv) (snd kv) d) pairs acc =
             acc ++ pairs).
  { intros Hnd. now rewrite H. }
  induction pairs as [| [k v] pairs IH]; intros acc Hnd; simpl.
  - now rewrite app_nil_r.
  - simpl in Hnd. rewrite dict_set_fresh.
    + rewrite IH.
      * now rewrite <- app_assoc.
      * unfold dict_keys in *. rewrite map_app. simpl. now rewrite <- app_assoc.
    + intros Hin. apply NoDup_remove_2 in Hnd. apply Hnd, in_or_app. now left.
Qed.

Lemma comma_separated_cons {A} (enc : A -> list token) (x : A) (rest : list A)
    (tail : list token) :
  comma_separated enc (x :: rest) ++ tail =
  enc x ++ match rest with
           | [] => tail
           | _ :: _ => TComma :: comma_separated enc rest ++ tail
           end.
Proof.
  cbn [comma_separated]. rewrite <- app_assoc. now destruct rest.
Qed.

Lemma comma_separated_length {A} (enc : A -> list token) (x : A) (rest : list A) :
  List.length (comma_separated enc (x :: rest)) =
  List.length (enc x) +
  match rest with
  | [] => 0
  | _ :: _ => S (List.length (comma_separated enc rest))
  end.
Proof.
  cbn [comma_separated]. rewrite length_app. now destruct rest.
Qed.

Definition all_wf (items : list json) : Prop :=
  fold_right (fun x acc => json_wf x /\ acc) True items.

Definition members_wf (members : list (string * json)) : Prop :=
  fold_right (fun (kv : string * json) acc =>
                (let '(_, x) := kv in json_wf x) /\ acc) True members.

(** Parsing what the encoder wrote gives the value back and stops at
    the end of its text. *)
Lemma parse_encode (n : nat) :
  (forall v rest, json_wf v -> size v <= n ->
                  parse_value n (encode v ++ rest) = Some (v, rest)) /\
  (forall items rest, items <> [] -> all_wf items ->
                      List.length (comma_separated encode items) < n ->
                      parse_items n (comma_separated encode items
                                     ++ TRBracket :: rest) = Some (items, rest)) /\
  (forall members rest, members <> [] -> members_wf members ->
                        List.length (comma_separated encode_member members) < n ->
                        parse_members n (comma_separated encode_member members
                                         ++ TRBrace :: rest) = Some (members, rest)).
Proof.
  induction n as [| n (IHv & IHi & IHm)].
  - split; [| split].
    + intros v rest _ H. pose proof (size_pos v). lia.
    + intros; lia.
    + intros; lia.
  - split; [| split].
    + intros v rest Hwf Hsize.
      destruct v as [| [|] | z | f | s | items | members];
        try reflexivity.
      * cbn [encode app]. unfold encode_float.
        destruct (Py.isnan f) eqn:E1;
          [apply FloatFacts.isnan_eq in E1; now subst |].
        destruct (PrimFloat.eqb f PInf) eqn:E2;
          [apply FloatFacts.eqb_PInf in E2; now subst |].
        destruct (PrimFloat.eqb f NInf) eqn:E3;
          [apply FloatFacts.eqb_NInf in E3; now subst | reflexivity].
      * destruct items as [| x items]; [reflexivity |].
        rewrite encode_array. cbn [app]. rewrite <- app_assoc. cbn [app].
        unfold size in Hsize. rewrite encode_array in Hsize.
        cbn [List.length] in Hsize. rewrite length_app in Hsize.
        cbn [List.length] in Hsize.
        pose proof (IHi (x :: items) rest ltac:(discriminate) Hwf ltac:(lia)) as Hp.
        rewrite comma_separated_cons in Hp |- *.
        destruct (encode_head x) as (t & ts & Hx & Ht). rewrite Hx in Hp |- *.
        cbn [app] in Hp |- *. rewrite parse_value_array.
        -- now rewrite Hp.
        -- intros ->. discriminate.
      * destruct members as [| [k x] members]; [reflexivity |].
        rewrite encode_object. cbn [app]. rewrite <- app_assoc. cbn [app].
        unfold size in Hsize. rewrite encode_object in Hsize.
        cbn [List.length] in Hsize. rewrite length_app in Hsize.
        cbn [List.length] in Hsize.
        destruct Hwf as [Hnd Hwf].
        pose proof (IHm ((k, x) :: members) rest ltac:(discriminate) Hwf ltac:(lia))
          as Hp.
        rewrite comma_separated_cons in Hp |- *.
        cbn [encode_member app] in Hp |- *. rewrite parse_value_object.
        -- rewrite Hp. now rewrite dict_of_pairs_id.
        -- discriminate.
    + intros items rest Hne Hwf Hlen.
      destruct items as [| x items]; [congruence |].
      rewrite comma_separated_length in Hlen. rewrite comma_separated_cons.
      destruct Hwf as [Hx Hwf]. pose proof (size_pos x) as Hpos. unfold size in Hpos.
      cbn [parse_items].
      rewrite IHv by (try assumption; unfold size; destruct items; lia).
      destruct items as [| y items]; [reflexivity |].
      rewrite IHi; [reflexivity | discriminate | assumption | lia].
    + intros members rest Hne Hwf Hlen.
      destruct members as [| [k x] members]; [congruence |].
      rewrite comma_separated_length in Hlen. rewrite comma_separated_cons.
      destruct Hwf as [Hx Hwf]. pose proof (size_pos x) as Hpos. unfold size in Hpos.
      cbn [encode_member List.length] in Hlen. cbn [encode_member app parse_members].
      rewrite IHv by (try assumption; unfold size; destruct members; lia).
      destruct members as [| y members]; [reflexivity |].
      rewrite IHm; [reflexivity | discriminate | assumption | lia].
Qed.

(** [json.loads(json.dumps(v))] is [v]. *)
Lemma loads_dumps (v : json) : json_wf v -> loads (dumps v) = Some v.
Proof.
  intros Hwf. unfold loads, dumps.
  pose proof (proj1 (parse_encode (S (List.length (encode v)))) v [] Hwf) as H.
  rewrite app_nil_r in H. rewrite H; [reflexivity |]. unfold size. lia.
Qed.

End JsonFacts.

(* ================================================================== *)
(** * Properties of the aggregation *)
(* ================================================================== *)

Module AggregationProperties.

Import GenEval Spec PyFacts FloatFacts NpFacts AsyncioFacts SampleFacts.
Import AggregateFacts DatasetFacts.

Lemma dict_get_map_keys {V} (F : string -> V) (m : string) (l : list string) :
  In m l -> dict_get m (map (fun k => (k, F k)) l) = Some (F m).
Proof.
  induction l as [| k l IH]; simpl; intros H.
  - contradiction.
  - destruct (String.eqb_spec m k) as [-> | Hne]; [reflexivity |].
    destruct H as [H | H]; [congruence | now apply IH].
Qed.

Lemma dict_keys_map_keys {V} (F : string -> V) (l : list string) :
  dict_keys (map (fun k => (k, F k)) l) = l.
Proof. unfold dict_keys. rewrite map_map. simpl. apply map_id. Qed.

Lemma countable_iff (v : pyval) :
  countable v = true <-> isinstance_int_float v = true /\ v <> VFloat NaN.
Proof.
  destruct v as [f | z | | s]; simpl.
  - rewrite negb_true_iff, isnan_false. split.
    + intros H. split; [reflexivity | congruence].
    + intros [_ H] Hf. apply H. now subst.
  - split; [intros _; split; [reflexivity | discriminate] | reflexivity].
  - split; [discriminate | intros [H _]; discriminate].
  - split; [discriminate | intros [H _]; discriminate].
Qed.

(** The scores gathered for a metric are the entries of that metric
    that are an [int] or a [float] and are not not-a-number. *)
Lemma scores_of_In (m : string) (v : pyval) (sample_results : list (dict pyval)) :
  In v (scores_of m sample_results) <->
  exists sample, In sample sample_results /\ In (m, v) sample /\
                 isinstance_int_float v = true /\ v <> VFloat NaN.
Proof.
  unfold scores_of, gathered, sample_scores. rewrite in_flat_map. split.
  - intros [sample [Hs Hv]]. exists sample. split; [assumption |].
    apply in_map_iff in Hv as [[k v'] [Hv' Hin]]. simpl in Hv'. subst v'.
    apply filter_In in Hin as [Hin Hc]. simpl in Hc.
    apply andb_prop in Hc as [Hk Hc]. apply String.eqb_eq in Hk. subst k.
    split; [assumption | now apply countable_iff].
  - intros [sample [Hs [Hin Hc]]]. exists sample. split; [assumption |].
    apply in_map_iff. exists (m, v). split; [reflexivity |].
    apply filter_In. split; [assumption |]. simpl.
    rewrite String.eqb_refl. simpl. now apply countable_iff.
Qed.

Lemma tests_defined_perm (l l' : list (dict pyval)) :
  Permutation l l' -> tests_defined l = tests_defined l'.
Proof.
  unfold tests_defined.
  induction 1 as [| x l l' _ IH | x y l | l l' l'' _ IH1 _ IH2]; simpl.
  - reflexivity.
  - now rewrite IH.
  - rewrite !andb_assoc. f_equal. apply andb_comm.
  - congruence.
Qed.

Lemma test_undefined_In (sample : dict pyval) :
  forallb (fun kv : string * pyval => test_defined (snd kv)) sample = false ->
  exists m z, In (m, VInt z) sample /\ Np.fits_int64_or_uint64 z = false.
Proof.
  induction sample as [| [k v] sample IH]; [discriminate |].
  simpl. intros E. apply andb_false_iff in E as [E | E].
  - destruct v as [f | z | | s]; simpl in E; try discriminate.
    exists k, z. tauto.
  - destruct (IH E) as (m & z & Hin & Hz). exists m, z. tauto.
Qed.

(** The test of line 58 is undefined on some score exactly when a
    score is an integer outside the 64-bit range. *)
Lemma tests_defined_false (sample_results : list (dict pyval)) :
  tests_defined sample_results = false <->
  exists sample m z, In sample sample_results /\ In (m, VInt z) sample /\
                     Np.fits_int64_or_uint64 z = false.
Proof.
  unfold tests_defined. split.
  - induction sample_results as [| sample rest IH]; [discriminate |].
    simpl. intros E. apply andb_false_iff in E as [E | E].
    + destruct (test_undefined_In sample E) as (m & z & Hin & Hz).
      exists sample, m, z. tauto.
    + destruct (IH E) as (sm & m & z & Hs & Hin & Hz).
      exists sm, m, z. tauto.
  - intros (sample & m & z & Hs & Hin & Hz).
    match goal with |- ?b = false => destruct b eqn:E; [| reflexivity] end.
    rewrite forallb_forall in E. specialize (E sample Hs).
    rewrite forallb_forall in E. specialize (E (m, VInt z) Hin).
    simpl in E. congruence.
Qed.

(** The scores gathered for a metric are rearranged with the per-sample
    results. *)
Lemma scores_of_perm (m : string) (l l' : list (dict pyval)) :
  Permutation l l' -> Permutation (scores_of m l) (scores_of m l').
Proof. intros H. unfold scores_of, gathered. now apply Permutation_flat_map. Qed.

Lemma integer_array_pair (x y : pyval) :
  Np.integer_array [x; y] = Np.integer_array [y; x].
Proof.
  unfold Np.integer_array. cbn [forallb]. rewrite !andb_true_r.
  f_equal; apply andb_comm.
Qed.

(** With at most two numbers the order does not matter: binary64
    addition is commutative. *)
Lemma mean_of_numbers_perm_short (l l' : list pyval) :
  Permutation l l' -> List.length l <= 2 ->
  Np.mean_of_numbers l = Np.mean_of_numbers l'.
Proof.
  intros Hp Hl. destruct l as [| x [| y [| z l]]]; [| | | simpl in Hl; lia].
  - apply Permutation_nil in Hp. now subst.
  - apply Permutation_length_1_inv in Hp. now subst.
  - apply Permutation_length_2_inv in Hp as [-> | ->]; [reflexivity |].
    unfold Np.mean_of_numbers. f_equal.
    rewrite !sum_of_numbers_short by (simpl; (discriminate || lia)).
    cbn [Np.floats_of map sum_left_to_right fold_left].
    apply fadd_comm.
Qed.

Section WithMetrics.

Variable compute_rouge_score : string -> string -> result pyval.
Variable compute_answer_correctness :
  string -> string -> string -> ChatOpenAI -> LangchainEmbeddingsWrapper ->
  result pyval.
Variable compute_coverage_score :
  string -> string -> string -> ChatOpenAI -> result pyval.
Variable compute_faithfulness_score :
  string -> string -> list string -> ChatOpenAI -> result pyval.

Local Abbreviation row_outcome :=
  (row_outcome compute_rouge_score compute_answer_correctness
     compute_coverage_score compute_faithfulness_score).
Local Abbreviation collect_dataset :=
  (collect_dataset compute_rouge_score compute_answer_correctness
     compute_coverage_score compute_faithfulness_score).
Local Abbreviation evaluate_dataset :=
  (evaluate_dataset compute_rouge_score compute_answer_correctness
     compute_coverage_score compute_faithfulness_score).

(** What [evaluate_dataset] returns once the per-sample results are
    collected and [np.isnan] is defined on every score. *)
Lemma evaluate_dataset_report (sched : Schedule) (dataset : Dataset)
    (metrics : list string) (llm : ChatOpenAI) (emb : LangchainEmbeddingsWrapper)
    (sample_results : list (dict pyval)) :
  snd (collect_dataset sched dataset metrics llm emb) = Ok sample_results ->
  tests_defined sample_results = true ->
  snd (evaluate_dataset sched dataset metrics llm emb) =
  Ok (map (fun m => (m, Np.mean_of_numbers (scores_of m sample_results)))
          (uniq metrics)).
Proof.
  intros Hc Ht. rewrite evaluate_dataset_result, Hc. cbn [bind].
  rewrite aggregate_spec, Ht; [reflexivity |].
  eapply collect_dataset_keys_within; eassumption.
Qed.

(** Whatever [evaluate_dataset] returns is a dictionary. *)
Lemma evaluate_dataset_wf (sched : Schedule) (dataset : Dataset)
    (metrics : list string) (llm : ChatOpenAI) (emb : LangchainEmbeddingsWrapper)
    (report : dict pyfloat) :
  snd (evaluate_dataset sched dataset metrics llm emb) = Ok report ->
  dict_wf report.
Proof.
  rewrite evaluate_dataset_result.
  destruct (snd (collect_dataset sched dataset metrics llm emb))
    as [sample_results | e] eqn:Hc; cbn [bind]; [| discriminate].
  rewrite aggregate_spec
    by (eapply collect_dataset_keys_within; eassumption).
  destruct (tests_defined sample_results); [| discriminate].
  intros H. injection H as <-.
  unfold dict_wf. rewrite dict_keys_map_keys. apply uniq_NoDup.
Qed.

(** C1, amended: for every requested metric, when the collection of
    numeric scores gathered across the samples is not empty, the
    aggregate reported by [evaluate_dataset] is a binary64 sum of the
    scores (each converted to binary64, every addition rounded)
    divided in binary64 by their number; with fewer than 8 scores the
    sum runs from left to right in the order of collection.  When the
    collection is empty, the aggregate is the not-a-number marker,
    which is not 0.0, and nothing is raised.  The hypotheses say that
    the per-sample results were collected and that the test of line 58
    is defined on every score (floats, and integers of at most 64
    bits). *)
Theorem C1_aggregate_is_binary64_mean_or_undefined
    (sched : Schedule) (dataset : Dataset) (metrics : list string)
    (llm : ChatOpenAI) (emb : LangchainEmbeddingsWrapper)
    (sample_results : list (dict pyval)) :
  snd (collect_dataset sched dataset metrics llm emb) = Ok sample_results ->
  tests_defined sample_results = true ->
  exists report,
    snd (evaluate_dataset sched dataset metrics llm emb) = Ok report /\
    forall m, In m metrics ->
      let scores := map float_of (scores_of m sample_results) in
      let n := List.length scores in
      (scores <> [] ->
       exists s, float_sum scores s /\
                 dict_get m report = Some (float_mean s n)) /\
      (0 < n < 8 ->
       dict_get m report = Some (float_mean (sum_left_to_right scores) n)) /\
      (scores = [] ->
       dict_get m report = Some NaN /\ dict_get m report <> Some 0%float).
Proof.
  intros Hc Ht. eexists. split.
  - exact (evaluate_dataset_report _ _ _ _ _ _ Hc Ht).
  - intros m Hm scores n. apply uniq_In in Hm.
    rewrite (dict_get_map_keys
               (fun m => Np.mean_of_numbers (scores_of m sample_results))
               m (uniq metrics) Hm).
    assert (Hn : n = List.length (scores_of m sample_results))
      by apply length_map.
    split; [| split].
    + intros Hne. exists (Np.sum_of_numbers (scores_of m sample_results)).
      split.
      * apply float_sum_of_numbers. intros E. apply Hne.
        unfold scores. now rewrite E.
      * rewrite Hn. reflexivity.
    + intros Hlen. unfold Np.mean_of_numbers.
      rewrite sum_of_numbers_short.
      * rewrite Hn. reflexivity.
      * intros E. rewrite E in Hn. simpl in Hn. lia.
      * lia.
    + intros E. apply map_eq_nil in E. rewrite E. split; [reflexivity |].
      intros H.
      assert (H' : Np.mean_of_numbers [] = 0%float) by congruence.
      apply (f_equal Prim2SF) in H'. vm_compute in H'. discriminate H'.
Qed.

(** C2, amended: the aggregation keeps exactly the per-sample scores
    that are an [int] or a [float] and are not not-a-number, so a
    finite zero and both infinities are handed to [np.nanmean], while
    not-a-number and objects that are no numbers are dropped; and when
    some score is an integer outside the 64-bit range, the test of
    line 58 raises [TypeError] and so does [evaluate_dataset]. *)
Theorem C2_scores_kept_unless_nan
    (sched : Schedule) (dataset : Dataset) (metrics : list string)
    (llm : ChatOpenAI) (emb : LangchainEmbeddingsWrapper)
    (sample_results : list (dict pyval)) :
  snd (collect_dataset sched dataset metrics llm emb) = Ok sample_results ->
  ((exists sample m z, In sample sample_results /\ In (m, VInt z) sample /\
                       Np.fits_int64_or_uint64 z = false) ->
   collect_scores metrics sample_results = Raise TypeError /\
   snd (evaluate_dataset sched dataset metrics llm emb) = Raise TypeError) /\
  ((forall sample m z, In sample sample_results -> In (m, VInt z) sample ->
                       Np.fits_int64_or_uint64 z = true) ->
   collect_scores metrics sample_results =
     Ok (map (fun m => (m, scores_of m sample_results)) (uniq metrics)) /\
   exists report,
     snd (evaluate_dataset sched dataset metrics llm emb) = Ok report /\
     forall m, In m metrics ->
       exists a, Np.nanmean (scores_of m sample_results) = Ok a /\
                 dict_get m report = Some a) /\
  (forall m v,
      In v (scores_of m sample_results) <->
      exists sample, In sample sample_results /\ In (m, v) sample /\
                     isinstance_int_float v = true /\ v <> VFloat NaN) /\
  (forall m sample f,
      In sample sample_results -> In (m, VFloat f) sample -> f <> NaN ->
      In (VFloat f) (scores_of m sample_results)) /\
  (forall m sample,
      In sample sample_results -> In (m, VFloat 0%float) sample ->
      In (VFloat 0%float) (scores_of m sample_results)) /\
  (forall m sample,
      In sample sample_results -> In (m, VFloat PInf) sample ->
      In (VFloat PInf) (scores_of m sample_results)) /\
  (forall m sample,
      In sample sample_results -> In (m, VFloat NInf) sample ->
      In (VFloat NInf) (scores_of m sample_results)) /\
  (forall m, ~ In (VFloat NaN) (scores_of m sample_results)).
Proof.
  intros Hc.
  assert (Hkeys : keys_within metrics sample_results)
    by (eapply collect_dataset_keys_within; eassumption).
  assert (Hkept : forall m sample f,
             In sample sample_results -> In (m, VFloat f) sample -> f <> NaN ->
             In (VFloat f) (scores_of m sample_results)).
  { intros m sample f Hs Hin Hf. apply scores_of_In. exists sample.
    repeat split; try assumption. congruence. }
  assert (Hneq : forall f : pyfloat, Prim2SF f <> S754_nan -> f <> NaN).
  { intros f H E. apply H. now rewrite E. }
  split; [| split; [| split; [| split; [| split; [| split; [| split]]]]]].
  - intros Hbig. apply tests_defined_false in Hbig.
    rewrite evaluate_dataset_result, Hc. cbn [bind].
    rewrite collect_scores_spec, aggregate_spec, Hbig by assumption.
    split; reflexivity.
  - intros Hfit.
    assert (Ht : tests_defined sample_results = true).
    { destruct (tests_defined sample_results) eqn:E; [reflexivity |].
      apply tests_defined_false in E as (sample & m & z & Hs & Hin & Hz).
      rewrite (Hfit sample m z Hs Hin) in Hz. discriminate. }
    split; [rewrite collect_scores_spec by assumption; now rewrite Ht |].
    eexists. split; [exact (evaluate_dataset_report _ _ _ _ _ _ Hc Ht) |].
    intros m Hm. exists (Np.mean_of_numbers (scores_of m sample_results)).
    split.
    + apply nanmean_countable. now apply gathered_countable.
    + apply (dict_get_map_keys
               (fun m => Np.mean_of_numbers (scores_of m sample_results))).
      now apply uniq_In.
  - intros m v. apply scores_of_In.
  - exact Hkept.
  - intros m sample Hs Hin. apply (Hkept m sample _ Hs Hin).
    apply Hneq. discriminate.
  - intros m sample Hs Hin. apply (Hkept m sample _ Hs Hin).
    apply Hneq. discriminate.
  - intros m sample Hs Hin. apply (Hkept m sample _ Hs Hin).
    apply Hneq. discriminate.
  - intros m H. apply scores_of_In in H as (sample & _ & _ & _ & Hne).
    now apply Hne.
Qed.

(** C10: the mapping returned by [evaluate_dataset] has exactly the
    requested metric names as keys, each once; a requested name outside
    the four supported metrics appears in no per-sample result and gets
    the not-a-number aggregate instead of an error. *)
Theorem C10_requested_names_are_the_keys
    (sched : Schedule) (dataset : Dataset) (metrics : list string)
    (llm : ChatOpenAI) (emb : LangchainEmbeddingsWrapper)
    (sample_results : list (dict pyval)) :
  snd (collect_dataset sched dataset metrics llm emb) = Ok sample_results ->
  tests_defined sample_results = true ->
  exists report,
    snd (evaluate_dataset sched dataset metrics llm emb) = Ok report /\
    dict_keys report = uniq metrics /\
    NoDup (dict_keys report) /\
    (forall m, In m (dict_keys report) <-> In m metrics) /\
    (forall m, In m metrics -> ~ In m supported_metrics ->
               (forall sample, In sample sample_results ->
                               dict_get m sample = None) /\
               dict_get m report = Some NaN).
Proof.
  intros Hc Ht. eexists. split; [exact (evaluate_dataset_report _ _ _ _ _ _ Hc Ht) |].
  rewrite dict_keys_map_keys. split; [reflexivity |]. split; [apply uniq_NoDup |].
  split; [intros m; apply uniq_In |].
  intros m Hm Hns.
  assert (Hnone : forall sample, In sample sample_results ->
                                 dict_get m sample = None).
  { intros sample Hs. apply dict_get_not_In. intros Hin.
    unfold dict_keys in Hin. apply in_map_iff in Hin as [kv [<- Hkv]].
    apply Hns.
    now destruct (collect_dataset_keys _ _ _ _ _ _ _ _ _ _ Hc sample kv Hs Hkv). }
  split; [exact Hnone |].
  rewrite (dict_get_map_keys
             (fun m => Np.mean_of_numbers (scores_of m sample_results))
             m (uniq metrics)) by now apply uniq_In.
  assert (He : scores_of m sample_results = []).
  { destruct (scores_of m sample_results) as [| v l] eqn:E; [reflexivity |].
    assert (Hv : In v (scores_of m sample_results)) by (rewrite E; now left).
    apply scores_of_In in Hv as (sample & Hs & Hin & _).
    exfalso. apply Hns.
    now destruct (collect_dataset_keys _ _ _ _ _ _ _ _ _ _ Hc sample (m, v) Hs Hin). }
  now rewrite He.
Qed.

(** C6, amended: a rearrangement of the per-sample results (those of
    the requested metrics, as [evaluate_sample] builds them) changes
    the aggregation step only by the order in which the scores of a
    metric are added.  The step raises on both lists or on neither;
    when it returns, the two mappings have the same metric names in
    the same order, every aggregate is [np.nanmean] of the same scores
    in a rearranged order, and the aggregates of a metric with at most
    two scores are equal.  When every sample evaluation returns, two
    completion orders collect rearrangements of the same results. *)
Theorem C6_aggregate_adds_the_same_scores :
  (forall metrics sample_results sample_results',
      keys_within metrics sample_results ->
      Permutation sample_results sample_results' ->
      (forall e, aggregate metrics sample_results = Raise e <->
                 aggregate metrics sample_results' = Raise e) /\
      (forall report,
          aggregate metrics sample_results = Ok report ->
          exists report',
            aggregate metrics sample_results' = Ok report' /\
            dict_keys report' = dict_keys report /\
            forall m, In m metrics ->
              Permutation (scores_of m sample_results)
                          (scores_of m sample_results') /\
              (exists a, Np.nanmean (scores_of m sample_results) = Ok a /\
                         dict_get m report = Some a) /\
              (exists a', Np.nanmean (scores_of m sample_results') = Ok a' /\
                          dict_get m report' = Some a') /\
              (List.length (scores_of m sample_results) <= 2 ->
               dict_get m report' = dict_get m report))) /\
  (forall sched sched' dataset metrics llm emb,
      Asyncio.completion_order (completion sched) (List.length dataset) ->
      Asyncio.completion_order (completion sched') (List.length dataset) ->
      (forall p, In p (indexed dataset) ->
                 exists r, row_outcome sched metrics llm emb p = Ok r) ->
      exists sample_results sample_results',
        snd (collect_dataset sched dataset metrics llm emb) = Ok sample_results /\
        snd (collect_dataset sched' dataset metrics llm emb) = Ok sample_results' /\
        Permutation sample_results sample_results').
Proof.
  split.
  - intros metrics srs srs' Hk Hp.
    assert (Hk' : keys_within metrics srs').
    { intros s kv Hs Hkv. apply (Hk s kv); [| assumption].
      eapply Permutation_in; [apply Permutation_sym |]; eassumption. }
    rewrite !aggregate_spec by assumption.
    rewrite <- (tests_defined_perm _ _ Hp).
    destruct (tests_defined srs).
    + split; [intros e; split; discriminate |].
      intros report H. injection H as <-. eexists. split; [reflexivity |].
      rewrite !dict_keys_map_keys. split; [reflexivity |].
      intros m Hm. apply uniq_In in Hm.
      rewrite !(dict_get_map_keys (fun m => Np.mean_of_numbers (scores_of m _))
                  m (uniq metrics) Hm).
      pose proof (scores_of_perm m _ _ Hp) as Hs.
      split; [exact Hs |]. split; [| split].
      * eexists. split; [| reflexivity].
        apply nanmean_countable. now apply gathered_countable.
      * eexists. split; [| reflexivity].
        apply nanmean_countable. now apply gathered_countable.
      * intros Hl. f_equal. symmetry.
        now apply mean_of_numbers_perm_short.
    + split; [tauto |]. discriminate.
  - intros sched sched' dataset metrics llm emb Ho Ho' Hok.
    assert (Hok' : forall p, In p (indexed dataset) ->
                             exists r, row_outcome sched' metrics llm emb p = Ok r).
    { intros p Hp. destruct (Hok p Hp) as [r Hr]. exists r.
      eapply row_outcome_any_order; eassumption. }
    assert (Hsame : map (row_outcome sched' metrics llm emb) (indexed dataset) =
                    map (row_outcome sched metrics llm emb) (indexed dataset)).
    { apply map_ext_in. intros p Hp. destruct (Hok p Hp) as [r Hr].
      rewrite Hr. eapply row_outcome_any_order; eassumption. }
    destruct (collect_dataset_complete _ _ _ _ sched dataset metrics llm emb Ho Hok)
      as (srs & Hc & Hperm).
    destruct (collect_dataset_complete _ _ _ _ sched' dataset metrics llm emb Ho' Hok')
      as (srs' & Hc' & Hperm').
    rewrite Hsame in Hperm'.
    exists srs, srs'. split; [exact Hc |]. split; [exact Hc' |].
    assert (Hp : Permutation (map (@Ok _) srs) (map Ok srs'))
      by (etransitivity; [exact Hperm | now apply Permutation_sym]).
    apply Permutation_map_inv in Hp as (l & Hl & Hp).
    apply map_Ok_inj in Hl. now subst l.
Qed.

End WithMetrics.

End AggregationProperties.

(* ================================================================== *)
(** * Properties of the fan-out *)
(* ================================================================== *)

Module EvaluationProperties.

Import GenEval Spec PyFacts AsyncioFacts SampleFacts AggregateFacts DatasetFacts.

Lemma indexed_In (dataset : Dataset) (s : Sample) :
  In s dataset -> exists i, In (i, s) (indexed dataset).
Proof.
  intros H. rewrite <- (indexed_snd dataset) in H.
  apply in_map_iff in H as [[i s'] [<- Hin]]. now exists i.
Qed.

Lemma indexed_In_snd (dataset : Dataset) (p : nat * Sample) :
  In p (indexed dataset) -> In (snd p) dataset.
Proof.
  intros H. rewrite <- (indexed_snd dataset). now apply in_map.
Qed.

Section WithMetrics.

Variable compute_rouge_score : string -> string -> result pyval.
Variable compute_answer_correctness :
  string -> string -> string -> ChatOpenAI -> LangchainEmbeddingsWrapper ->
  result pyval.
Variable compute_coverage_score :
  string -> string -> string -> ChatOpenAI -> result pyval.
Variable compute_faithfulness_score :
  string -> string -> list string -> ChatOpenAI -> result pyval.

Local Abbreviation await :=
  (await compute_rouge_score compute_answer_correctness
     compute_coverage_score compute_faithfulness_score).
Local Abbreviation evaluate_sample :=
  (evaluate_sample compute_rouge_score compute_answer_correctness
     compute_coverage_score compute_faithfulness_score).
Local Abbreviation evaluate_row :=
  (evaluate_row compute_rouge_score compute_answer_correctness
     compute_coverage_score compute_faithfulness_score).
Local Abbreviation row_outcome :=
  (row_outcome compute_rouge_score compute_answer_correctness
     compute_coverage_score compute_faithfulness_score).
Local Abbreviation sample_tasks :=
  (sample_tasks compute_rouge_score compute_answer_correctness
     compute_coverage_score compute_faithfulness_score).
Local Abbreviation collect_dataset :=
  (collect_dataset compute_rouge_score compute_answer_correctness
     compute_coverage_score compute_faithfulness_score).
Local Abbreviation evaluate_dataset :=
  (evaluate_dataset compute_rouge_score compute_answer_correctness
     compute_coverage_score compute_faithfulness_score).

(** C3: for every sample and every requested metric list,
    [evaluate_sample] calls exactly the metric computers named in the
    list, each once, with the fields of the sample; when rouge is the
    only supported name requested, the one call made is the rouge
    computer, which receives neither the judge model nor the embedding
    model. *)
Theorem C3_exactly_the_requested_computers
    (order : list nat) (question answer : string) (contexts : list string)
    (ground_truth : string) (metrics : list string)
    (llm : ChatOpenAI) (emb : LangchainEmbeddingsWrapper) :
  let s := {| question := question; answer := answer; contexts := contexts;
              ground_truth := ground_truth |} in
  let calls := fst (evaluate_sample order question answer contexts ground_truth
                      metrics llm emb) in
  (forall c, In c calls <->
             In c (all_calls s llm emb) /\ In (metric_of c) metrics) /\
  NoDup (map metric_of calls) /\
  (forall m, In m supported_metrics ->
             (In m metrics <-> exists c, In c calls /\ metric_of c = m)) /\
  ((forall m, In m metrics -> In m supported_metrics -> m = "rouge_score") ->
   forall c, In c calls ->
             c = CallRouge answer ground_truth /\
             uses_llm c = false /\ uses_embeddings c = false).
Proof.
  intros s calls.
  assert (Hcalls : calls = requested_calls metrics s llm emb)
    by apply (evaluate_row_calls _ _ _ _ order s metrics llm emb).
  assert (H1 : forall c, In c calls <->
                         In c (all_calls s llm emb) /\ In (metric_of c) metrics).
  { intros c. rewrite Hcalls. unfold requested_calls.
    rewrite filter_In, str_in_In. reflexivity. }
  split; [exact H1 |]. split; [| split].
  - rewrite Hcalls. apply requested_calls_NoDup.
  - intros m Hm. split.
    + intros Hreq. simpl in Hm.
      destruct Hm as [<- | [<- | [<- | [<- | []]]]].
      * exists (CallRouge answer ground_truth). split; [| reflexivity].
        apply H1. split; [simpl; tauto | assumption].
      * exists (CallCorrectness question answer ground_truth llm emb).
        split; [| reflexivity]. apply H1. split; [simpl; tauto | assumption].
      * exists (CallCoverage question ground_truth answer llm).
        split; [| reflexivity]. apply H1. split; [simpl; tauto | assumption].
      * exists (CallFaithfulness question answer contexts llm).
        split; [| reflexivity]. apply H1. split; [simpl; tauto | assumption].
    + intros [c [Hc <-]]. now apply H1 in Hc.
  - intros Honly c Hc. apply H1 in Hc as [Hall Hreq].
    assert (Hm : metric_of c = "rouge_score").
    { apply Honly; [assumption |].
      simpl in Hall. destruct Hall as [<- | [<- | [<- | [<- | []]]]]; simpl; tauto. }
    simpl in Hall.
    destruct Hall as [<- | [<- | [<- | [<- | []]]]]; simpl in Hm;
      try discriminate Hm.
    repeat split.
Qed.

(** C5: for a group of N samples, when no per-sample evaluation raises,
    [evaluate_dataset] collects exactly N per-sample results, whatever
    the order in which the evaluations start and finish: there is one
    task per sample, the collected results are the results of the N
    tasks in some order, and the metric computers are called sample by
    sample, for the samples of the group in some order, each sample
    once. *)
Theorem C5_every_sample_collected_once
    (sched : Schedule) (dataset : Dataset) (metrics : list string)
    (llm : ChatOpenAI) (emb : LangchainEmbeddingsWrapper) :
  Asyncio.completion_order (completion sched) (List.length dataset) ->
  (forall p, In p (indexed dataset) ->
             exists r, row_outcome sched metrics llm emb p = Ok r) ->
  exists sample_results,
    snd (collect_dataset sched dataset metrics llm emb) = Ok sample_results /\
    List.length sample_results = List.length dataset /\
    Permutation (map Ok sample_results)
                (map (row_outcome sched metrics llm emb) (indexed dataset)) /\
    List.length (sample_tasks sched dataset metrics llm emb) = List.length dataset /\
    exists rows,
      Permutation rows dataset /\
      fst (collect_dataset sched dataset metrics llm emb) =
        flat_map (fun s => requested_calls metrics s llm emb) rows.
Proof.
  intros Horder Hok.
  destruct (collect_dataset_complete _ _ _ _ sched dataset metrics llm emb
              Horder Hok) as (rs & Hc & Hperm).
  exists rs. split; [exact Hc |]. split; [| split; [exact Hperm | split]].
  - apply Permutation_length in Hperm.
    rewrite !length_map, indexed_length in Hperm. exact Hperm.
  - rewrite sample_tasks_rows, length_map. apply indexed_length.
  - exists (Asyncio.started (start_place sched) dataset).
    split; [apply started_perm | apply collect_dataset_calls].
Qed.

(** C7: when the computation of a requested metric raises for a sample
    of the group, [evaluate_sample] raises for that sample and
    [evaluate_dataset] raises for the group: no result mapping is
    returned at either layer, and what [evaluate_dataset] raises is an
    exception raised by a metric computer on a sample of the group. *)
Theorem C7_metric_failure_propagates
    (sched : Schedule) (dataset : Dataset) (metrics : list string)
    (llm : ChatOpenAI) (emb : LangchainEmbeddingsWrapper)
    (s : Sample) (c : call) (e : exn) :
  Asyncio.completion_order (completion sched) (List.length dataset) ->
  In s dataset ->
  In c (requested_calls metrics s llm emb) ->
  await c = Raise e ->
  (forall order,
      exists e1,
        snd (evaluate_sample order (question s) (answer s) (contexts s)
               (ground_truth s) metrics llm emb) = Raise e1) /\
  exists e',
    snd (evaluate_dataset sched dataset metrics llm emb) = Raise e' /\
    exists s' c', In s' dataset /\ In c' (requested_calls metrics s' llm emb) /\
                  await c' = Raise e'.
Proof.
  intros Horder Hs Hc He.
  assert (Hrow : forall order,
             exists e1, snd (evaluate_row order s metrics llm emb) = Raise e1)
    by (intros order; eapply evaluate_row_raises; eassumption).
  split; [exact Hrow |].
  set (outs := map (row_outcome sched metrics llm emb) (indexed dataset)).
  assert (Hlen : List.length outs = List.length dataset)
    by (unfold outs; now rewrite length_map, indexed_length).
  assert (Hperm : Permutation (Asyncio.as_completed (completion sched) outs) outs)
    by (apply as_completed_perm; now rewrite Hlen).
  destruct (indexed_In dataset s Hs) as [i Hi].
  destruct (Hrow (gather_order sched i)) as [e1 He1].
  assert (Hin : In (Raise e1) (Asyncio.as_completed (completion sched) outs)).
  { eapply Permutation_in; [apply Permutation_sym, Hperm |].
    unfold outs. apply in_map_iff. exists (i, s). split; [exact He1 | exact Hi]. }
  destruct (all_results_In_raise _ _ Hin) as [e' He'].
  exists e'. split.
  - rewrite evaluate_dataset_result, collect_dataset_result. fold outs.
    now rewrite He'.
  - apply all_results_raise, as_completed_In in He'. unfold outs in He'.
    apply in_map_iff in He' as [p [Hp Hpin]].
    apply evaluate_row_raise_origin in Hp as [c' [Hc' Hawait]].
    exists (snd p), c'. split; [now apply indexed_In_snd | now split].
Qed.

End WithMetrics.

End EvaluationProperties.

(* ================================================================== *)
(** * Properties of the driver *)
(* ================================================================== *)

Module DriverProperties.

Import GenEval Driver Spec PyFacts SampleFacts DatasetFacts JsonFacts.

Lemma ebind_fst {E A B} (m : Eff E A) (k : A -> Eff E B) :
  fst (ebind m k) =
  fst m ++ match snd m with
           | Ok a => fst (k a)
           | Raise _ => []
           end.
Proof.
  destruct m as [log [a | e]]; simpl.
  - now destruct (k a).
  - now rewrite app_nil_r.
Qed.

Lemma efor_each_In {E A S} (body : S -> A -> Eff E S) (xs : list A) (e : E) :
  forall acc,
    In e (fst (efor_each body xs acc)) ->
    exists x acc', In x xs /\ In e (fst (body acc' x)).
Proof.
  induction xs as [| x xs IH]; intros acc H.
  - contradiction.
  - cbn [efor_each] in H. rewrite ebind_fst in H.
    apply in_app_or in H as [H | H].
    + exists x, acc. split; [now left | assumption].
    + destruct (snd (body acc x)) as [acc1 | e1]; [| contradiction].
      destruct (IH acc1 H) as (x' & acc' & Hx & He).
      exists x', acc'. split; [now right | assumption].
Qed.

(** ** The report as JSON *)

Lemma metrics_of_json_encode (d : dict pyfloat) :
  metrics_of_json (map (fun ms => (fst ms, Json.JFloat (snd ms))) d) = Some d.
Proof.
  induction d as [| [m f] d IH]; simpl; [reflexivity | now rewrite IH].
Qed.

Lemma report_of_json_encode (r : Report) :
  report_of_json (report_json r) = Some r.
Proof.
  unfold report_of_json, report_json.
  induction r as [| [g d] r IH]; simpl; [reflexivity |].
  now rewrite metrics_of_json_encode, IH.
Qed.

Lemma metrics_json_wf (d : dict pyfloat) :
  members_wf (map (fun ms => (fst ms, Json.JFloat (snd ms))) d).
Proof.
  induction d as [| [m f] d IH]; simpl; [exact I | split; [exact I | exact IH]].
Qed.

Lemma report_json_wf (r : Report) :
  dict_wf r -> (forall g d, In (g, d) r -> dict_wf d) ->
  Json.json_wf (report_json r).
Proof.
  unfold dict_wf. intros Hr Hd. simpl. split.
  - unfold dict_keys in *. rewrite map_map. simpl. exact Hr.
  - clear Hr. induction r as [| [g d] r IH]; simpl; [exact I |].
    split.
    + split.
      * specialize (Hd g d (or_introl eq_refl)).
        unfold dict_keys in *. rewrite map_map. simpl. exact Hd.
      * apply metrics_json_wf.
    + apply IH. intros g' d' H. apply (Hd g' d'). now right.
Qed.

Lemma report_round_trip (r : Report) :
  report_wf r -> load_report (dump_report r) = Some r.
Proof.
  intros [Hr Hd]. unfold load_report, dump_report.
  rewrite loads_dumps by now apply report_json_wf.
  apply report_of_json_encode.
Qed.

Lemma efor_each_invariant {E A S} (P : S -> Prop) (body : S -> A -> Eff E S)
    (xs : list A) :
  (forall acc x acc', P acc -> snd (body acc x) = Ok acc' -> P acc') ->
  forall acc r, P acc -> snd (efor_each body xs acc) = Ok r -> P r.
Proof.
  intros Hstep. induction xs as [| x xs IH]; intros acc r Hacc H.
  - cbn in H. now injection H as <-.
  - cbn [efor_each] in H.
    destruct (body acc x) as [log [acc1 | e]] eqn:Hb; cbn in H.
    + destruct (efor_each body xs acc1) as [log' r'] eqn:Hrest. cbn in H.
      apply (IH acc1 r); [| now rewrite Hrest].
      apply (Hstep acc x acc1 Hacc). now rewrite Hb.
    + discriminate.
Qed.

Section World.

Variable compute_rouge_score : string -> string -> result pyval.
Variable compute_answer_correctness :
  string -> string -> string -> ChatOpenAI -> LangchainEmbeddingsWrapper ->
  result pyval.
Variable compute_coverage_score :
  string -> string -> string -> ChatOpenAI -> result pyval.
Variable compute_faithfulness_score :
  string -> string -> list string -> ChatOpenAI -> result pyval.
Variable getenv : string -> option string.
Variable load_embeddings : string -> result HuggingFaceBgeEmbeddings.
Variable read_json : string -> result (dict (list Item)).
Variable open_write : string -> result unit.
Variable schedule : string -> Schedule.

Local Abbreviation evaluate_dataset :=
  (evaluate_dataset compute_rouge_score compute_answer_correctness
     compute_coverage_score compute_faithfulness_score).
Local Abbreviation evaluate_type :=
  (evaluate_type compute_rouge_score compute_answer_correctness
     compute_coverage_score compute_faithfulness_score schedule).
Local Abbreviation main_after_check :=
  (main_after_check compute_rouge_score compute_answer_correctness
     compute_coverage_score compute_faithfulness_score getenv load_embeddings
     read_json open_write schedule).
Local Abbreviation main :=
  (main compute_rouge_score compute_answer_correctness
     compute_coverage_score compute_faithfulness_score getenv load_embeddings
     read_json open_write schedule).

(** The metric calls of one question type. *)
Lemma evaluate_type_calls (file_data : dict (list Item)) (llm : ChatOpenAI)
    (emb : LangchainEmbeddingsWrapper) (all_results : Report)
    (question_type : string) (dataset : Dataset) (metrics : list string) :
  prepare_data file_data question_type = Ok dataset ->
  getitem metric_config question_type = Ok metrics ->
  fst (evaluate_type file_data llm emb all_results question_type) =
  map EMetricCall
      (flat_map (fun s => requested_calls metrics s llm emb)
                (Asyncio.started (start_place (schedule question_type)) dataset)).
Proof.
  intros Hd Hm. unfold Driver.evaluate_type. rewrite Hd, Hm.
  repeat (rewrite ebind_fst; cbn [lift fst snd app run_eval]).
  rewrite evaluate_dataset_calls.
  destruct (snd (evaluate_dataset _ _ _ _ _)); cbn; now rewrite app_nil_r.
Qed.

(** The same calls, up to the order in which the samples start. *)
Lemma evaluate_type_calls_iff (file_data : dict (list Item)) (llm : ChatOpenAI)
    (emb : LangchainEmbeddingsWrapper) (all_results : Report)
    (question_type : string) (dataset : Dataset) (metrics : list string)
    (ev : event) :
  prepare_data file_data question_type = Ok dataset ->
  getitem metric_config question_type = Ok metrics ->
  In ev (fst (evaluate_type file_data llm emb all_results question_type)) <->
  In ev (map EMetricCall
           (flat_map (fun s => requested_calls metrics s llm emb) dataset)).
Proof.
  intros Hd Hm. rewrite (evaluate_type_calls _ _ _ _ _ _ _ Hd Hm).
  assert (Hp : Permutation
                 (map EMetricCall
                    (flat_map (fun s => requested_calls metrics s llm emb)
                       (Asyncio.started (start_place (schedule question_type))
                          dataset)))
                 (map EMetricCall
                    (flat_map (fun s => requested_calls metrics s llm emb)
                       dataset))).
  { apply Permutation_map, Permutation_flat_map, AsyncioFacts.started_perm. }
  split; apply Permutation_in; [exact Hp | now apply Permutation_sym].
Qed.

Lemma evaluate_type_calls_In (file_data : dict (list Item)) (llm : ChatOpenAI)
    (emb : LangchainEmbeddingsWrapper) (all_results : Report)
    (question_type : string) (ev : event) :
  In ev (fst (evaluate_type file_data llm emb all_results question_type)) ->
  exists dataset metrics,
    prepare_data file_data question_type = Ok dataset /\
    getitem metric_config question_type = Ok metrics /\
    In ev (map EMetricCall
             (flat_map (fun s => requested_calls metrics s llm emb) dataset)).
Proof.
  intros H.
  destruct (prepare_data file_data question_type) as [dataset | e] eqn:Hd.
  - destruct (getitem metric_config question_type) as [metrics | e] eqn:Hm.
    + exists dataset, metrics. repeat split; try reflexivity.
      now apply (evaluate_type_calls_iff file_data llm emb all_results
                   question_type dataset metrics ev Hd Hm).
    + unfold Driver.evaluate_type in H. rewrite Hd, Hm in H. contradiction.
  - unfold Driver.evaluate_type in H. rewrite Hd in H. contradiction.
Qed.

(** The reports that the loop of [main] builds are dictionaries of
    dictionaries. *)
Lemma evaluate_type_wf (file_data : dict (list Item)) (llm : ChatOpenAI)
    (emb : LangchainEmbeddingsWrapper) (all_results : Report)
    (question_type : string) (r : Report) :
  report_wf all_results ->
  snd (evaluate_type file_data llm emb all_results question_type) = Ok r ->
  report_wf r.
Proof.
  intros [Hwf Hin] H. unfold Driver.evaluate_type in H.
  destruct (prepare_data file_data question_type) as [dataset | e];
    [| discriminate].
  destruct (getitem metric_config question_type) as [metrics | e];
    [| discriminate].
  cbn [lift ebind fst snd] in H.
  destruct (evaluate_dataset (schedule question_type) dataset metrics llm emb)
    as [log [results | e]] eqn:He; cbn in H; [| discriminate].
  injection H as <-. split.
  - now apply dict_set_wf.
  - intros g d Hgd. apply dict_set_In in Hgd as [Hgd | Hgd].
    + injection Hgd as -> ->.
      apply (AggregationProperties.evaluate_dataset_wf
               compute_rouge_score compute_answer_correctness
               compute_coverage_score compute_faithfulness_score
               (schedule question_type) dataset metrics llm emb).
      now rewrite He.
    + now apply (Hin g d).
Qed.

(** C8: a report written in the output format and read back is the same
    mapping of group to metric to score; a not-a-number aggregate is
    written as its own token, different from the token of every number,
    and is read back as not-a-number under the same group and metric;
    and what [main] writes to the output file is the text of such a
    report, which reads back as that report. *)
Theorem C8_report_round_trip :
  (forall r : Report,
      dict_wf r ->
      (forall g d, In (g, d) r -> dict_wf d) ->
      load_report (dump_report r) = Some r /\
      (forall g d m,
          dict_get g r = Some d -> dict_get m d = Some NaN ->
          exists r' d',
            load_report (dump_report r) = Some r' /\
            dict_get g r' = Some d' /\ dict_get m d' = Some NaN)) /\
  Json.encode_float NaN = Json.TNaN /\
  (forall f, f <> NaN -> Json.encode_float NaN <> Json.encode_float f) /\
  (forall args path content,
      In (EWrite path content) (fst (main args)) ->
      exists r, content = dump_report r /\ load_report content = Some r).
Proof.
  split; [| split; [reflexivity | split]].
  - intros r Hr Hd.
    assert (H : load_report (dump_report r) = Some r)
      by (apply report_round_trip; now split).
    split; [exact H |].
    intros g d m Hg Hm. exists r, d. now repeat split.
  - intros f Hf. apply FloatFacts.isnan_false in Hf.
    change (Json.encode_float NaN) with Json.TNaN.
    unfold Json.encode_float. rewrite Hf.
    destruct (PrimFloat.eqb f PInf); [discriminate |].
    destruct (PrimFloat.eqb f NInf); discriminate.
  - intros args path content H. unfold Driver.main in H.
    destruct (negb (truthy_opt (getenv "OPENAI_API_KEY"))); [contradiction |].
    unfold Driver.main_after_check in H.
    rewrite !ebind_fst in H. cbn [emit lift fst snd app] in H.
    destruct H as [H | [H | H]]; try discriminate H.
    destruct (load_embeddings (arg_bge_model args)) as [bge | e];
      [| contradiction].
    rewrite !ebind_fst in H. cbn [emit lift fst snd app] in H.
    destruct H as [H | H]; [discriminate H |].
    destruct (read_json (arg_data_file args)) as [file_data | e];
      [| contradiction].
    rewrite ebind_fst in H.
    apply in_app_or in H as [H | H].
    + apply efor_each_In in H as (question_type & acc & _ & H).
      apply evaluate_type_calls_In in H as (dataset & metrics & _ & _ & H).
      apply in_map_iff in H as [c [Hc _]]. discriminate Hc.
    + destruct (snd (efor_each _ _ _)) as [all_results |] eqn:Hall;
        [| contradiction].
      destruct (truthy (arg_output_file args)); [| contradiction].
      rewrite !ebind_fst in H. cbn [emit lift fst snd app] in H.
      destruct H as [H | H]; [discriminate H |].
      destruct (open_write (arg_output_file args)); [| contradiction].
      destruct H as [H | []]. injection H as <- <-.
      exists all_results. split; [reflexivity |].
      apply report_round_trip.
      eapply (efor_each_invariant report_wf); [| | exact Hall].
      * intros acc x acc'. apply evaluate_type_wf.
      * split; [constructor | intros g d []].
Qed.

(** C9, amended: when the environment holds no [OPENAI_API_KEY], or
    holds the empty string under that name, [main] raises [ValueError]
    with its message before any other effect: no client is built, no
    file is opened, no metric is computed and nothing is written.  When
    the environment holds a non-empty value, [main] is what follows
    the check. *)
Theorem C9_credential_checked_first (args : Namespace) :
  (getenv "OPENAI_API_KEY" = None ->
   main args = ([], Raise (ValueError
                             "OPENAI_API_KEY environment variable is not set"))) /\
  (getenv "OPENAI_API_KEY" = Some "" ->
   main args = ([], Raise (ValueError
                             "OPENAI_API_KEY environment variable is not set"))) /\
  (forall key, getenv "OPENAI_API_KEY" = Some key -> key <> "" ->
               main args = main_after_check args).
Proof.
  unfold Driver.main. split; [| split].
  - intros ->. reflexivity.
  - intros ->. reflexivity.
  - intros key -> Hne. destruct key; [congruence | reflexivity].
Qed.

(** C4: the configuration maps type1 and type2 to rouge and correctness,
    type3 to correctness and coverage, and type4 to correctness,
    coverage and faithfulness; the metric calls made for a question type
    are, for each of its samples, the computers of that type's metrics
    and no other; and every metric call of [main] is the call of a
    metric of some question type on a sample of that question type. *)
Theorem C4_group_metric_configuration :
  getitem metric_config "type1" = Ok ["rouge_score"; "answer_correctness"] /\
  getitem metric_config "type2" = Ok ["rouge_score"; "answer_correctness"] /\
  getitem metric_config "type3" = Ok ["answer_correctness"; "coverage_score"] /\
  getitem metric_config "type4" =
    Ok ["answer_correctness"; "coverage_score"; "faithfulness"] /\
  dict_keys metric_config = question_types /\
  (forall file_data llm emb all_results question_type dataset metrics,
      prepare_data file_data question_type = Ok dataset ->
      getitem metric_config question_type = Ok metrics ->
      forall c,
        In (EMetricCall c)
           (fst (evaluate_type file_data llm emb all_results question_type)) <->
        exists s, In s dataset /\ In c (all_calls s llm emb) /\
                  In (metric_of c) metrics) /\
  (forall args c,
      In (EMetricCall c) (fst (main args)) ->
      exists file_data question_type dataset metrics s llm emb,
        read_json (arg_data_file args) = Ok file_data /\
        In question_type question_types /\
        prepare_data file_data question_type = Ok dataset /\
        getitem metric_config question_type = Ok metrics /\
        In s dataset /\ In c (all_calls s llm emb) /\ In (metric_of c) metrics).
Proof.
  repeat (split; [reflexivity |]). split.
  - intros file_data llm emb all_results question_type dataset metrics Hd Hm c.
    rewrite (evaluate_type_calls_iff _ _ _ _ _ _ _ _ Hd Hm).
    rewrite in_map_iff. split.
    + intros [c' [Hc Hin]]. injection Hc as ->.
      apply in_flat_map in Hin as [s [Hs Hin]]. exists s. split; [assumption |].
      unfold requested_calls in Hin. apply filter_In in Hin as [Hall Hreq].
      split; [assumption | now apply str_in_In].
    + intros [s [Hs [Hall Hreq]]]. exists c. split; [reflexivity |].
      apply in_flat_map. exists s. split; [assumption |].
      unfold requested_calls. apply filter_In. split; [assumption |].
      now apply str_in_In.
  - intros args c H. unfold Driver.main in H.
    destruct (negb (truthy_opt (getenv "OPENAI_API_KEY"))); [contradiction |].
    unfold Driver.main_after_check in H.
    rewrite !ebind_fst in H. cbn [emit lift fst snd app] in H.
    destruct H as [H | [H | H]]; try discriminate H.
    destruct (load_embeddings (arg_bge_model args)) as [bge | e];
      [| contradiction].
    rewrite !ebind_fst in H. cbn [emit lift fst snd app] in H.
    destruct H as [H | H]; [discriminate H |].
    destruct (read_json (arg_data_file args)) as [file_data | e] eqn:Hread;
      [| contradiction].
    rewrite ebind_fst in H.
    apply in_app_or in H as [H | H].
    + apply efor_each_In in H as (question_type & acc & Hqt & H).
      apply evaluate_type_calls_In in H as (dataset & metrics & Hd & Hm & H).
      apply in_map_iff in H as [c' [Hc Hin]]. injection Hc as ->.
      apply in_flat_map in Hin as [s [Hs Hin]].
      unfold requested_calls in Hin. apply filter_In in Hin as [Hall Hreq].
      apply str_in_In in Hreq.
      do 7 eexists. repeat split; eassumption.
    + destruct (snd (efor_each _ _ _)); [| contradiction].
      destruct (truthy (arg_output_file args)); [| contradiction].
      rewrite !ebind_fst in H. cbn [emit lift fst snd app] in H.
      destruct H as [H | H]; [discriminate H |].
      destruct (open_write (arg_output_file args)); [| contradiction].
      destruct H as [H | []]. discriminate H.
Qed.

End World.

(** C9 as first stated fails: with [OPENAI_API_KEY] present in the
    environment and empty, [main] raises instead of going on. *)
Lemma C9_empty_key_is_rejected :
  Demo.env_empty_key "OPENAI_API_KEY" = Some "" /\
  Demo.main Demo.env_empty_key =
    ([], Raise (ValueError "OPENAI_API_KEY environment variable is not set")) /\
  Demo.main Demo.env_empty_key <> Demo.main_after_check Demo.env_empty_key.
Proof.
  split; [reflexivity |]. split; [reflexivity |].
  intros H. vm_compute in H. discriminate H.
Qed.

End DriverProperties.

(* ================================================================== *)
(** * The properties on the concrete world *)
(* ================================================================== *)

Module Examples.

Import GenEval Driver Spec.
Import AggregationProperties EvaluationProperties DriverProperties.

Lemma completion_two : Asyncio.completion_order (completion Demo.sched) 2.
Proof. apply perm_swap. Defined.

Lemma completion_rows : Asyncio.completion_order (completion Demo.sched_rows) 3.
Proof. apply Permutation_refl. Defined.

Lemma completion_swapped :
  Asyncio.completion_order (completion Demo.sched_swapped) 3.
Proof. apply perm_skip, perm_swap. Defined.

(** C1 as first stated fails: the arithmetic mean of two scores of
    1e308 is 1e308, a binary64 number, but their binary64 sum
    overflows and the reported aggregate is infinity. *)
Lemma C1_mean_of_huge_scores_is_infinite :
  snd (Demo.collect_raw Demo.sched Demo.group_huge ["rouge_score"]
         Demo.llm Demo.emb) = Ok Demo.huge_results /\
  scores_of "rouge_score" Demo.huge_results =
    [VFloat 1e308%float; VFloat 1e308%float] /\
  real_value 1e308%float = Some (inject_Z (5010420900022432 * 2 ^ 971)) /\
  (arithmetic_mean [inject_Z (5010420900022432 * 2 ^ 971);
                    inject_Z (5010420900022432 * 2 ^ 971)]
   == inject_Z (5010420900022432 * 2 ^ 971))%Q /\
  snd (Demo.evaluate_raw Demo.sched Demo.group_huge ["rouge_score"]
         Demo.llm Demo.emb) = Ok [("rouge_score", PInf)] /\
  real_value PInf = None.
Proof.
  split; [reflexivity |]. split; [reflexivity |].
  split; [vm_compute; reflexivity |].
  split; [unfold Qeq; vm_compute; reflexivity |].
  split; reflexivity.
Qed.

(** C2 as first stated fails: an infinite rouge score is not dropped,
    it makes the mean of the group infinite, while the mean of the
    finite scores alone is 1. *)
Lemma C2_infinite_score_enters_the_mean :
  snd (Demo.collect_dataset Demo.sched Demo.group_inf ["rouge_score"]
         Demo.llm Demo.emb) = Ok Demo.group_inf_results /\
  snd (Demo.evaluate_dataset Demo.sched Demo.group_inf ["rouge_score"]
         Demo.llm Demo.emb) = Ok [("rouge_score", PInf)] /\
  finite_only_aggregate ["rouge_score"] Demo.group_inf_results =
    [("rouge_score", 1%float)] /\
  snd (Demo.evaluate_dataset Demo.sched Demo.group_inf ["rouge_score"]
         Demo.llm Demo.emb) <>
    Ok (finite_only_aggregate ["rouge_score"] Demo.group_inf_results).
Proof.
  repeat split; try reflexivity.
  intros H.
  assert (H' : PInf = 1%float).
  { vm_compute in H. congruence. }
  apply (f_equal Prim2SF) in H'. vm_compute in H'. discriminate H'.
Qed.

(** C6 as first stated fails: the scores 2^53, 1 and -2^53 add up to 0
    in this order and to 1 when the last two are exchanged, so the two
    orders of the same per-sample results give the aggregates 0 and
    1/3, at the aggregation step and for [evaluate_dataset] under two
    completion orders. *)
Lemma C6_aggregate_depends_on_the_order :
  keys_within ["rouge_score"] Demo.wide_results /\
  Permutation Demo.wide_results Demo.wide_results_swapped /\
  aggregate ["rouge_score"] Demo.wide_results =
    Ok [("rouge_score", 0%float)] /\
  aggregate ["rouge_score"] Demo.wide_results_swapped =
    Ok [("rouge_score", (1 / 3)%float)] /\
  aggregate ["rouge_score"] Demo.wide_results <>
  aggregate ["rouge_score"] Demo.wide_results_swapped /\
  Asyncio.completion_order (completion Demo.sched_rows)
    (List.length Demo.group_wide) /\
  Asyncio.completion_order (completion Demo.sched_swapped)
    (List.length Demo.group_wide) /\
  snd (Demo.evaluate_raw Demo.sched_rows Demo.group_wide ["rouge_score"]
         Demo.llm Demo.emb) = Ok [("rouge_score", 0%float)] /\
  snd (Demo.evaluate_raw Demo.sched_swapped Demo.group_wide ["rouge_score"]
         Demo.llm Demo.emb) = Ok [("rouge_score", (1 / 3)%float)].
Proof.
  split.
  { intros sample kv Hs Hkv. simpl in Hs.
    destruct Hs as [<- | [<- | [<- | []]]]; simpl in Hkv;
      destruct Hkv as [<- | []]; simpl; tauto. }
  split; [apply perm_skip, perm_swap |].
  split; [reflexivity |]. split; [reflexivity |].
  split.
  { intros H.
    assert (H' : 0%float = (1 / 3)%float).
    { vm_compute in H. congruence. }
    apply (f_equal Prim2SF) in H'. vm_compute in H'. discriminate H'. }
  split; [exact completion_rows |]. split; [exact completion_swapped |].
  split; reflexivity.
Qed.

Lemma C1_on_demo_group :
  snd (Demo.collect_dataset Demo.sched Demo.group Demo.metrics Demo.llm Demo.emb)
    = Ok Demo.group_results /\
  tests_defined Demo.group_results = true /\
  exists report,
    snd (Demo.evaluate_dataset Demo.sched Demo.group Demo.metrics
           Demo.llm Demo.emb) = Ok report /\
    forall m, In m Demo.metrics ->
      let scores := map float_of (scores_of m Demo.group_results) in
      let n := List.length scores in
      (scores <> [] ->
       exists s, float_sum scores s /\
                 dict_get m report = Some (float_mean s n)) /\
      (0 < n < 8 ->
       dict_get m report = Some (float_mean (sum_left_to_right scores) n)) /\
      (scores = [] ->
       dict_get m report = Some NaN /\ dict_get m report <> Some 0%float).
Proof.
  split; [reflexivity |]. split; [reflexivity |].
  apply (C1_aggregate_is_binary64_mean_or_undefined
           Demo.rouge Demo.correctness Demo.coverage Demo.faithfulness
           Demo.sched Demo.group Demo.metrics Demo.llm Demo.emb
           Demo.group_results); reflexivity.
Defined.

Lemma C2_on_demo_group :
  snd (Demo.collect_dataset Demo.sched Demo.group_inf ["rouge_score"]
         Demo.llm Demo.emb) = Ok Demo.group_inf_results /\
  collect_scores ["rouge_score"] Demo.group_inf_results =
    Ok (map (fun m => (m, scores_of m Demo.group_inf_results))
            (uniq ["rouge_score"])) /\
  In (VFloat PInf) (scores_of "rouge_score" Demo.group_inf_results).
Proof.
  split; [reflexivity |].
  pose proof (C2_scores_kept_unless_nan
                Demo.rouge Demo.correctness Demo.coverage Demo.faithfulness
                Demo.sched Demo.group_inf ["rouge_score"] Demo.llm Demo.emb
                Demo.group_inf_results eq_refl)
    as (_ & H2 & _ & _ & _ & H6 & _).
  split.
  - apply H2. intros sample m z Hs Hin. simpl in Hs.
    destruct Hs as [<- | [<- | []]]; simpl in Hin;
      destruct Hin as [Hin | []]; discriminate Hin.
  - apply (H6 "rouge_score" [("rouge_score", VFloat PInf)]); simpl; tauto.
Defined.

Lemma C10_on_demo_group :
  snd (Demo.collect_dataset Demo.sched Demo.group Demo.metrics Demo.llm Demo.emb)
    = Ok Demo.group_results /\
  tests_defined Demo.group_results = true /\
  exists report,
    snd (Demo.evaluate_dataset Demo.sched Demo.group Demo.metrics
           Demo.llm Demo.emb) = Ok report /\
    dict_keys report = uniq Demo.metrics /\
    dict_get "bleu" report = Some NaN.
Proof.
  split; [reflexivity |]. split; [reflexivity |].
  destruct (C10_requested_names_are_the_keys
              Demo.rouge Demo.correctness Demo.coverage Demo.faithfulness
              Demo.sched Demo.group Demo.metrics Demo.llm Demo.emb
              Demo.group_results eq_refl eq_refl)
    as (report & Hr & Hk & _ & _ & Hbleu).
  exists report. split; [exact Hr |]. split; [exact Hk |].
  apply Hbleu.
  - simpl. tauto.
  - simpl. intuition discriminate.
Defined.

Lemma C6_on_demo_group :
  keys_within Demo.metrics Demo.group_results /\
  Permutation Demo.group_results (rev Demo.group_results) /\
  exists report',
    aggregate Demo.metrics (rev Demo.group_results) = Ok report' /\
    dict_keys report' = ["rouge_score"; "answer_correctness"; "bleu"] /\
    dict_get "rouge_score" report' = Some 0.5%float.
Proof.
  assert (Hk : keys_within Demo.metrics Demo.group_results).
  { intros sample kv Hs Hkv. simpl in Hs.
    destruct Hs as [<- | [<- | []]]; simpl in Hkv;
      destruct Hkv as [<- | [<- | []]]; simpl; tauto. }
  assert (Hp : Permutation Demo.group_results (rev Demo.group_results))
    by apply perm_swap.
  split; [exact Hk |]. split; [exact Hp |].
  destruct (proj1 (C6_aggregate_adds_the_same_scores
                     Demo.rouge Demo.correctness Demo.coverage Demo.faithfulness)
                  Demo.metrics Demo.group_results (rev Demo.group_results) Hk Hp)
    as (_ & Hreport).
  destruct (Hreport [("rouge_score", 0.5%float);
                     ("answer_correctness", 0.75%float); ("bleu", NaN)] eq_refl)
    as (report' & Hagg & Hkeys & Hm).
  exists report'. split; [exact Hagg |]. split; [exact Hkeys |].
  destruct (Hm "rouge_score") as (_ & _ & _ & Hsame); [simpl; tauto |].
  rewrite Hsame; [reflexivity | simpl; lia].
Defined.

Lemma C5_on_demo_group :
  Asyncio.completion_order (completion Demo.sched) (List.length Demo.group) /\
  exists sample_results,
    snd (Demo.collect_dataset Demo.sched Demo.group Demo.metrics
           Demo.llm Demo.emb) = Ok sample_results /\
    List.length sample_results = 2.
Proof.
  split; [exact completion_two |].
  destruct (C5_every_sample_collected_once
              Demo.rouge Demo.correctness Demo.coverage Demo.faithfulness
              Demo.sched Demo.group Demo.metrics Demo.llm Demo.emb
              completion_two)
    as (srs & Hc & Hlen & _).
  - intros p Hp. simpl in Hp.
    destruct Hp as [<- | [<- | []]]; eexists; reflexivity.
  - exists srs. split; [exact Hc | exact Hlen].
Defined.

Lemma C7_on_failing_group :
  Asyncio.completion_order (completion Demo.sched)
    (List.length Demo.group_failing) /\
  Demo.faithfulness "q4" "Paris" [] Demo.llm =
    Raise (ExternalError "judge model call failed") /\
  exists e',
    snd (Demo.evaluate_dataset Demo.sched Demo.group_failing
           ["answer_correctness"; "faithfulness"] Demo.llm Demo.emb) = Raise e'.
Proof.
  split; [exact completion_two |]. split; [reflexivity |].
  destruct (C7_metric_failure_propagates
              Demo.rouge Demo.correctness Demo.coverage Demo.faithfulness
              Demo.sched Demo.group_failing
              ["answer_correctness"; "faithfulness"] Demo.llm Demo.emb
              Demo.s_nocontext
              (CallFaithfulness "q4" "Paris" [] Demo.llm)
              (ExternalError "judge model call failed")
              completion_two)
    as (_ & e' & He' & _).
  - simpl. tauto.
  - simpl. tauto.
  - reflexivity.
  - exists e'. exact He'.
Defined.

Lemma C8_on_demo_report :
  dict_wf Demo.report /\
  load_report (dump_report Demo.report) = Some Demo.report.
Proof.
  assert (Hr : dict_wf Demo.report).
  { unfold dict_wf. simpl. repeat constructor; simpl; intuition discriminate. }
  split; [exact Hr |].
  destruct (C8_report_round_trip
              Demo.rouge Demo.correctness Demo.coverage Demo.faithfulness
              Demo.env_with_key Demo.load_embeddings Demo.read_json
              Demo.open_write Demo.schedule) as (Hround & _).
  apply (Hround Demo.report Hr).
  intros g d Hin. simpl in Hin.
  destruct Hin as [H | [H | []]]; inversion H; subst;
    unfold dict_wf; simpl; repeat constructor; simpl; intuition discriminate.
Defined.

(** ** Runs of the model *)

Example nanmean_of_nothing : Np.nanmean [] = Ok NaN.
Proof. reflexivity. Qed.

Example nanmean_skips_nan :
  Np.nanmean [VFloat 0.5%float; VFloat NaN; VInt 1] = Ok 0.75%float.
Proof. reflexivity. Qed.

Example nanmean_rounds :
  Np.nanmean [VFloat 0.1%float; VFloat 0.2%float; VFloat 0.3%float] =
  Ok 0.20000000000000004%float.
Proof. reflexivity. Qed.

Example nanmean_overflows :
  Np.nanmean [VFloat 1e308%float; VFloat 1e308%float] = Ok PInf.
Proof. reflexivity. Qed.

Example nanmean_rounds_a_big_int :
  Np.nanmean [VInt (2 ^ 64 - 1)] = Ok 18446744073709551616%float.
Proof. reflexivity. Qed.

Example nanmean_of_opposite_infinities :
  Np.nanmean [VFloat PInf; VFloat NInf] = Ok NaN.
Proof. reflexivity. Qed.

Example isnan_of_a_big_int : Np.isnan (VInt (2 ^ 64)) = Raise TypeError.
Proof. reflexivity. Qed.

Example aggregate_keeps_zero :
  aggregate ["rouge_score"]
    [[("rouge_score", VFloat 0%float)]; [("rouge_score", VFloat 1%float)]] =
  Ok [("rouge_score", 0.5%float)].
Proof. reflexivity. Qed.

Example evaluate_sample_rouge_only :
  Demo.evaluate_sample [0] "q1" "Paris" ["ctx"] "Paris" ["rouge_score"]
    Demo.llm Demo.emb =
  ([CallRouge "Paris" "Paris"], Ok [("rouge_score", VFloat 1%float)]).
Proof. reflexivity. Qed.

Example evaluate_dataset_demo_group :
  snd (Demo.evaluate_dataset Demo.sched Demo.group Demo.metrics
         Demo.llm Demo.emb) =
  Ok [("rouge_score", 0.5%float); ("answer_correctness", 0.75%float);
      ("bleu", NaN)].
Proof. reflexivity. Qed.

Example main_without_key :
  Demo.main Demo.env_without_key =
  ([], Raise (ValueError "OPENAI_API_KEY environment variable is not set")).
Proof. reflexivity. Qed.

Example main_with_key_completes :
  snd (Demo.main Demo.env_with_key) = Ok tt.
Proof. reflexivity. Qed.

Lemma C3_on_demo_sample :
  fst (Demo.evaluate_sample [0] "q1" "Paris" ["ctx"] "Paris" ["rouge_score"]
         Demo.llm Demo.emb) = [CallRouge "Paris" "Paris"] /\
  forall c,
    In c (fst (Demo.evaluate_sample [0] "q1" "Paris" ["ctx"] "Paris"
                 ["rouge_score"] Demo.llm Demo.emb)) ->
    c = CallRouge "Paris" "Paris" /\
    uses_llm c = false /\ uses_embeddings c = false.
Proof.
  split; [reflexivity |].
  destruct (C3_exactly_the_requested_computers
              Demo.rouge Demo.correctness Demo.coverage Demo.faithfulness
              [0] "q1" "Paris" ["ctx"] "Paris" ["rouge_score"] Demo.llm Demo.emb)
    as (_ & _ & _ & Honly).
  apply Honly. intros m [<- | []] _. reflexivity.
Defined.

Lemma C9_on_demo_environments :
  Demo.main Demo.env_without_key =
    ([], Raise (ValueError "OPENAI_API_KEY environment variable is not set")) /\
  Demo.main Demo.env_with_key = Demo.main_after_check Demo.env_with_key.
Proof.
  split.
  - destruct (C9_credential_checked_first
                Demo.rouge Demo.correctness Demo.coverage Demo.faithfulness
                Demo.env_without_key Demo.load_embeddings Demo.read_json
                Demo.open_write Demo.schedule Demo.args) as (Hnone & _ & _).
    apply Hnone. reflexivity.
  - destruct (C9_credential_checked_first
                Demo.rouge Demo.correctness Demo.coverage Demo.faithfulness
                Demo.env_with_key Demo.load_embeddings Demo.read_json
                Demo.open_write Demo.schedule Demo.args) as (_ & _ & Hkey).
    apply (Hkey "sk-demo"); [reflexivity | discriminate].
Defined.

Lemma C4_on_demo_file :
  In (EMetricCall (CallRouge "Paris" "Paris")) (fst (Demo.main Demo.env_with_key)) /\
  exists question_type metrics,
    In question_type question_types /\
    getitem metric_config question_type = Ok metrics /\
    In "rouge_score" metrics.
Proof.
  assert (H : In (EMetricCall (CallRouge "Paris" "Paris"))
                 (fst (Demo.main Demo.env_with_key))).
  { vm_compute. tauto. }
  split; [exact H |].
  destruct (C4_group_metric_configuration
              Demo.rouge Demo.correctness Demo.coverage Demo.faithfulness
              Demo.env_with_key Demo.load_embeddings Demo.read_json
              Demo.open_write Demo.schedule)
    as (_ & _ & _ & _ & _ & _ & Hmain).
  destruct (Hmain Demo.args (CallRouge "Paris" "Paris") H)
    as (fd & qt & ds & ms & s & llm & emb & _ & Hqt & _ & Hm & _ & _ & Hin).
  exists qt, ms. split; [exact Hqt |]. split; [exact Hm | exact Hin].
Defined.

End Examples.

(* ================================================================== *)
(** * Further properties of the evaluators *)
(* ================================================================== *)

Module EvaluatorExtras.

Import GenEval Spec PyFacts AsyncioFacts SampleFacts AggregateFacts DatasetFacts.
Import AggregationProperties.

Lemma as_completed_nil {A} (order : list nat) :
  Asyncio.as_completed order (@nil A) = [].
Proof.
  unfold Asyncio.as_completed. induction order as [| i order IH]; simpl.
  - reflexivity.
  - rewrite IH. now destruct i.
Qed.

Lemma uniq_fold_fresh (l : list string) :
  forall acc,
    NoDup (acc ++ l) ->
    fold_left (fun acc m => if str_in m acc then acc else acc ++ [m]) l acc =
    acc ++ l.
Proof.
  induction l as [| m l IH]; intros acc H; simpl.
  - now rewrite app_nil_r.
  - assert (Hm : str_in m acc = false).
    { apply str_in_not_In. intros Hin. apply NoDup_remove_2 in H.
      apply H, in_or_app. now left. }
    rewrite Hm, IH.
    + now rewrite <- app_assoc.
    + now rewrite <- app_assoc.
Qed.

Lemma uniq_NoDup_id (l : list string) : NoDup l -> uniq l = l.
Proof. intros H. apply (uniq_fold_fresh l []). exact H. Qed.

Lemma uniq_idempotent (metrics : list string) : uniq (uniq metrics) = uniq metrics.
Proof. apply uniq_NoDup_id, uniq_NoDup. Qed.

Lemma str_in_uniq (k : string) (metrics : list string) :
  str_in k (uniq metrics) = str_in k metrics.
Proof.
  destruct (str_in k metrics) eqn:E.
  - apply str_in_In. apply uniq_In. now apply str_in_In.
  - apply str_in_not_In. rewrite uniq_In. now apply str_in_not_In.
Qed.

Lemma requested_calls_length (metrics : list string) (s : Sample)
    (llm : ChatOpenAI) (emb : LangchainEmbeddingsWrapper) :
  List.length (requested_calls metrics s llm emb) =
  List.length (filter (fun m => str_in m metrics) supported_metrics).
Proof.
  unfold requested_calls, all_calls, supported_metrics. cbn [filter metric_of].
  destruct (str_in "rouge_score" metrics),
           (str_in "answer_correctness" metrics),
           (str_in "coverage_score" metrics),
           (str_in "faithfulness" metrics); reflexivity.
Qed.

(** The awaited results sit under the names of their computers. *)
Lemma combine_get (await : call -> result pyval) (cs : list call) :
  forall vs : list pyval,
    NoDup (map metric_of cs) ->
    map await cs = map Ok vs ->
    forall m v,
      dict_get m (combine (map metric_of cs) vs) = Some v <->
      exists c, In c cs /\ metric_of c = m /\ await c = Ok v.
Proof.
  induction cs as [| c cs IH]; intros [| v0 vs] Hnd Hmap m v;
    simpl in Hmap; try discriminate.
  - simpl. split; [discriminate | intros [c [[] _]]].
  - injection Hmap as Hc Hrest. inversion Hnd as [| ? ? Hnotin Hnd']; subst.
    cbn [map combine dict_get].
    destruct (String.eqb_spec m (metric_of c)) as [-> | Hne].
    + split.
      * intros H. injection H as <-. exists c. repeat split; [now left | assumption].
      * intros [c' [[<- | Hin] [Hm Hv]]].
        -- congruence.
        -- exfalso. apply Hnotin. rewrite <- Hm. now apply in_map.
    + rewrite (IH vs Hnd' Hrest m v). split.
      * intros [c' [Hin H]]. exists c'. split; [now right | exact H].
      * intros [c' [[<- | Hin] [Hm Hv]]]; [congruence |].
        exists c'. now repeat split.
Qed.

Section WithMetrics.

Variable compute_rouge_score : string -> string -> result pyval.
Variable compute_answer_correctness :
  string -> string -> string -> ChatOpenAI -> LangchainEmbeddingsWrapper ->
  result pyval.
Variable compute_coverage_score :
  string -> string -> string -> ChatOpenAI -> result pyval.
Variable compute_faithfulness_score :
  string -> string -> list string -> ChatOpenAI -> result pyval.

Local Abbreviation await :=
  (await compute_rouge_score compute_answer_correctness
     compute_coverage_score compute_faithfulness_score).
Local Abbreviation evaluate_sample :=
  (evaluate_sample compute_rouge_score compute_answer_correctness
     compute_coverage_score compute_faithfulness_score).
Local Abbreviation evaluate_row :=
  (evaluate_row compute_rouge_score compute_answer_correctness
     compute_coverage_score compute_faithfulness_score).
Local Abbreviation row_outcome :=
  (row_outcome compute_rouge_score compute_answer_correctness
     compute_coverage_score compute_faithfulness_score).
Local Abbreviation sample_tasks :=
  (sample_tasks compute_rouge_score compute_answer_correctness
     compute_coverage_score compute_faithfulness_score).
Local Abbreviation collect_dataset :=
  (collect_dataset compute_rouge_score compute_answer_correctness
     compute_coverage_score compute_faithfulness_score).
Local Abbreviation evaluate_dataset :=
  (evaluate_dataset compute_rouge_score compute_answer_correctness
     compute_coverage_score compute_faithfulness_score).

(** X1: on a dataset without rows, [evaluate_dataset] calls no metric
    computer and returns not-a-number for every requested metric,
    whatever the schedule. *)
Theorem X1_empty_dataset_all_undefined
    (sched : Schedule) (metrics : list string)
    (llm : ChatOpenAI) (emb : LangchainEmbeddingsWrapper) :
  evaluate_dataset sched [] metrics llm emb =
  ([], Ok (map (fun m => (m, NaN)) (uniq metrics))).
Proof.
  rewrite (surjective_pairing (evaluate_dataset sched [] metrics llm emb)).
  rewrite evaluate_dataset_calls, evaluate_dataset_result, collect_dataset_result.
  cbn [indexed List.length seq combine map flat_map].
  rewrite as_completed_nil. cbn [Asyncio.all_results bind].
  rewrite aggregate_spec by (intros s kv []). reflexivity.
Qed.

(** X2: when none of the requested names is a supported metric,
    [evaluate_sample] calls no computer and returns the empty mapping. *)
Theorem X2_no_supported_metric_empty_result
    (order : list nat) (question answer : string) (contexts : list string)
    (ground_truth : string) (metrics : list string)
    (llm : ChatOpenAI) (emb : LangchainEmbeddingsWrapper) :
  (forall m, In m metrics -> ~ In m supported_metrics) ->
  evaluate_sample order question answer contexts ground_truth metrics llm emb =
  ([], Ok []).
Proof.
  intros H.
  assert (Hf : forall m, In m supported_metrics -> str_in m metrics = false).
  { intros m Hm. apply str_in_not_In. intros Hin. now apply (H m). }
  unfold GenEval.evaluate_sample.
  rewrite (Hf "rouge_score"), (Hf "answer_correctness"),
    (Hf "coverage_score"), (Hf "faithfulness") by (simpl; tauto).
  cbn [ebind ret lift fst snd app dict_values dict_keys map].
  change (@nil (result pyval)) with (map (@Ok pyval) []).
  rewrite gather_all_ok. reflexivity.
Qed.

(** X3: in the mapping that [evaluate_sample] returns, a metric name
    holds a value exactly when the computer of that name was requested
    and returned that value: every result is filed under the name of
    the computer that produced it. *)
Theorem X3_results_filed_under_their_metric
    (order : list nat) (question answer : string) (contexts : list string)
    (ground_truth : string) (metrics : list string)
    (llm : ChatOpenAI) (emb : LangchainEmbeddingsWrapper) (r : dict pyval) :
  snd (evaluate_sample order question answer contexts ground_truth
         metrics llm emb) = Ok r ->
  forall m v,
    dict_get m r = Some v <->
    exists c,
      In c (all_calls {| question := question; answer := answer;
                         contexts := contexts; ground_truth := ground_truth |}
              llm emb) /\
      In (metric_of c) metrics /\ metric_of c = m /\ await c = Ok v.
Proof.
  intros Hr m v.
  set (s := {| question := question; answer := answer; contexts := contexts;
               ground_truth := ground_truth |}).
  change (snd (evaluate_row order s metrics llm emb) = Ok r) in Hr.
  rewrite evaluate_row_result in Hr.
  destruct (Asyncio.gather _ _) as [vs | e] eqn:G; cbn [bind] in Hr;
    [| discriminate].
  injection Hr as <-. apply gather_ok in G.
  rewrite (combine_get await _ vs (requested_calls_NoDup metrics s llm emb) G).
  split.
  - intros [c [Hin [Hm Hv]]]. exists c. unfold requested_calls in Hin.
    apply filter_In in Hin as [Hall Hreq]. apply str_in_In in Hreq.
    now repeat split.
  - intros [c [Hall [Hreq [Hm Hv]]]]. exists c. split; [| now split].
    unfold requested_calls. apply filter_In. split; [exact Hall |].
    now apply str_in_In.
Qed.

(** X4: [evaluate_dataset] makes one call per row and per supported
    metric requested, whether or not any computation fails: a failure
    does not keep the other computations from being started. *)
Theorem X4_number_of_metric_calls
    (sched : Schedule) (dataset : Dataset) (metrics : list string)
    (llm : ChatOpenAI) (emb : LangchainEmbeddingsWrapper) :
  List.length (fst (evaluate_dataset sched dataset metrics llm emb)) =
  List.length dataset *
  List.length (filter (fun m => str_in m metrics) supported_metrics).
Proof.
  rewrite evaluate_dataset_calls.
  rewrite (Permutation_length
             (Permutation_flat_map
                (fun s => requested_calls metrics s llm emb)
                (AsyncioFacts.started_perm (start_place sched) dataset))).
  induction dataset as [| s dataset IH]; simpl.
  - reflexivity.
  - rewrite length_app, IH, requested_calls_length. reflexivity.
Qed.

(** X5: naming a metric more than once changes nothing: the calls and
    the returned mapping are those of the list without repetitions. *)
Theorem X5_repeated_metric_names_are_harmless
    (sched : Schedule) (dataset : Dataset) (metrics : list string)
    (llm : ChatOpenAI) (emb : LangchainEmbeddingsWrapper) :
  evaluate_dataset sched dataset metrics llm emb =
  evaluate_dataset sched dataset (uniq metrics) llm emb.
Proof.
  assert (Hs : forall order q a c g,
             evaluate_sample order q a c g (uniq metrics) llm emb =
             evaluate_sample order q a c g metrics llm emb).
  { intros order q a c g. unfold GenEval.evaluate_sample.
    now rewrite !str_in_uniq. }
  assert (Ha : forall srs, aggregate (uniq metrics) srs = aggregate metrics srs).
  { intros srs. unfold aggregate, collect_scores.
    now rewrite !init_results_uniq, uniq_idempotent. }
  assert (Ht : sample_tasks sched dataset (uniq metrics) llm emb =
               sample_tasks sched dataset metrics llm emb).
  { rewrite !sample_tasks_rows. apply map_ext. intros p.
    unfold GenEval.evaluate_row. apply Hs. }
  unfold GenEval.evaluate_dataset, GenEval.collect_dataset. cbv zeta. rewrite Ht.
  match goal with
  | |- ebind ?X _ = _ => destruct X as [log [srs | e]]
  end; cbn [ebind lift]; [| reflexivity].
  now rewrite Ha.
Qed.

(** X6: [evaluate_dataset] raises nothing of its own but the
    [TypeError] of [np.isnan] on an integer score outside the 64-bit
    range: every other exception that leaves it was raised by a metric
    computer on a row of the dataset.  In particular the lookups
    [results[metric]] (line 59) and [task_results[i]] (line 97) never
    fail. *)
Theorem X6_exceptions_come_from_the_computers
    (sched : Schedule) (dataset : Dataset) (metrics : list string)
    (llm : ChatOpenAI) (emb : LangchainEmbeddingsWrapper) (e : exn) :
  snd (evaluate_dataset sched dataset metrics llm emb) = Raise e ->
  (exists sample_results,
      snd (collect_dataset sched dataset metrics llm emb) = Ok sample_results /\
      tests_defined sample_results = false /\ e = TypeError) \/
  (exists s c, In s dataset /\ In c (requested_calls metrics s llm emb) /\
               await c = Raise e).
Proof.
  rewrite evaluate_dataset_result.
  destruct (snd (collect_dataset sched dataset metrics llm emb))
    as [srs | e'] eqn:Hc; cbn [bind].
  - rewrite aggregate_spec
      by (eapply collect_dataset_keys_within; eassumption).
    destruct (tests_defined srs) eqn:Ht; [discriminate |].
    intros H. injection H as <-. left. exists srs. now repeat split.
  - intros H. injection H as ->. right.
    rewrite collect_dataset_result in Hc.
    apply all_results_raise, as_completed_In in Hc.
    apply in_map_iff in Hc as [p [Hp Hpin]].
    apply evaluate_row_raise_origin in Hp as [c [Hin Hawait]].
    exists (snd p), c. split; [| now split].
    rewrite <- (indexed_snd dataset). now apply in_map.
Qed.

End WithMetrics.

End EvaluatorExtras.

(* ================================================================== *)
(** * Progress reporting (lines 49 to 53 with their [print]) *)
(* ================================================================== *)

Module Progress.

Import GenEval.

(** What line 53 reports: the number of samples completed so far and the
    total.  The text, with the percentage it derives from the two
    numbers, is left out. *)
Definition note : Type := (nat * nat)%type.

(** The loop of lines 50 to 53, from index [i] on: each awaited result
    is appended and reported; an exception ends the loop before the
    report of its sample. *)
Fixpoint await_with_progress (total_samples i : nat)
    (futures : list (result (dict pyval))) (sample_results : list (dict pyval))
  : list note * result (list (dict pyval)) :=
  match futures with
  | [] => ([], Ok sample_results)
  | Ok r :: futures' =>
      let '(notes, out) :=
        await_with_progress total_samples (S i) futures' (sample_results ++ [r]) in
      ((S i, total_samples) :: notes, out)
  | Raise e :: _ => ([], Raise e)
  end.

(** The number of futures awaited before the first exception. *)
Fixpoint leading_ok {A} (futures : list (result A)) : nat :=
  match futures with
  | Ok _ :: futures' => S (leading_ok futures')
  | _ => 0
  end.

Section Metrics.

Variable compute_rouge_score : string -> string -> result pyval.
Variable compute_answer_correctness :
  string -> string -> string -> ChatOpenAI -> LangchainEmbeddingsWrapper ->
  result pyval.
Variable compute_coverage_score :
  string -> string -> string -> ChatOpenAI -> result pyval.
Variable compute_faithfulness_score :
  string -> string -> list string -> ChatOpenAI -> result pyval.

(** The progress reports of one call of [evaluate_dataset], with the
    collected results. *)
Definition dataset_progress (sched : Schedule) (dataset : Dataset)
    (metrics : list string) (llm : ChatOpenAI)
    (embeddings : LangchainEmbeddingsWrapper)
  : list note * result (list (dict pyval)) :=
  let tasks := sample_tasks compute_rouge_score compute_answer_correctness
                 compute_coverage_score compute_faithfulness_score
                 sched dataset metrics llm embeddings in
  let total_samples := List.length (column question dataset) in
  await_with_progress total_samples 0
    (Asyncio.as_completed (completion sched) (map snd tasks)) [].

End Metrics.

End Progress.

Module ProgressProperties.

Import GenEval Spec Progress PyFacts AsyncioFacts SampleFacts DatasetFacts.

Lemma await_with_progress_result (total : nat)
    (futures : list (result (dict pyval))) :
  forall i acc,
    snd (await_with_progress total i futures acc) =
    for_each (fun sample_results future =>
                r <- future ;; Ok (sample_results ++ [r])) futures acc.
Proof.
  induction futures as [| [r | e] futures IH]; intros i acc; simpl.
  - reflexivity.
  - rewrite <- (IH (S i) (acc ++ [r])).
    now destruct (await_with_progress total (S i) futures (acc ++ [r])).
  - reflexivity.
Qed.

Lemma await_with_progress_notes (total : nat)
    (futures : list (result (dict pyval))) :
  forall i acc,
    fst (await_with_progress total i futures acc) =
    map (fun k => (k, total)) (seq (S i) (leading_ok futures)).
Proof.
  induction futures as [| [r | e] futures IH]; intros i acc; simpl.
  - reflexivity.
  - rewrite <- (IH (S i) (acc ++ [r])).
    now destruct (await_with_progress total (S i) futures (acc ++ [r])).
  - reflexivity.
Qed.

Lemma leading_ok_all {A} (rs : list A) :
  leading_ok (map (@Ok A) rs) = List.length rs.
Proof. induction rs as [| r rs IH]; simpl; [reflexivity | now rewrite IH]. Qed.

Lemma leading_ok_stop {A} (done : list A) (e : exn) (rest : list (result A)) :
  leading_ok (map (@Ok A) done ++ Raise e :: rest) = List.length done.
Proof. induction done as [| r done IH]; simpl; [reflexivity | now rewrite IH]. Qed.

Lemma all_results_stop {A} (done : list A) (e : exn) (rest : list (result A)) :
  Asyncio.all_results (map (@Ok A) done ++ Raise e :: rest) = Raise e.
Proof. induction done as [| r done IH]; simpl; [reflexivity | now rewrite IH]. Qed.

Lemma leading_ok_le {A} (futures : list (result A)) :
  leading_ok futures <= List.length futures.
Proof.
  induction futures as [| [r | e] futures IH]; simpl; lia.
Qed.

Section WithMetrics.

Variable compute_rouge_score : string -> string -> result pyval.
Variable compute_answer_correctness :
  string -> string -> string -> ChatOpenAI -> LangchainEmbeddingsWrapper ->
  result pyval.
Variable compute_coverage_score :
  string -> string -> string -> ChatOpenAI -> result pyval.
Variable compute_faithfulness_score :
  string -> string -> list string -> ChatOpenAI -> result pyval.

Local Abbreviation row_outcome :=
  (row_outcome compute_rouge_score compute_answer_correctness
     compute_coverage_score compute_faithfulness_score).
Local Abbreviation collect_dataset :=
  (collect_dataset compute_rouge_score compute_answer_correctness
     compute_coverage_score compute_faithfulness_score).
Local Abbreviation dataset_progress :=
  (dataset_progress compute_rouge_score compute_answer_correctness
     compute_coverage_score compute_faithfulness_score).

Lemma dataset_progress_futures (sched : Schedule) (dataset : Dataset)
    (metrics : list string) (llm : ChatOpenAI) (emb : LangchainEmbeddingsWrapper) :
  dataset_progress sched dataset metrics llm emb =
  await_with_progress (List.length dataset) 0
    (Asyncio.as_completed (completion sched)
       (map (row_outcome sched metrics llm emb) (indexed dataset))) [].
Proof.
  unfold Progress.dataset_progress, column. cbv zeta.
  now rewrite sample_tasks_rows, map_map, length_map.
Qed.

(** X8: the loop with its progress reports collects what the loop
    without them collects.  The k-th report says k of N.  When the
    first k tasks to finish return and the next one raises, there are
    exactly k reports, none for the failing sample, and the exception
    is that of the failing sample; so for any order in which the N
    tasks finish there are at most N reports.  When every sample
    evaluation returns there are exactly N reports, the last of which
    (for N > 0) says N of N. *)
Theorem X8_progress_reports
    (sched : Schedule) (dataset : Dataset) (metrics : list string)
    (llm : ChatOpenAI) (emb : LangchainEmbeddingsWrapper) :
  let N := List.length dataset in
  let notes := fst (dataset_progress sched dataset metrics llm emb) in
  let finished :=
    Asyncio.as_completed (completion sched)
      (map (row_outcome sched metrics llm emb) (indexed dataset)) in
  snd (dataset_progress sched dataset metrics llm emb) =
    snd (collect_dataset sched dataset metrics llm emb) /\
  (forall done e rest,
      finished = map Ok done ++ Raise e :: rest ->
      notes = map (fun i => (i, N)) (seq 1 (List.length done)) /\
      snd (dataset_progress sched dataset metrics llm emb) = Raise e) /\
  (forall done,
      finished = map Ok done ->
      notes = map (fun i => (i, N)) (seq 1 (List.length done)) /\
      snd (dataset_progress sched dataset metrics llm emb) = Ok done) /\
  (Asyncio.completion_order (completion sched) N ->
   List.length notes <= N /\
   ((forall p, In p (indexed dataset) ->
               exists r, row_outcome sched metrics llm emb p = Ok r) ->
    notes = map (fun i => (i, N)) (seq 1 N) /\
    (0 < N -> last notes (0, 0) = (N, N)))).
Proof.
  cbv zeta. rewrite dataset_progress_futures.
  set (outs := map (row_outcome sched metrics llm emb) (indexed dataset)).
  assert (Hlen : List.length outs = List.length dataset)
    by (unfold outs; now rewrite length_map, indexed_length).
  remember (List.length dataset) as N eqn:HN.
  rewrite await_with_progress_result, await_with_progress_notes.
  fold (collect_results (Asyncio.as_completed (completion sched) outs)).
  rewrite collect_results_all.
  split; [| split; [| split]].
  - rewrite collect_dataset_result. now fold outs.
  - intros done e rest ->. split.
    + now rewrite leading_ok_stop.
    + apply all_results_stop.
  - intros done ->. split.
    + now rewrite leading_ok_all.
    + apply all_results_map_ok.
  - intros Horder.
    assert (Hperm : Permutation (Asyncio.as_completed (completion sched) outs) outs)
      by (apply as_completed_perm; now rewrite Hlen).
    split.
    + rewrite length_map, length_seq.
      pose proof (leading_ok_le (Asyncio.as_completed (completion sched) outs)).
      apply Permutation_length in Hperm. lia.
    + intros Hok.
      rewrite HN in Horder.
      destruct (collect_dataset_complete _ _ _ _ sched dataset metrics llm emb
                  Horder Hok) as (rs & Hc & Hp).
      rewrite collect_dataset_result in Hc. fold outs in Hc, Hp.
      apply all_results_ok in Hc. rewrite Hc, leading_ok_all.
      assert (Hrs : List.length rs = N).
      { apply Permutation_length in Hp. rewrite length_map in Hp. lia. }
      rewrite Hrs. split; [reflexivity |].
      intros Hpos. destruct N as [| n]; [lia |].
      rewrite seq_S, map_app. cbn [map]. now rewrite last_last.
Qed.

End WithMetrics.

End ProgressProperties.

(* ================================================================== *)
(** * Further properties of the driver *)
(* ================================================================== *)

Module DriverExtras.

Import GenEval Driver Spec PyFacts SampleFacts AggregateFacts DatasetFacts.
Import DriverProperties.

(** The input object of a row: [gold_answer] is the ground truth and
    [generated_answer] the answer. *)
Definition item_of_sample (s : Sample) : Item :=
  {| item_question := Some (question s);
     item_gold_answer := Some (ground_truth s);
     item_generated_answer := Some (answer s);
     item_context := Some (contexts s) |}.

(** The judge model and the embedding model that a call is given. *)
Definition call_llm (c : call) : option ChatOpenAI :=
  match c with
  | CallRouge _ _ => None
  | CallCorrectness _ _ _ llm _ => Some llm
  | CallCoverage _ _ _ llm => Some llm
  | CallFaithfulness _ _ _ llm => Some llm
  end.

Definition call_embeddings (c : call) : option LangchainEmbeddingsWrapper :=
  match c with
  | CallCorrectness _ _ _ _ emb => Some emb
  | _ => None
  end.

Lemma ebind_snd {E A B} (m : Eff E A) (k : A -> Eff E B) :
  snd (ebind m k) =
  match snd m with
  | Ok a => snd (k a)
  | Raise e => Raise e
  end.
Proof.
  destruct m as [log [a | e]]; simpl; [now destruct (k a) | reflexivity].
Qed.

Lemma fields_raise {A} (get : Item -> option A) (field : string)
    (items : list Item) (e : exn) :
  fields get field items = Raise e -> e = KeyError field.
Proof.
  induction items as [| item items IH]; simpl; intros H.
  - discriminate.
  - destruct (get item); [| now injection H as <-].
    destruct (fields get field items); simpl in H; [discriminate |].
    injection H as <-. now apply IH.
Qed.

Lemma fields_ok {A} (get : Item -> option A) (field : string)
    (items : list Item) (l : list A) :
  fields get field items = Ok l <-> map get items = map Some l.
Proof.
  revert l. induction items as [| item items IH]; intros l; simpl.
  - split; intros H.
    + now injection H as <-.
    + destruct l; [reflexivity | discriminate].
  - destruct (get item) as [a |].
    + destruct (fields get field items) as [rest | e]; simpl.
      * split; intros H.
        -- injection H as <-. simpl. f_equal. now apply IH.
        -- destruct l as [| a' l]; [discriminate |]. injection H as -> H.
           apply IH in H. now injection H as ->.
      * split; [discriminate |]. intros H.
        destruct l as [| a' l]; [discriminate |]. injection H as _ H.
        apply IH in H. discriminate.
    + split; [discriminate |]. intros H. destruct l; discriminate.
Qed.

Lemma from_dict_columns (dataset : Dataset) :
  from_dict (map question dataset) (map answer dataset)
            (map contexts dataset) (map ground_truth dataset) = Ok dataset.
Proof.
  induction dataset as [| s dataset IH]; simpl; [reflexivity |].
  rewrite IH. simpl. now destruct s.
Qed.

Lemma from_dict_rows (items : list Item) :
  forall qs gs ans cs,
    map item_question items = map Some qs ->
    map item_gold_answer items = map Some gs ->
    map item_generated_answer items = map Some ans ->
    map item_context items = map Some cs ->
    exists dataset,
      from_dict qs ans cs gs = Ok dataset /\ items = map item_of_sample dataset.
Proof.
  induction items as [| [q g a c] items IH];
    intros [| q' qs] [| g' gs] [| a' ans] [| c' cs] Hq Hg Ha Hc;
    simpl in *; try discriminate.
  - now exists [].
  - injection Hq as -> Hq. injection Hg as -> Hg.
    injection Ha as -> Ha. injection Hc as -> Hc.
    destruct (IH qs gs ans cs Hq Hg Ha Hc) as (dataset & Hd & ->).
    rewrite Hd. simpl. eexists. split; [reflexivity |]. reflexivity.
Qed.

Lemma item_of_sample_inj (d d' : Dataset) :
  map item_of_sample d = map item_of_sample d' -> d = d'.
Proof.
  revert d'. induction d as [| s d IH]; intros [| s' d'] H; simpl in H;
    try discriminate; [reflexivity |].
  injection H as Hq Hg Ha Hc H. f_equal; [| now apply IH].
  destruct s, s'. simpl in *. congruence.
Qed.

Lemma fields_of_rows {A} (get : Item -> option A) (field : string)
    (f : Sample -> A) (dataset : Dataset) :
  (forall s, get (item_of_sample s) = Some (f s)) ->
  fields get field (map item_of_sample dataset) = Ok (map f dataset).
Proof.
  intros H. apply fields_ok. rewrite !map_map. apply map_ext. exact H.
Qed.

Lemma prepare_data_ok (file_data : dict (list Item)) (question_type : string)
    (dataset : Dataset) :
  prepare_data file_data question_type = Ok dataset ->
  dict_get question_type file_data = Some (map item_of_sample dataset).
Proof.
  unfold prepare_data, getitem.
  destruct (dict_get question_type file_data) as [items |]; [| discriminate].
  cbn [bind].
  destruct (fields item_question "question" items) as [qs | e] eqn:Hq;
    cbn [bind]; [| discriminate].
  destruct (fields item_gold_answer "gold_answer" items) as [gs | e] eqn:Hg;
    cbn [bind]; [| discriminate].
  destruct (fields item_generated_answer "generated_answer" items)
    as [ans | e] eqn:Ha; cbn [bind]; [| discriminate].
  destruct (fields item_context "context" items) as [cs | e] eqn:Hc;
    cbn [bind]; [| discriminate].
  apply fields_ok in Hq, Hg, Ha, Hc.
  destruct (from_dict_rows items qs gs ans cs Hq Hg Ha Hc) as (d & Hd & ->).
  rewrite Hd. intros H. now injection H as <-.
Qed.

Lemma prepare_data_rows (file_data : dict (list Item)) (question_type : string)
    (dataset : Dataset) :
  dict_get question_type file_data = Some (map item_of_sample dataset) ->
  prepare_data file_data question_type = Ok dataset.
Proof.
  intros H. unfold prepare_data, getitem. rewrite H. cbn [bind].
  rewrite (fields_of_rows item_question "question" question) by reflexivity.
  rewrite (fields_of_rows item_gold_answer "gold_answer" ground_truth)
    by reflexivity.
  rewrite (fields_of_rows item_generated_answer "generated_answer" answer)
    by reflexivity.
  rewrite (fields_of_rows item_context "context" contexts) by reflexivity.
  cbn [bind]. apply from_dict_columns.
Qed.

Lemma prepare_data_raise (file_data : dict (list Item)) (question_type : string)
    (e : exn) :
  prepare_data file_data question_type = Raise e ->
  e = KeyError question_type \/
  In e [KeyError "question"; KeyError "gold_answer";
        KeyError "generated_answer"; KeyError "context"].
Proof.
  unfold prepare_data, getitem.
  destruct (dict_get question_type file_data) as [items |];
    [| intros H; injection H as <-; now left].
  cbn [bind]. intros H. right.
  destruct (fields item_question "question" items) as [qs | e1] eqn:Hq;
    cbn [bind] in *;
    [| apply fields_raise in Hq; injection H as <-; subst; simpl; tauto].
  destruct (fields item_gold_answer "gold_answer" items) as [gs | e1] eqn:Hg;
    cbn [bind] in *;
    [| apply fields_raise in Hg; injection H as <-; subst; simpl; tauto].
  destruct (fields item_generated_answer "generated_answer" items)
    as [ans | e1] eqn:Ha; cbn [bind] in *;
    [| apply fields_raise in Ha; injection H as <-; subst; simpl; tauto].
  destruct (fields item_context "context" items) as [cs | e1] eqn:Hc;
    cbn [bind] in *;
    [| apply fields_raise in Hc; injection H as <-; subst; simpl; tauto].
  apply fields_ok in Hq, Hg, Ha, Hc.
  destruct (from_dict_rows items qs gs ans cs Hq Hg Ha Hc) as (d & Hd & _).
  rewrite Hd in H. discriminate.
Qed.

(** X9: [prepare_data] returns the rows of a question type exactly when
    the file holds that type and every object of it has its four
    fields; the row fields are the object fields, [gold_answer] going
    to [ground_truth] and [generated_answer] to [answer].  Otherwise it
    raises [KeyError], for the question type or for a missing field,
    and never an error about column lengths. *)
Theorem X9_rows_of_a_question_type
    (file_data : dict (list Item)) (question_type : string) :
  (forall dataset,
      prepare_data file_data question_type = Ok dataset <->
      dict_get question_type file_data = Some (map item_of_sample dataset)) /\
  (dict_get question_type file_data = None ->
   prepare_data file_data question_type = Raise (KeyError question_type)) /\
  (forall e,
      prepare_data file_data question_type = Raise e ->
      e = KeyError question_type \/
      In e [KeyError "question"; KeyError "gold_answer";
            KeyError "generated_answer"; KeyError "context"]).
Proof.
  split; [| split].
  - intros dataset. split; [apply prepare_data_ok | apply prepare_data_rows].
  - intros H. unfold prepare_data, getitem. now rewrite H.
  - apply prepare_data_raise.
Qed.

Lemma efor_each_snd_cons {E A S} (body : S -> A -> Eff E S) (x : A) (xs : list A)
    (acc r : S) :
  snd (efor_each body (x :: xs) acc) = Ok r ->
  exists acc1, snd (body acc x) = Ok acc1 /\ snd (efor_each body xs acc1) = Ok r.
Proof.
  cbn [efor_each]. rewrite ebind_snd.
  destruct (snd (body acc x)) as [acc1 | e]; [| discriminate].
  intros H. now exists acc1.
Qed.

Section World.

Variable compute_rouge_score : string -> string -> result pyval.
Variable compute_answer_correctness :
  string -> string -> string -> ChatOpenAI -> LangchainEmbeddingsWrapper ->
  result pyval.
Variable compute_coverage_score :
  string -> string -> string -> ChatOpenAI -> result pyval.
Variable compute_faithfulness_score :
  string -> string -> list string -> ChatOpenAI -> result pyval.
Variable getenv : string -> option string.
Variable load_embeddings : string -> result HuggingFaceBgeEmbeddings.
Variable read_json : string -> result (dict (list Item)).
Variable open_write : string -> result unit.
Variable schedule : string -> Schedule.

Local Abbreviation evaluate_dataset :=
  (evaluate_dataset compute_rouge_score compute_answer_correctness
     compute_coverage_score compute_faithfulness_score).
Local Abbreviation evaluate_type :=
  (evaluate_type compute_rouge_score compute_answer_correctness
     compute_coverage_score compute_faithfulness_score schedule).
Local Abbreviation main :=
  (main compute_rouge_score compute_answer_correctness
     compute_coverage_score compute_faithfulness_score getenv load_embeddings
     read_json open_write schedule).

(** The judge model client of line 108. *)
Definition configured_llm (args : Namespace) : ChatOpenAI :=
  {| model := arg_model args;
     base_url := arg_base_url args;
     api_key := getenv "OPENAI_API_KEY";
     temperature := 0;
     max_retries := 3;
     timeout := 30 |}.

(** The loop over the question types, as [main] runs it. *)
Definition run_groups (args : Namespace) (bge : HuggingFaceBgeEmbeddings)
    (file_data : dict (list Item)) : IO Report :=
  efor_each (evaluate_type file_data (configured_llm args) {| embeddings := bge |})
            question_types [].

(** The steps of [main] one by one. *)
Lemma main_steps (args : Namespace) :
  main args =
  if negb (truthy_opt (getenv "OPENAI_API_KEY")) then
    ([], Raise (ValueError missing_key_message))
  else
    match load_embeddings (arg_bge_model args) with
    | Raise e =>
        ([ENewChatOpenAI (configured_llm args);
          ELoadEmbeddings (arg_bge_model args)], Raise e)
    | Ok bge =>
        match read_json (arg_data_file args) with
        | Raise e =>
            ([ENewChatOpenAI (configured_llm args);
              ELoadEmbeddings (arg_bge_model args);
              EOpenRead (arg_data_file args)], Raise e)
        | Ok file_data =>
            let header := [ENewChatOpenAI (configured_llm args);
                           ELoadEmbeddings (arg_bge_model args);
                           EOpenRead (arg_data_file args)] in
            match run_groups args bge file_data with
            | (log, Raise e) => (header ++ log, Raise e)
            | (log, Ok all_results) =>
                if truthy (arg_output_file args) then
                  match open_write (arg_output_file args) with
                  | Raise e =>
                      (header ++ log ++ [EOpenWrite (arg_output_file args)],
                       Raise e)
                  | Ok _ =>
                      (header ++ log ++
                       [EOpenWrite (arg_output_file args);
                        EWrite (arg_output_file args) (dump_report all_results)],
                       Ok tt)
                  end
                else (header ++ log, Ok tt)
            end
        end
    end.
Proof.
  unfold Driver.main. destruct (negb _); [reflexivity |].
  unfold Driver.main_after_check, run_groups. fold (configured_llm args).
  cbn [emit ebind lift app].
  destruct (load_embeddings (arg_bge_model args)) as [bge | e];
    cbn [emit ebind lift app]; [| reflexivity].
  destruct (read_json (arg_data_file args)) as [file_data | e];
    cbn [emit ebind lift app]; [| reflexivity].
  match goal with
  | |- context [efor_each ?b ?xs ?a] =>
      destruct (efor_each b xs a) as [log [all_results | e]]
  end; cbn [emit ebind lift app]; [| rewrite ?app_nil_r; reflexivity].
  destruct (truthy (arg_output_file args)); cbn [emit ebind lift ret app].
  - destruct (open_write (arg_output_file args)) as [[] | e];
      cbn [emit ebind lift app]; rewrite ?app_nil_r; reflexivity.
  - rewrite ?app_nil_r. reflexivity.
Qed.

(** A metric call made with the given judge model and embedding model. *)
Definition call_with (llm : ChatOpenAI) (emb : LangchainEmbeddingsWrapper)
    (ev : event) : Prop :=
  exists c, ev = EMetricCall c /\
            (forall l, call_llm c = Some l -> l = llm) /\
            (forall e, call_embeddings c = Some e -> e = emb).

Lemma evaluate_type_events (file_data : dict (list Item)) (llm : ChatOpenAI)
    (emb : LangchainEmbeddingsWrapper) (all_results : Report)
    (question_type : string) (ev : event) :
  In ev (fst (evaluate_type file_data llm emb all_results question_type)) ->
  call_with llm emb ev.
Proof.
  intros H.
  apply (DriverProperties.evaluate_type_calls_In
           compute_rouge_score compute_answer_correctness
           compute_coverage_score compute_faithfulness_score schedule) in H
    as (dataset & metrics & _ & _ & H).
  apply in_map_iff in H as [c [<- Hin]]. exists c. split; [reflexivity |].
  apply in_flat_map in Hin as [s [_ Hin]].
  unfold requested_calls in Hin. apply filter_In in Hin as [Hall _].
  simpl in Hall. destruct Hall as [<- | [<- | [<- | [<- | []]]]]; simpl;
    split; intros x Hx; congruence.
Qed.

Lemma run_groups_events (args : Namespace) (bge : HuggingFaceBgeEmbeddings)
    (file_data : dict (list Item)) (ev : event) :
  In ev (fst (run_groups args bge file_data)) ->
  call_with (configured_llm args) {| embeddings := bge |} ev.
Proof.
  unfold run_groups. intros H.
  apply efor_each_In in H as (qt & acc & _ & H).
  now apply evaluate_type_events in H.
Qed.

Lemma evaluate_dataset_keys (sched : Schedule) (dataset : Dataset)
    (metrics : list string) (llm : ChatOpenAI) (emb : LangchainEmbeddingsWrapper)
    (report : dict pyfloat) :
  snd (evaluate_dataset sched dataset metrics llm emb) = Ok report ->
  dict_keys report = uniq metrics.
Proof.
  rewrite evaluate_dataset_result.
  destruct (snd (collect_dataset _ _ _ _ sched dataset metrics llm emb))
    as [sample_results | e] eqn:Hc; cbn [bind]; [| discriminate].
  rewrite aggregate_spec
    by (eapply collect_dataset_keys_within; eassumption).
  destruct (tests_defined sample_results); [| discriminate].
  intros H. injection H as <-.
  unfold dict_keys. rewrite map_map. simpl. now rewrite map_id.
Qed.

Lemma evaluate_type_result (file_data : dict (list Item)) (llm : ChatOpenAI)
    (emb : LangchainEmbeddingsWrapper) (all_results : Report)
    (question_type : string) (r : Report) :
  snd (evaluate_type file_data llm emb all_results question_type) = Ok r ->
  exists metrics results,
    getitem metric_config question_type = Ok metrics /\
    dict_keys results = uniq metrics /\
    r = dict_set question_type results all_results.
Proof.
  unfold Driver.evaluate_type. rewrite !ebind_snd. cbn [lift snd].
  destruct (prepare_data file_data question_type) as [dataset | e];
    [| discriminate].
  rewrite !ebind_snd. cbn [lift snd].
  destruct (getitem metric_config question_type) as [metrics | e];
    [| discriminate].
  rewrite !ebind_snd. cbn [run_eval ret snd].
  destruct (snd (evaluate_dataset _ dataset metrics llm emb))
    as [results | e] eqn:He; [| discriminate].
  intros H. injection H as <-. exists metrics, results.
  split; [reflexivity |]. split; [| reflexivity].
  eapply evaluate_dataset_keys. exact He.
Qed.

(** The report of a completed run: the four question types in order,
    each with the metrics of the configuration. *)
Lemma run_groups_report (args : Namespace) (bge : HuggingFaceBgeEmbeddings)
    (file_data : dict (list Item)) (r : Report) :
  snd (run_groups args bge file_data) = Ok r ->
  map (fun gd => (fst gd, dict_keys (snd gd))) r = metric_config.
Proof.
  unfold run_groups, question_types. intros H.
  apply efor_each_snd_cons in H as (r1 & H1 & H).
  apply efor_each_snd_cons in H as (r2 & H2 & H).
  apply efor_each_snd_cons in H as (r3 & H3 & H).
  apply efor_each_snd_cons in H as (r4 & H4 & H).
  cbn in H. injection H as <-.
  apply evaluate_type_result in H1 as (m1 & d1 & Hm1 & Hk1 & ->).
  apply evaluate_type_result in H2 as (m2 & d2 & Hm2 & Hk2 & ->).
  apply evaluate_type_result in H3 as (m3 & d3 & Hm3 & Hk3 & ->).
  apply evaluate_type_result in H4 as (m4 & d4 & Hm4 & Hk4 & ->).
  cbn in Hm1, Hm2, Hm3, Hm4.
  injection Hm1 as <-. injection Hm2 as <-.
  injection Hm3 as <-. injection Hm4 as <-.
  cbn -[dict_keys] in Hk1, Hk2, Hk3, Hk4. cbn -[dict_keys].
  unfold metric_config. now rewrite Hk1, Hk2, Hk3, Hk4.
Qed.

(** X10: [main] writes the output file exactly when the whole run
    succeeds and an output path is configured: what is written goes to
    the configured path; a run that raises, at any step, has written
    nothing; with an empty output path the file is not even opened. *)
Theorem X10_output_written_only_on_success (args : Namespace) :
  (forall path content,
      In (EWrite path content) (fst (main args)) ->
      snd (main args) = Ok tt /\ path = arg_output_file args /\
      truthy path = true) /\
  (snd (main args) = Ok tt -> truthy (arg_output_file args) = true ->
   exists content,
     In (EWrite (arg_output_file args) content) (fst (main args))) /\
  (forall e path content,
      snd (main args) = Raise e ->
      ~ In (EWrite path content) (fst (main args))) /\
  (truthy (arg_output_file args) = false ->
   forall path, ~ In (EOpenWrite path) (fst (main args)) /\
                forall content, ~ In (EWrite path content) (fst (main args))).
Proof.
  assert (Hlog : forall bge fd ev,
             In ev (fst (run_groups args bge fd)) ->
             exists c, ev = EMetricCall c).
  { intros bge fd ev H. apply run_groups_events in H as (c & -> & _).
    now exists c. }
  rewrite main_steps.
  destruct (negb (truthy_opt (getenv "OPENAI_API_KEY"))).
  { cbn [fst snd In].
    split; [| split; [| split]]; try discriminate; intros; tauto. }
  destruct (load_embeddings (arg_bge_model args)) as [bge | e0].
  2:{ cbn [fst snd In].
      split; [| split; [| split]]; try discriminate; intros;
        intuition discriminate. }
  destruct (read_json (arg_data_file args)) as [fd | e0].
  2:{ cbn [fst snd In].
      split; [| split; [| split]]; try discriminate; intros;
        intuition discriminate. }
  specialize (Hlog bge fd). cbv zeta.
  destruct (run_groups args bge fd) as [log [all_results | e0]];
    cbn [fst snd] in *.
  - destruct (truthy (arg_output_file args)) eqn:Ht.
    + destruct (open_write (arg_output_file args)) as [[] | e0];
        cbn [fst snd].
      * split; [| split; [| split]].
        -- intros path content H. cbn [app] in H.
           destruct H as [H | [H | [H | H]]]; try discriminate H.
           apply in_app_or in H as [H | H].
           ++ destruct (Hlog _ H) as [c Hc]. discriminate Hc.
           ++ destruct H as [H | [H | []]]; [discriminate H |].
              injection H as <- <-. now repeat split.
        -- intros _ _. exists (dump_report all_results). cbn [app].
           right. right. right. apply in_or_app. right. simpl. tauto.
        -- discriminate.
        -- discriminate.
      * split; [| split; [| split]].
        -- intros path content H. cbn [app] in H.
           destruct H as [H | [H | [H | H]]]; try discriminate H.
           apply in_app_or in H as [H | H].
           ++ destruct (Hlog _ H) as [c Hc]. discriminate Hc.
           ++ destruct H as [H | []]. discriminate H.
        -- discriminate.
        -- intros e path content _ H. cbn [app] in H.
           destruct H as [H | [H | [H | H]]]; try discriminate H.
           apply in_app_or in H as [H | H].
           ++ destruct (Hlog _ H) as [c Hc]. discriminate Hc.
           ++ destruct H as [H | []]. discriminate H.
        -- discriminate.
    + split; [| split; [| split]].
      * intros path content H. cbn [app] in H.
        destruct H as [H | [H | [H | H]]]; try discriminate H.
        destruct (Hlog _ H) as [c Hc]. discriminate Hc.
      * discriminate.
      * discriminate.
      * intros _ path. split; [| intros content]; intros H; cbn [app] in H;
          destruct H as [H | [H | [H | H]]]; try discriminate H;
          destruct (Hlog _ H) as [c Hc]; discriminate Hc.
  - assert (Hno : forall ev, In ev ([ENewChatOpenAI (configured_llm args);
                                     ELoadEmbeddings (arg_bge_model args);
                                     EOpenRead (arg_data_file args)] ++ log) ->
                             (forall p, ev <> EOpenWrite p) /\
                             (forall p c, ev <> EWrite p c)).
    { intros ev H. cbn [app] in H.
      destruct H as [<- | [<- | [<- | H]]]; try (split; discriminate).
      destruct (Hlog _ H) as [c ->]. split; discriminate. }
    split; [| split; [| split]].
    + intros path content H. destruct (Hno _ H) as [_ Hw]. now destruct (Hw path content).
    + discriminate.
    + intros e path content _ H. destruct (Hno _ H) as [_ Hw].
      now destruct (Hw path content).
    + intros _ path. split; [| intros content]; intros H;
        destruct (Hno _ H) as [Ho Hw]; [now destruct (Ho path) |
                                         now destruct (Hw path content)].
Qed.

(** X11: the report that [main] writes has the four question types as
    its groups, in the order type1 to type4, and each group has as its
    metrics the names that the configuration gives to its type, in the
    order of the configuration. *)
Theorem X11_shape_of_the_written_report (args : Namespace)
    (path : string) (content : list Json.token) :
  In (EWrite path content) (fst (main args)) ->
  exists r : Report,
    content = dump_report r /\
    dict_keys r = question_types /\
    map (fun gd => (fst gd, dict_keys (snd gd))) r = metric_config.
Proof.
  assert (Hlog : forall bge fd ev,
             In ev (fst (run_groups args bge fd)) ->
             exists c, ev = EMetricCall c).
  { intros bge fd ev H. apply run_groups_events in H as (c & -> & _).
    now exists c. }
  rewrite main_steps.
  destruct (negb (truthy_opt (getenv "OPENAI_API_KEY"))); [intros [] |].
  destruct (load_embeddings (arg_bge_model args)) as [bge | e0];
    [| simpl; intuition discriminate].
  destruct (read_json (arg_data_file args)) as [fd | e0];
    [| simpl; intuition discriminate].
  specialize (Hlog bge fd). cbv zeta.
  destruct (run_groups args bge fd) as [log [all_results | e0]] eqn:Hrun;
    cbn [fst snd] in *.
  - assert (Hshape := run_groups_report args bge fd all_results).
    rewrite Hrun in Hshape. specialize (Hshape eq_refl).
    assert (Hdone : forall tail,
               In (EWrite path content)
                  ([ENewChatOpenAI (configured_llm args);
                    ELoadEmbeddings (arg_bge_model args);
                    EOpenRead (arg_data_file args)] ++ log ++ tail) ->
               In (EWrite path content) tail).
    { intros tail H. cbn [app] in H.
      destruct H as [H | [H | [H | H]]]; try discriminate H.
      apply in_app_or in H as [H | H]; [| exact H].
      destruct (Hlog _ H) as [c Hc]. discriminate Hc. }
    assert (Hr : exists r : Report,
               dump_report all_results = dump_report r /\
               dict_keys r = question_types /\
               map (fun gd => (fst gd, dict_keys (snd gd))) r = metric_config).
    { exists all_results. split; [reflexivity |]. split; [| exact Hshape].
      apply (f_equal (map fst)) in Hshape. rewrite map_map in Hshape.
      exact Hshape. }
    destruct (truthy (arg_output_file args)).
    + destruct (open_write (arg_output_file args)) as [[] | e0];
        cbn [fst]; intros H; apply Hdone in H.
      * destruct H as [H | [H | []]]; [discriminate H |].
        injection H as _ <-. exact Hr.
      * destruct H as [H | []]. discriminate H.
    + cbn [fst]. intros H. rewrite <- (app_nil_r log) in H.
      apply Hdone in H. destruct H.
  - cbn [fst]. intros H. cbn [app] in H.
    destruct H as [H | [H | [H | H]]]; try discriminate H.
    destruct (Hlog _ H) as [c Hc]. discriminate Hc.
Qed.

(** X12: a metric is computed by [main] only after the credential was
    found, the embedding model was loaded and the data file was read;
    the trace of a run that got that far is the three set-up events,
    then metric calls only, then at most the opening and the writing of
    the output file; and every metric call is given the judge model
    configured from the arguments (temperature 0, 3 retries, timeout
    30, the key of the environment) and the loaded embedding model. *)
Theorem X12_metric_calls_after_setup (args : Namespace) :
  (forall c,
      In (EMetricCall c) (fst (main args)) ->
      truthy_opt (getenv "OPENAI_API_KEY") = true /\
      exists bge file_data,
        load_embeddings (arg_bge_model args) = Ok bge /\
        read_json (arg_data_file args) = Ok file_data /\
        call_with (configured_llm args) {| embeddings := bge |}
                  (EMetricCall c)) /\
  (forall bge file_data,
      truthy_opt (getenv "OPENAI_API_KEY") = true ->
      load_embeddings (arg_bge_model args) = Ok bge ->
      read_json (arg_data_file args) = Ok file_data ->
      exists calls tail,
        fst (main args) =
          [ENewChatOpenAI (configured_llm args);
           ELoadEmbeddings (arg_bge_model args);
           EOpenRead (arg_data_file args)] ++ map EMetricCall calls ++ tail /\
        (tail = [] \/
         tail = [EOpenWrite (arg_output_file args)] \/
         exists r, tail = [EOpenWrite (arg_output_file args);
                           EWrite (arg_output_file args) (dump_report r)])).
Proof.
  split.
  - intros c. rewrite main_steps.
    destruct (truthy_opt (getenv "OPENAI_API_KEY")); cbn [negb];
      [| intros []].
    destruct (load_embeddings (arg_bge_model args)) as [bge | e0];
      [| simpl; intuition discriminate].
    destruct (read_json (arg_data_file args)) as [fd | e0];
      [| simpl; intuition discriminate].
    cbv zeta. intros H. split; [reflexivity |]. exists bge, fd.
    split; [reflexivity |]. split; [reflexivity |].
    apply run_groups_events with (file_data := fd).
    destruct (run_groups args bge fd) as [log [all_results | e0]];
      cbn [fst snd] in *.
    + assert (Hin : In (EMetricCall c)
                       ([ENewChatOpenAI (configured_llm args);
                         ELoadEmbeddings (arg_bge_model args);
                         EOpenRead (arg_data_file args)] ++ log) \/
                    In (EMetricCall c)
                       [EOpenWrite (arg_output_file args);
                        EWrite (arg_output_file args) (dump_report all_results)]).
      { destruct (truthy (arg_output_file args));
          [destruct (open_write (arg_output_file args)) as [[] | e0] |];
          cbn [fst] in H; rewrite ?app_assoc in H.
        - apply in_app_or in H as [H | H]; [now left | now right].
        - apply in_app_or in H as [H | H]; [now left |].
          right. destruct H as [H | []]. now left.
        - now left. }
      destruct Hin as [Hin | [Hin | [Hin | []]]]; try discriminate Hin.
      cbn [app] in Hin.
      destruct Hin as [Hin | [Hin | [Hin | Hin]]]; try discriminate Hin.
      exact Hin.
    + cbn [app] in H.
      destruct H as [H | [H | [H | H]]]; try discriminate H. exact H.
  - intros bge fd Hkey Hload Hread. rewrite main_steps, Hkey, Hload, Hread.
    cbn [negb]. cbv zeta.
    assert (Hcalls : exists calls,
               fst (run_groups args bge fd) = map EMetricCall calls).
    { generalize (run_groups_events args bge fd).
      induction (fst (run_groups args bge fd)) as [| ev log IH]; intros H.
      - now exists [].
      - destruct (H ev (or_introl eq_refl)) as (c & -> & _).
        destruct IH as [calls ->]; [intros ev' Hev'; apply H; now right |].
        now exists (c :: calls). }
    destruct Hcalls as [calls Hcalls].
    destruct (run_groups args bge fd) as [log [all_results | e0]];
      cbn [fst snd] in *; subst log; exists calls.
    + destruct (truthy (arg_output_file args));
        [destruct (open_write (arg_output_file args)) as [[] | e0] |];
        cbn [fst].
      * eexists. split; [reflexivity |]. right. right. now eexists.
      * eexists. split; [reflexivity |]. right. now left.
      * exists []. split; [now rewrite app_nil_r | now left].
    + exists []. split; [now rewrite app_nil_r | now left].
Qed.

End World.

End DriverExtras.

(* ================================================================== *)
(** * Finishing orders within a sample *)
(* ================================================================== *)

Module OutcomeExtras.

Import GenEval Spec PyFacts AsyncioFacts SampleFacts AggregateFacts DatasetFacts.
Import AggregationProperties.

Section WithMetrics.

Variable compute_rouge_score : string -> string -> result pyval.
Variable compute_answer_correctness :
  string -> string -> string -> ChatOpenAI -> LangchainEmbeddingsWrapper ->
  result pyval.
Variable compute_coverage_score :
  string -> string -> string -> ChatOpenAI -> result pyval.
Variable compute_faithfulness_score :
  string -> string -> list string -> ChatOpenAI -> result pyval.

Local Abbreviation evaluate_sample :=
  (evaluate_sample compute_rouge_score compute_answer_correctness
     compute_coverage_score compute_faithfulness_score).
Local Abbreviation evaluate_row :=
  (evaluate_row compute_rouge_score compute_answer_correctness
     compute_coverage_score compute_faithfulness_score).
Local Abbreviation collect_dataset :=
  (collect_dataset compute_rouge_score compute_answer_correctness
     compute_coverage_score compute_faithfulness_score).
Local Abbreviation evaluate_dataset :=
  (evaluate_dataset compute_rouge_score compute_answer_correctness
     compute_coverage_score compute_faithfulness_score).

(** X13: when [evaluate_sample] returns a mapping, it makes the same
    calls and returns the same mapping under every order in which its
    metric computations finish: the order can only decide which
    exception is raised when several computations fail. *)
Theorem X13_sample_result_independent_of_finishing_order
    (order order' : list nat) (question answer : string)
    (contexts : list string) (ground_truth : string) (metrics : list string)
    (llm : ChatOpenAI) (emb : LangchainEmbeddingsWrapper) (r : dict pyval) :
  snd (evaluate_sample order question answer contexts ground_truth
         metrics llm emb) = Ok r ->
  evaluate_sample order' question answer contexts ground_truth metrics llm emb =
  evaluate_sample order question answer contexts ground_truth metrics llm emb.
Proof.
  set (s := {| question := question; answer := answer; contexts := contexts;
               ground_truth := ground_truth |}).
  change (snd (evaluate_row order s metrics llm emb) = Ok r ->
          evaluate_row order' s metrics llm emb =
          evaluate_row order s metrics llm emb).
  intros H.
  rewrite (surjective_pairing (evaluate_row order' s metrics llm emb)).
  rewrite (surjective_pairing (evaluate_row order s metrics llm emb)).
  rewrite !evaluate_row_calls. f_equal.
  rewrite H. rewrite evaluate_row_result in H |- *.
  destruct (Asyncio.gather order _) as [vs | e] eqn:G; cbn [bind] in H;
    [| discriminate].
  apply gather_ok in G. rewrite G, gather_all_ok. exact H.
Qed.

End WithMetrics.

End OutcomeExtras.

(* ================================================================== *)
(** * The further properties on the concrete world *)
(* ================================================================== *)

Module ExtraExamples.

Import GenEval Driver Spec Progress.
Import EvaluatorExtras ProgressProperties DriverExtras.
Import OutcomeExtras.

(** The report of the run of [Demo.main] on [Demo.file_data]. *)
Definition written_report : Report :=
  [ ("type1", [("rouge_score", 0.5%float); ("answer_correctness", 0.75%float)]);
    ("type2", [("rouge_score", 1%float); ("answer_correctness", 0.75%float)]);
    ("type3", [("answer_correctness", NaN); ("coverage_score", 0.5%float)]);
    ("type4", [("answer_correctness", 0.75%float);
               ("coverage_score", 0.5%float); ("faithfulness", 1%float)]) ].

Lemma X2_on_unknown_metric :
  Demo.evaluate_sample [0] "q1" "Paris" ["ctx"] "Paris" ["bleu"]
    Demo.llm Demo.emb = ([], Ok []).
Proof.
  apply (X2_no_supported_metric_empty_result
           Demo.rouge Demo.correctness Demo.coverage Demo.faithfulness).
  intros m [<- | []]. simpl. intuition discriminate.
Defined.

Lemma X3_on_demo_sample :
  snd (Demo.evaluate_sample [1; 0] "q1" "Paris" ["ctx"] "Paris"
         ["answer_correctness"; "rouge_score"] Demo.llm Demo.emb) =
    Ok [("rouge_score", VFloat 1%float);
        ("answer_correctness", VFloat 0.75%float)] /\
  exists c, metric_of c = "answer_correctness" /\
            Demo.correctness "q1" "Paris" "Paris" Demo.llm Demo.emb =
              Ok (VFloat 0.75%float) /\
            c = CallCorrectness "q1" "Paris" "Paris" Demo.llm Demo.emb.
Proof.
  split; [reflexivity |].
  destruct (proj1 (X3_results_filed_under_their_metric
                     Demo.rouge Demo.correctness Demo.coverage Demo.faithfulness
                     [1; 0] "q1" "Paris" ["ctx"] "Paris"
                     ["answer_correctness"; "rouge_score"] Demo.llm Demo.emb
                     [("rouge_score", VFloat 1%float);
                      ("answer_correctness", VFloat 0.75%float)]
                     eq_refl "answer_correctness" (VFloat 0.75%float))
                  eq_refl)
    as (c & Hall & _ & Hm & Hv).
  exists c. split; [exact Hm |]. split; [reflexivity |].
  simpl in Hall. destruct Hall as [<- | [<- | [<- | [<- | []]]]];
    try discriminate Hm. reflexivity.
Defined.

Lemma X6_on_failing_group :
  snd (Demo.evaluate_dataset Demo.sched Demo.group_failing
         ["answer_correctness"; "faithfulness"] Demo.llm Demo.emb) =
    Raise (ExternalError "judge model call failed") /\
  ((exists sample_results,
       snd (Demo.collect_dataset Demo.sched Demo.group_failing
              ["answer_correctness"; "faithfulness"] Demo.llm Demo.emb) =
         Ok sample_results /\
       tests_defined sample_results = false /\
       ExternalError "judge model call failed" = TypeError) \/
   (exists s c,
       In s Demo.group_failing /\
       In c (requested_calls ["answer_correctness"; "faithfulness"] s
               Demo.llm Demo.emb) /\
       await Demo.rouge Demo.correctness Demo.coverage Demo.faithfulness c =
         Raise (ExternalError "judge model call failed"))).
Proof.
  split; [reflexivity |].
  apply (X6_exceptions_come_from_the_computers
           Demo.rouge Demo.correctness Demo.coverage Demo.faithfulness
           Demo.sched Demo.group_failing
           ["answer_correctness"; "faithfulness"] Demo.llm Demo.emb).
  reflexivity.
Defined.

Lemma X8_on_demo_group :
  fst (Progress.dataset_progress
         Demo.rouge Demo.correctness Demo.coverage Demo.faithfulness
         Demo.sched Demo.group Demo.metrics Demo.llm Demo.emb) =
  [(1, 2); (2, 2)] /\
  fst (Progress.dataset_progress
         Demo.rouge Demo.correctness Demo.coverage Demo.faithfulness
         Demo.sched_pair Demo.group_failing
         ["answer_correctness"; "faithfulness"] Demo.llm Demo.emb) =
  [(1, 2)] /\
  snd (Progress.dataset_progress
         Demo.rouge Demo.correctness Demo.coverage Demo.faithfulness
         Demo.sched_pair Demo.group_failing
         ["answer_correctness"; "faithfulness"] Demo.llm Demo.emb) =
  Raise (ExternalError "judge model call failed").
Proof.
  destruct (X8_progress_reports
              Demo.rouge Demo.correctness Demo.coverage Demo.faithfulness
              Demo.sched Demo.group Demo.metrics Demo.llm Demo.emb)
    as (_ & _ & _ & H).
  destruct (H Examples.completion_two) as (_ & Hall).
  destruct (X8_progress_reports
              Demo.rouge Demo.correctness Demo.coverage Demo.faithfulness
              Demo.sched_pair Demo.group_failing
              ["answer_correctness"; "faithfulness"] Demo.llm Demo.emb)
    as (_ & Hstop & _).
  split.
  - apply Hall. intros p Hp. simpl in Hp.
    destruct Hp as [<- | [<- | []]]; eexists; reflexivity.
  - apply (Hstop [[("answer_correctness", VFloat 0.75%float);
                   ("faithfulness", VFloat 1%float)]]
                 (ExternalError "judge model call failed") []).
    reflexivity.
Defined.

Lemma X11_on_demo_file :
  In (EWrite "evaluation_results.json" (dump_report written_report))
     (fst (Demo.main Demo.env_with_key)) /\
  exists r : Report,
    dump_report written_report = dump_report r /\
    dict_keys r = question_types /\
    map (fun gd => (fst gd, dict_keys (snd gd))) r = metric_config.
Proof.
  assert (H : In (EWrite "evaluation_results.json" (dump_report written_report))
                 (fst (Demo.main Demo.env_with_key))).
  { vm_compute. tauto. }
  split; [exact H |].
  exact (X11_shape_of_the_written_report
           Demo.rouge Demo.correctness Demo.coverage Demo.faithfulness
           Demo.env_with_key Demo.load_embeddings Demo.read_json
           Demo.open_write Demo.schedule Demo.args
           "evaluation_results.json" (dump_report written_report) H).
Defined.

Lemma X13_on_demo_sample :
  snd (Demo.evaluate_sample [1; 0] "q1" "Paris" ["ctx"] "Paris"
         ["answer_correctness"; "rouge_score"] Demo.llm Demo.emb) =
    Ok [("rouge_score", VFloat 1%float);
        ("answer_correctness", VFloat 0.75%float)] /\
  Demo.evaluate_sample [0; 1] "q1" "Paris" ["ctx"] "Paris"
    ["answer_correctness"; "rouge_score"] Demo.llm Demo.emb =
  Demo.evaluate_sample [1; 0] "q1" "Paris" ["ctx"] "Paris"
    ["answer_correctness"; "rouge_score"] Demo.llm Demo.emb.
Proof.
  split; [reflexivity |].
  exact (X13_sample_result_independent_of_finishing_order
           Demo.rouge Demo.correctness Demo.coverage Demo.faithfulness
           [1; 0] [0; 1] "q1" "Paris" ["ctx"] "Paris"
           ["answer_correctness"; "rouge_score"] Demo.llm Demo.emb
           [("rouge_score", VFloat 1%float);
            ("answer_correctness", VFloat 0.75%float)] eq_refl).
Defined.

Lemma X9_on_demo_file :
  prepare_data Demo.file_data "type2" =
    Ok [ {| question := "q5"; answer := "4"; contexts := ["ctx"];
            ground_truth := "4" |} ] /\
  prepare_data Demo.file_data "type9" = Raise (KeyError "type9").
Proof.
  destruct (X9_rows_of_a_question_type Demo.file_data "type2") as (Hrows & _).
  destruct (X9_rows_of_a_question_type Demo.file_data "type9") as (_ & Hkey & _).
  split; [apply Hrows; reflexivity | apply Hkey; reflexivity].
Defined.

Lemma X10_on_demo_runs :
  (exists content,
      In (EWrite "evaluation_results.json" content)
         (fst (Demo.main Demo.env_with_key))) /\
  ~ In (EWrite "evaluation_results.json" (dump_report written_report))
       (fst (Demo.main Demo.env_without_key)).
Proof.
  destruct (X10_output_written_only_on_success
              Demo.rouge Demo.correctness Demo.coverage Demo.faithfulness
              Demo.env_with_key Demo.load_embeddings Demo.read_json
              Demo.open_write Demo.schedule Demo.args) as (_ & Hdone & _).
  destruct (X10_output_written_only_on_success
              Demo.rouge Demo.correctness Demo.coverage Demo.faithfulness
              Demo.env_without_key Demo.load_embeddings Demo.read_json
              Demo.open_write Demo.schedule Demo.args) as (_ & _ & Hfail & _).
  split.
  - apply Hdone; reflexivity.
  - apply (Hfail (ValueError "OPENAI_API_KEY environment variable is not set")).
    reflexivity.
Defined.

Lemma X12_on_demo_run :
  In (EMetricCall (CallRouge "4" "4")) (fst (Demo.main Demo.env_with_key)) /\
  truthy_opt (Demo.env_with_key "OPENAI_API_KEY") = true /\
  exists bge file_data,
    Demo.load_embeddings (arg_bge_model Demo.args) = Ok bge /\
    Demo.read_json (arg_data_file Demo.args) = Ok file_data /\
    call_with (configured_llm Demo.env_with_key Demo.args)
              {| embeddings := bge |} (EMetricCall (CallRouge "4" "4")).
Proof.
  assert (H : In (EMetricCall (CallRouge "4" "4"))
                 (fst (Demo.main Demo.env_with_key))).
  { vm_compute. tauto. }
  split; [exact H |].
  destruct (X12_metric_calls_after_setup
              Demo.rouge Demo.correctness Demo.coverage Demo.faithfulness
              Demo.env_with_key Demo.load_embeddings Demo.read_json
              Demo.open_write Demo.schedule Demo.args) as (Hcalls & _).
  exact (Hcalls (CallRouge "4" "4") H).
Defined.

End ExtraExamples.
